(** * InfluxDB v2 output: the HTTP delivery client

    A shallow embedding of [plugins/outputs/influxdb_v2/http.go] and the
    properties of its URL builder, response handling, back-off, bucket
    manager and [Write] orchestration.

    Layout:
    - the parts of the Go standard library the client calls ([strings],
      [path], [net/url], [math], [time]), written out as executable
      functions;
    - the data model ([APIError], [httpClient], requests, responses) and
      the world the client runs against (clock, transport, metric store);
    - the client's functions, one definition per Go function, in a small
      state monad;
    - the theorems. *)

From Stdlib Require Import ZArith QArith Qround Qminmax String Ascii List Lia.
From Stdlib Require Import DecimalString Permutation.
From stdpp Require Import base gmap strings list fin_maps.

Open Scope string_scope.
Open Scope Z_scope.

(** ** Go's [strings] package *)

Module GoStrings.

(** [strings.HasPrefix]. *)
Fixpoint HasPrefix (s pre : string) {struct pre} : bool :=
  match pre with
  | EmptyString => true
  | String a pre' =>
      match s with
      | EmptyString => false
      | String b s' => Ascii.eqb a b && HasPrefix s' pre'
      end
  end.

(** [strings.Contains]: [substr] occurs somewhere in [s]. *)
Fixpoint Contains (s substr : string) : bool :=
  if HasPrefix s substr then true
  else match s with
       | EmptyString => false
       | String _ s' => Contains s' substr
       end.

(** [strings.Join]. *)
Fixpoint Join (elems : list string) (sep : string) : string :=
  match elems with
  | [] => ""
  | [e] => e
  | e :: rest => e +:+ sep +:+ Join rest sep
  end.

End GoStrings.

(** ** Go's [path] package *)

Module GoPath.

Definition slash : ascii := "/"%char.

(** The elements of a path between its slashes; ["a//b"] has the
    elements ["a"], [""] and ["b"]. *)
Fixpoint elements (p : string) : list string :=
  match p with
  | EmptyString => [""]
  | String c p' =>
      if Ascii.eqb c slash then "" :: elements p'
      else match elements p' with
           | [] => [String c ""]
           | e :: es => String c e :: es
           end
  end.

(** The loop of [path.Clean] over the elements: [out] is the output
    buffer, last element first.  An empty element and ["."] are skipped;
    [".."] removes the last real element, is dropped at the root of a
    rooted path and is kept at the front of a relative one. *)
Fixpoint cleanLoop (rooted : bool) (out : list string) (elems : list string)
  : list string :=
  match elems with
  | [] => out
  | e :: rest =>
      if String.eqb e "" then cleanLoop rooted out rest
      else if String.eqb e "." then cleanLoop rooted out rest
      else if String.eqb e ".." then
        match out with
        | top :: out' =>
            if String.eqb top ".." then cleanLoop rooted (e :: out) rest
            else cleanLoop rooted out' rest
        | [] =>
            if rooted then cleanLoop rooted out rest
            else cleanLoop rooted (e :: out) rest
        end
      else cleanLoop rooted (e :: out) rest
  end.

(** [path.Clean]: the shortest path equivalent to [p] by purely lexical
    processing. *)
Definition Clean (p : string) : string :=
  if String.eqb p "" then "."
  else
    let rooted := GoStrings.HasPrefix p "/" in
    let out := GoStrings.Join (rev (cleanLoop rooted [] (elements p))) "/" in
    if rooted then "/" +:+ out
    else if String.eqb out "" then "." else out.

(** [path.Join] of two elements: empty elements are ignored, the rest is
    joined with a slash and cleaned. *)
Definition Join (a b : string) : string :=
  if String.eqb a "" then
    if String.eqb b "" then "" else Clean b
  else if String.eqb b "" then Clean a
  else Clean (a +:+ "/" +:+ b).

End GoPath.

(** ** Go's [net/url] package *)

Module GoURL.

(** [url.Userinfo]: a user name and, when one is set, a password. *)
Record Userinfo := mkUserinfo {
  username : string;
  password : string;
  passwordSet : bool;
}.

(** [url.URL]. *)
Record URL := mkLocation {
  Scheme : string;
  Opaque : string;
  User : option Userinfo;
  Host : string;
  Path : string;
  RawPath : string;
  OmitHost : bool;
  ForceQuery : bool;
  RawQuery : string;
  Fragment : string;
  RawFragment : string;
}.

(** The URL [scheme://host/path?query]: these four parts and nothing
    else. *)
Definition mkURL (scheme host path query : string) : URL :=
  mkLocation scheme "" None host path "" false false query "" "".

(** Assignments to the fields the client writes to. *)
Definition set_Scheme (v : string) (u : URL) : URL :=
  mkLocation v (Opaque u) (User u) (Host u) (Path u) (RawPath u) (OmitHost u)
    (ForceQuery u) (RawQuery u) (Fragment u) (RawFragment u).

Definition set_Host (v : string) (u : URL) : URL :=
  mkLocation (Scheme u) (Opaque u) (User u) v (Path u) (RawPath u) (OmitHost u)
    (ForceQuery u) (RawQuery u) (Fragment u) (RawFragment u).

Definition set_Path (v : string) (u : URL) : URL :=
  mkLocation (Scheme u) (Opaque u) (User u) (Host u) v (RawPath u) (OmitHost u)
    (ForceQuery u) (RawQuery u) (Fragment u) (RawFragment u).

Definition set_RawQuery (v : string) (u : URL) : URL :=
  mkLocation (Scheme u) (Opaque u) (User u) (Host u) (Path u) (RawPath u) (OmitHost u)
    (ForceQuery u) v (Fragment u) (RawFragment u).

Inductive encoding :=
  | encodePath
  | encodeHost
  | encodeUserPassword
  | encodeQueryComponent
  | encodeFragment.

Definition between (lo hi c : ascii) : bool :=
  (nat_of_ascii lo <=? nat_of_ascii c)%nat && (nat_of_ascii c <=? nat_of_ascii hi)%nat.

Definition isAlnum (c : ascii) : bool :=
  between "a" "z" c || between "A" "Z" c || between "0" "9" c.

Definition oneOf (set : string) (c : ascii) : bool :=
  existsb (Ascii.eqb c) (list_ascii_of_string set).

(** [shouldEscape]: whether byte [c] is written as [%XX] in the given
    part of a URL. *)
Definition shouldEscape (c : ascii) (mode : encoding) : bool :=
  if isAlnum c then false
  else if (match mode with encodeHost => oneOf "!$&'()*+,;=:[]<>" c || Ascii.eqb c (ascii_of_nat 34) | _ => false end)
  then false
  else if oneOf "-_.~" c then false
  else if oneOf "$&+,/:;=?@" c then
    match mode with
    | encodePath => Ascii.eqb c "?"
    | encodeHost => true
    | encodeUserPassword => oneOf "@/?:" c
    | encodeQueryComponent => true
    | encodeFragment => false
    end
  else if (match mode with encodeFragment => oneOf "!()*" c | _ => false end)
  then false
  else true.

Definition upperhex : string := "0123456789ABCDEF".

Definition hexDigit (n : nat) : ascii :=
  match String.get n upperhex with Some c => c | None => "0"%char end.

Definition escapeByte (mode : encoding) (c : ascii) : string :=
  if Ascii.eqb c " " && (match mode with encodeQueryComponent => true | _ => false end)
  then "+"
  else if shouldEscape c mode then
    String "%" (String (hexDigit (nat_of_ascii c / 16))
               (String (hexDigit (nat_of_ascii c mod 16)) ""))
  else String c "".

Fixpoint escape (s : string) (mode : encoding) : string :=
  match s with
  | EmptyString => ""
  | String c s' => escapeByte mode c +:+ escape s' mode
  end.

Definition QueryEscape (s : string) : string := escape s encodeQueryComponent.

(** [url.Values]: the keys are kept in byte order, which is the order
    [Encode] writes them in. *)
Definition Values := list (string * list string).

(** [Values.Set]: the key now has exactly this value. *)
Fixpoint Values_Set (key value : string) (v : Values) : Values :=
  match v with
  | [] => [(key, [value])]
  | (k, vs) :: rest =>
      match String.compare key k with
      | Lt => (key, [value]) :: v
      | Eq => (key, [value]) :: rest
      | Gt => (k, vs) :: Values_Set key value rest
      end
  end.

Definition encodeKey (k : string) (vs : list string) : list string :=
  map (fun v => QueryEscape k +:+ "=" +:+ QueryEscape v) vs.

(** [Values.Encode]: [key=value] pairs joined by [&], sorted by key. *)
Definition Values_Encode (v : Values) : string :=
  GoStrings.Join (flat_map (fun kv => encodeKey (fst kv) (snd kv)) v) "&".

(** [unhex]: the value of a hexadecimal digit. *)
Definition unhex (c : ascii) : option nat :=
  if between "0" "9" c then Some (nat_of_ascii c - 48)%nat
  else if between "a" "f" c then Some (nat_of_ascii c - 87)%nat
  else if between "A" "F" c then Some (nat_of_ascii c - 55)%nat
  else None.

(** [unescape], in the modes of a path, a fragment and a query
    component: [%XX] is the byte with that code, and a [%] without two
    hexadecimal digits behind it is an error; [+] is a space in a query
    component and itself elsewhere. *)
Fixpoint unescape (s : string) (mode : encoding) : option string :=
  match s with
  | EmptyString => Some ""
  | String c rest =>
      if Ascii.eqb c "%" then
        match rest with
        | String h (String l rest') =>
            match unhex h, unhex l with
            | Some a, Some b =>
                option_map (String (ascii_of_nat (16 * a + b))) (unescape rest' mode)
            | _, _ => None
            end
        | _ => None
        end
      else if Ascii.eqb c "+"
              && (match mode with encodeQueryComponent => true | _ => false end)
      then option_map (String " ") (unescape rest mode)
      else option_map (String c) (unescape rest mode)
  end.

(** [validEncoded]: the text may stand as it is for a part of this
    kind. *)
Definition validEncoded (s : string) (mode : encoding) : bool :=
  forallb (fun c => oneOf "!$&'()*+,;=:@[]%" c || negb (shouldEscape c mode))
    (list_ascii_of_string s).

Definition nonEmpty (s : string) : bool := negb (String.eqb s "").

(** Whether the raw form of a part is the one to print: it is there, it
    is valid, and it decodes to the part. *)
Definition rawIsCurrent (raw part : string) (mode : encoding) : bool :=
  nonEmpty raw && validEncoded raw mode
  && match unescape raw mode with
     | Some p => String.eqb p part
     | None => false
     end.

(** [URL.EscapedPath]. *)
Definition EscapedPath (u : URL) : string :=
  if rawIsCurrent (RawPath u) (Path u) encodePath then RawPath u
  else if String.eqb (Path u) "*" then "*"
  else escape (Path u) encodePath.

(** [URL.EscapedFragment]. *)
Definition EscapedFragment (u : URL) : string :=
  if rawIsCurrent (RawFragment u) (Fragment u) encodeFragment then RawFragment u
  else escape (Fragment u) encodeFragment.

(** [Userinfo.String]: [user] or [user:password]. *)
Definition Userinfo_String (ui : Userinfo) : string :=
  escape (username ui) encodeUserPassword
  +:+ (if passwordSet ui then ":" +:+ escape (password ui) encodeUserPassword else "").

Definition firstSegment (p : string) : string :=
  match GoPath.elements p with e :: _ => e | [] => "" end.

(** A pointer that is not nil. *)
Definition isSet {A : Type} (p : option A) : bool :=
  match p with Some _ => true | None => false end.

(** [URL.String]: [scheme:opaque?query#fragment] or
    [scheme://userinfo@host/path?query#fragment]. *)
Definition URL_String (u : URL) : string :=
  let scheme := if nonEmpty (Scheme u) then Scheme u +:+ ":" else "" in
  let front :=
    if nonEmpty (Opaque u) then scheme +:+ Opaque u
    else
      let authority :=
        if nonEmpty (Scheme u) || nonEmpty (Host u) || isSet (User u) then
          if OmitHost u && negb (nonEmpty (Host u)) && negb (isSet (User u))
          then ""
          else
            (if nonEmpty (Host u) || nonEmpty (Path u) || isSet (User u)
             then "//" else "")
            +:+ match User u with
                | Some ui => Userinfo_String ui +:+ "@"
                | None => ""
                end
            +:+ (if nonEmpty (Host u) then escape (Host u) encodeHost else "")
        else "" in
      let path := EscapedPath u in
      let sep :=
        if nonEmpty path && negb (GoStrings.HasPrefix path "/") && nonEmpty (Host u)
        then "/" else "" in
      let buf := scheme +:+ authority +:+ sep in
      let rel :=
        if String.eqb buf "" && GoStrings.Contains (firstSegment path) ":"
        then "./" else "" in
      buf +:+ rel +:+ path in
  let query := if ForceQuery u || nonEmpty (RawQuery u) then "?" +:+ RawQuery u else "" in
  let fragment := if nonEmpty (Fragment u) then "#" +:+ EscapedFragment u else "" in
  front +:+ query +:+ fragment.

End GoURL.

Import GoURL.

(** ** Go's numbers: [int], [float64], [time] *)

Module GoNum.

(** A Go [int] or [int64] is an integer in [-2^63, 2^63); arithmetic on
    it wraps around. *)
Definition wrap64 (z : Z) : Z := (z + 2 ^ 63) mod 2 ^ 64 - 2 ^ 63.

(** A [float64] seen as the number it stands for.  The client only
    squares a counter, divides it by 40, compares and truncates: the
    rounding of the division is smaller than the distance of the
    quotient to the next whole second, so the truncated result is the
    one of the exact quotient. *)
Inductive float64 :=
  | FFinite (q : Q)
  | FInf (negative : bool)
  | FNaN.

(** [float64(n)] for an [int]. *)
Definition ofInt (n : Z) : float64 := FFinite (inject_Z n).

(** [math.Pow(x, 2)]. *)
Definition Pow2 (x : float64) : float64 :=
  match x with
  | FFinite q => FFinite (q * q)
  | FInf _ => FInf false
  | FNaN => FNaN
  end.

(** [x / 40]. *)
Definition div40 (x : float64) : float64 :=
  match x with
  | FFinite q => FFinite (q / inject_Z 40)
  | other => other
  end.

(** [math.Max]: an infinity wins over NaN, NaN over a number. *)
Definition Max (x y : float64) : float64 :=
  match x, y with
  | FInf false, _ | _, FInf false => FInf false
  | FNaN, _ | _, FNaN => FNaN
  | FInf true, other | other, FInf true => other
  | FFinite a, FFinite b => FFinite (if Qle_bool a b then b else a)
  end.

(** [math.Min]. *)
Definition Min (x y : float64) : float64 :=
  match x, y with
  | FInf true, _ | _, FInf true => FInf true
  | FNaN, _ | _, FNaN => FNaN
  | FInf false, other | other, FInf false => other
  | FFinite a, FFinite b => FFinite (if Qle_bool a b then a else b)
  end.

(** Truncation towards zero. *)
Definition truncate (q : Q) : Z :=
  if Qle_bool 0 q then Qfloor q else Qceiling q.

(** The conversion [int64(x)] of a [float64]: truncation for a number in
    range; what comes out otherwise depends on the machine and is given
    by [unrepresentable]. *)
Definition toInt64 (unrepresentable : Z) (x : float64) : Z :=
  match x with
  | FFinite q =>
      let z := truncate q in
      if (- 2 ^ 63 <=? z) && (z <? 2 ^ 63) then z else unrepresentable
  | _ => unrepresentable
  end.

(** [time.Time] is a count of nanoseconds, [time.Duration] a number of
    nanoseconds. *)
Definition Second : Z := 1000000000.

(** The zero [time.Time], January 1 of year 1, counted from 1970. *)
Definition zeroTime : Z := -62135596800 * Second.

(** [%d] of an integer. *)
Definition itoa (z : Z) : string := NilZero.string_of_int (Z.to_int z).

End GoNum.

Import GoNum.

(** ** Data model *)

Record APIError := mkAPIError {
  StatusCode : Z;
  Title : string;
  Description : string;
}.

(** [APIError.Error]. *)
Definition APIError_Error (e : APIError) : string :=
  if negb (String.eqb (Description e) "") then Title e +:+ ": " +:+ Description e
  else Title e.

Definition defaultMaxWait : Z := 60.
Definition errStringBucketNotFound : string := "not found: bucket".

Record orgInfo := mkOrgInfo { Id : string }.

(** [createBucketRequest], the payload of a bucket creation. *)
Record createBucketRequest := mkCreateBucketRequest {
  Name : string;
  OrgID : string;
}.

(** An [*int32] field of a decoded body: where the number is stored and
    the number. *)
Record int32ptr := mkInt32ptr { address : Z; pointee : Z }.

Record genericRespError := mkGenericRespError {
  Code : string;
  Message : string;
  Line : option int32ptr;
  MaxLength : option int32ptr;
}.

(** [genericRespError.Error].  The [%d] verbs receive the pointers. *)
Definition genericRespError_Error (g : genericRespError) : string :=
  let errString := Code g +:+ ": " +:+ Message g in
  match Line g, MaxLength g with
  | Some p, _ => errString +:+ " - line[" +:+ itoa (address p) +:+ "]"
  | None, Some p => errString +:+ " - maxlen[" +:+ itoa (address p) +:+ "]"
  | None, None => errString
  end.

(** A metric is handled through a reference into the metric store. *)
Definition Metric := nat.

Record MetricData := mkMetricData {
  measurement : string;
  tags : gmap string string;
  fields : list (string * string);
  timestamp : Z;
}.

(** *** HTTP messages *)

Module GoHTTP.

Definition StatusOK : Z := 200.
Definition StatusCreated : Z := 201.
Definition StatusAccepted : Z := 202.
Definition StatusNoContent : Z := 204.
Definition StatusPartialContent : Z := 206.
Definition StatusMultiStatus : Z := 207.
Definition StatusAlreadyReported : Z := 208.
Definition StatusBadRequest : Z := 400.
Definition StatusUnauthorized : Z := 401.
Definition StatusForbidden : Z := 403.
Definition StatusNotAcceptable : Z := 406.
Definition StatusRequestEntityTooLarge : Z := 413.
Definition StatusUnprocessableEntity : Z := 422.
Definition StatusTooManyRequests : Z := 429.
Definition StatusBadGateway : Z := 502.
Definition StatusServiceUnavailable : Z := 503.
Definition StatusGatewayTimeout : Z := 504.

(** What a request carries: nothing, the line protocol of a batch
    (gzipped or not), or the JSON of a bucket creation.  The serializer
    is outside the client; the batch stands for its serialization. *)
Inductive Payload :=
  | NoBody
  | LineProtocol (gzip : bool) (batch : list MetricData)
  | CreateBucketJSON (r : createBucketRequest).

Record Request := mkRequest {
  Method : string;
  URL : string;
  ReqHeader : gmap string string;
  ReqBody : Payload;
}.

(** A response body, seen through the readers the client applies to it:
    [ioutil.ReadAll] (the bytes, or the error of reading), [json.Valid],
    and [json.Decode] into each of the two shapes ([None] when decoding
    fails). *)
Record ResponseBody := mkResponseBody {
  readAll : string + string;
  jsonValid : bool;
  decodeGeneric : option genericRespError;
  decodeOrgs : option (list orgInfo);
}.

Record Response := mkResponse {
  StatusCode : Z;
  Status : string;
  Header : gmap string string;
  Body : ResponseBody;
}.

(** [Header.Get]: the value, or the empty string. *)
Definition Get (h : gmap string string) (key : string) : string :=
  default "" (h !! key).

(** [Header.Set], for a name that is in canonical form already: the
    value is filed under the name as it is written. *)
Definition Set' (h : gmap string string) (key value : string) : gmap string string :=
  <[key := value]> h.

End GoHTTP.

(** The errors the client returns, one constructor per place that makes
    one: [errors.New] of the retry window, the unsupported scheme of the
    URL builder, the errors of [http.NewRequest], of the gzip helper, of
    the transport and of [json.Decode], the [fmt.Errorf] of an
    unauthorized and of a throttled write, [*BucketNotFoundError],
    [*APIError], and the [fmt.Errorf] of the organization lookup. *)
Inductive error :=
  | ErrRetryTime
  | ErrUnsupportedScheme (scheme : string)
  | ErrNewRequest (msg : string)
  | ErrCompress (msg : string)
  | ErrTransport (msg : string)
  | ErrDecode
  | ErrFailedToWrite (status desc : string)
  | ErrWaiting (retryDuration : Z)
  | ErrBucketNotFound (e : APIError) (bucket : string)
  | ErrAPI (e : APIError)
  | ErrOrgID (org : string).

(** The lines the client logs. *)
Inductive LogLine :=
  | LogBucketCreationFailed (url bucket : string) (err : error)
  | LogWillBeDropped (status desc : string)
  | LogWillRetry (retryDuration : Z) (status : string).

(** What the client does to the outside, in the order it happens. *)
Inductive Event :=
  | EvRoundTrip (req : GoHTTP.Request) (res : string + GoHTTP.Response)
  | EvLog (l : LogLine)
  | EvOnClientError (err : string)
  | EvAccept (m : Metric).

(** *** The client *)

Record httpClient := mkHttpClient {
  ContentEncoding : string;
  Timeout : Z;
  Headers : gmap string string;
  Organization : string;
  Bucket : string;
  BucketTag : string;
  ExcludeBucketTag : bool;
  SkipBucketCreation : bool;
  createBucketExecuted : gmap string bool;
  url : URL;
  retryTime : Z;
  retryCount : Z;
}.

(** *** The world *)

Record World := mkWorld {
  now : Z;
  trace : list Event;
  store : list MetricData;
}.

Record RoundTrip := mkRoundTrip {
  elapsed : Z;
  result : string + GoHTTP.Response;
}.

(** Everything the client calls and does not define: the HTTP transport
    with the server behind it, [strconv.ParseFloat], the out-of-range
    conversion of a float, [http.NewRequest] and the gzip helper (each may
    refuse), and the order in which [range] walks a map.  The transport
    and the order may depend on all that happened before.  A round trip
    moves the clock by [elapsed]; nothing is assumed of it. *)
Record Env := mkEnv {
  transport : list Event -> GoHTTP.Request -> RoundTrip;
  ParseFloat : string -> option float64;
  unrepresentable : Z;
  newRequestError : string -> string -> option string;
  gzipError : list MetricData -> option string;
  rangeOrder : list Event -> list (string * list Metric) -> list (string * list Metric);
}.

Record State := mkState {
  client : httpClient;
  world : World;
}.

(** ** The monad of the client's methods

    A method of [*httpClient] reads and updates the client it is called
    on and acts on the world. *)

Definition M (A : Type) : Type := State -> A * State.

#[global] Instance M_ret : MRet M := fun A (a : A) s => (a, s).
#[global] Instance M_bind : MBind M :=
  fun A B (f : A -> M B) (m : M A) s => f (fst (m s)) (snd (m s)).

Definition getClient : M httpClient := fun s => (client s, s).

Definition modifyClient (f : httpClient -> httpClient) : M unit :=
  fun s => (tt, mkState (f (client s)) (world s)).

Definition getWorld : M World := fun s => (world s, s).

Definition modifyWorld (f : World -> World) : M unit :=
  fun s => (tt, mkState (client s) (f (world s))).

Definition emit (e : Event) : M unit :=
  modifyWorld (fun w => mkWorld (now w) (trace w ++ [e]) (store w)).

(** [time.Now]. *)
Definition timeNow : M Z := fun s => (now (world s), s).

(** [log.Printf]. *)
Definition logPrintf (l : LogLine) : M unit := emit (EvLog l).

(** [internal.OnClientError], the connection-health reporter. *)
Definition OnClientError (err : string) : M unit := emit (EvOnClientError err).

Definition set_retryCount (n : Z) (c : httpClient) : httpClient :=
  mkHttpClient (ContentEncoding c) (Timeout c) (Headers c) (Organization c)
    (Bucket c) (BucketTag c) (ExcludeBucketTag c) (SkipBucketCreation c)
    (createBucketExecuted c) (url c) (retryTime c) n.

Definition set_retryTime (t : Z) (c : httpClient) : httpClient :=
  mkHttpClient (ContentEncoding c) (Timeout c) (Headers c) (Organization c)
    (Bucket c) (BucketTag c) (ExcludeBucketTag c) (SkipBucketCreation c)
    (createBucketExecuted c) (url c) t (retryCount c).

Definition set_createBucketExecuted (m : gmap string bool) (c : httpClient) : httpClient :=
  mkHttpClient (ContentEncoding c) (Timeout c) (Headers c) (Organization c)
    (Bucket c) (BucketTag c) (ExcludeBucketTag c) (SkipBucketCreation c)
    m (url c) (retryTime c) (retryCount c).

(** Reading a Go [map[string]bool] at a key: [false] when absent. *)
Definition executed (m : gmap string bool) (bucket : string) : bool :=
  default false (m !! bucket).

(** *** The metric interface *)

(** Modelled from the spec: the method [GetTag] of [telegraf.Metric],
    which the metric package implements.  The tags of a metric are a
    mapping from name to value; the value of [key] and whether the metric
    has it. *)
Definition GetTag (m : Metric) (key : string) : M (string * bool) :=
  fun s =>
    (match store (world s) !! m with
     | Some d => match tags d !! key with
                 | Some v => (v, true)
                 | None => ("", false)
                 end
     | None => ("", false)
     end, s).

(** Modelled from the spec: the method [Copy] of [telegraf.Metric],
    which the metric package implements.  The defensive copy is a new
    metric with the same content; it shares nothing with the original.
    (A reference to nothing is handed back as it is.) *)
Definition Copy (m : Metric) : M Metric :=
  fun s =>
    let w := world s in
    match store w !! m with
    | Some d => (length (store w), mkState (client s) (mkWorld (now w) (trace w) (store w ++ [d])))
    | None => (m, s)
    end.

(** Modelled from the spec: the method [Accept] of [telegraf.Metric],
    which the metric package implements.  It reports the metric as
    delivered to whoever tracks it and leaves the metric as it is. *)
Definition Accept (m : Metric) : M unit := emit (EvAccept m).

Definition removeTag (key : string) (d : MetricData) : MetricData :=
  mkMetricData (measurement d) (delete key (tags d)) (fields d) (timestamp d).

(** Modelled from the spec: the method [RemoveTag] of [telegraf.Metric],
    which the metric package implements.  The metric no longer has the
    tag [key]. *)
Definition RemoveTag (m : Metric) (key : string) : M unit :=
  modifyWorld (fun w => mkWorld (now w) (trace w) (alter (removeTag key) m (store w))).

(** What the serializer reads of a batch when the request is sent. *)
Definition contents (st : list MetricData) (metrics : list Metric) : list MetricData :=
  omap (fun m => st !! m) metrics.

(** ** The URL builder *)

(** [makeWriteURL]: the address of the write endpoint for [bucket] in
    [org]. *)
Definition makeWriteURL (loc : URL) (org bucket : string) : string + error :=
  let params := Values_Set "org" org (Values_Set "bucket" bucket []) in
  let switch :=
    if String.eqb (Scheme loc) "unix" then
      inl (set_Path "/api/v2/write" (set_Host "127.0.0.1" (set_Scheme "http" loc)))
    else if String.eqb (Scheme loc) "http" || String.eqb (Scheme loc) "https" then
      inl (set_Path (GoPath.Join (Path loc) "/api/v2/write") loc)
    else inr (ErrUnsupportedScheme (Scheme loc)) in
  match switch with
  | inr e => inr e
  | inl loc' => inl (URL_String (set_RawQuery (Values_Encode params) loc'))
  end.

(** [makeCreateURL]: the address of the bucket creation endpoint. *)
Definition makeCreateURL (loc : URL) : string + error :=
  if String.eqb (Scheme loc) "unix" then
    inl (URL_String (set_Path "/api/v2/buckets" (set_Host "127.0.0.1" (set_Scheme "http" loc))))
  else if String.eqb (Scheme loc) "http" || String.eqb (Scheme loc) "https" then
    inl (URL_String (set_Path (GoPath.Join (Path loc) "/api/v2/buckets") loc))
  else inr (ErrUnsupportedScheme (Scheme loc)).

(** [makeOrgIDURL]: the address of the organization lookup. *)
Definition makeOrgIDURL (loc : URL) (orgName : string) : string + error :=
  let params := Values_Set "limit" "1" (Values_Set "org" orgName []) in
  let switch :=
    if String.eqb (Scheme loc) "unix" then
      inl (set_Path "/api/v2/orgs" (set_Host "127.0.0.1" (set_Scheme "http" loc)))
    else if String.eqb (Scheme loc) "http" || String.eqb (Scheme loc) "https" then
      inl (set_Path (GoPath.Join (Path loc) "/api/v2/orgs") loc)
    else inr (ErrUnsupportedScheme (Scheme loc)) in
  match switch with
  | inr e => inr e
  | inl loc' => inl (URL_String (set_RawQuery (Values_Encode params) loc'))
  end.

(** ** The client's methods *)

Section Client.

Variable env : Env.

(** [c.client.Do]: the round trip takes its time and leaves the request
    and what came back in the trace. *)
Definition Do (req : GoHTTP.Request) : M (string + GoHTTP.Response) :=
  fun s =>
    let w := world s in
    let rt := transport env (trace w) req in
    (result rt,
     mkState (client s)
       (mkWorld (now w + elapsed rt) (trace w ++ [EvRoundTrip req (result rt)]) (store w))).

(** [addHeaders]: every configured header is set on the request. *)
Definition addHeaders (c : httpClient) (h : gmap string string) : gmap string string :=
  map_fold (fun header value acc => GoHTTP.Set' acc header value) h (Headers c).

(** [makeWriteRequest]. *)
Definition makeWriteRequest (c : httpClient) (url : string) (body : GoHTTP.Payload)
  : GoHTTP.Request + error :=
  match newRequestError env "POST" url with
  | Some msg => inr (ErrNewRequest msg)
  | None =>
      let h := GoHTTP.Set' ∅ "Content-Type" "text/plain; charset=utf-8" in
      let h := addHeaders c h in
      let h := if String.eqb (ContentEncoding c) "gzip"
               then GoHTTP.Set' h "Content-Encoding" "gzip" else h in
      inl (GoHTTP.mkRequest "POST" url h body)
  end.

(** [makeAPIRequest]. *)
Definition makeAPIRequest (c : httpClient) (method url : string) (body : GoHTTP.Payload)
  : GoHTTP.Request + error :=
  match newRequestError env method url with
  | Some msg => inr (ErrNewRequest msg)
  | None =>
      let h := match body with
               | GoHTTP.NoBody => ∅
               | _ => GoHTTP.Set' ∅ "Content-Type" "application/json"
               end in
      let h := GoHTTP.Set' h "Accept" "application/json" in
      let h := addHeaders c h in
      let h := if String.eqb (ContentEncoding c) "gzip"
               then GoHTTP.Set' h "Content-Encoding" "gzip" else h in
      inl (GoHTTP.mkRequest method url h body)
  end.

(** [requestBodyReader]: the reader over the serialized batch, gzipped
    when the client is configured so. *)
Definition requestBodyReader (metrics : list Metric) : M (GoHTTP.Payload + error) :=
  c ← getClient;
  w ← getWorld;
  let batch := contents (store w) metrics in
  if String.eqb (ContentEncoding c) "gzip" then
    match gzipError env batch with
    | Some msg => mret (inr (ErrCompress msg))
    | None => mret (inl (GoHTTP.LineProtocol true batch))
    end
  else mret (inl (GoHTTP.LineProtocol false batch)).

(** [getRetryDuration]: the longer of the [Retry-After] header and the
    client's own back-off, at most [defaultMaxWait] seconds. *)
Definition getRetryDuration (c : httpClient) (headers : gmap string string) : Z :=
  let backoff := div40 (Pow2 (ofInt (retryCount c))) in
  let retryAfterHeaderString := GoHTTP.Get headers "Retry-After" in
  let retryAfterHeader :=
    if (0 <? Z.of_nat (String.length retryAfterHeaderString)) then
      match ParseFloat env retryAfterHeaderString with
      | Some x => x
      | None => ofInt 10
      end
    else ofInt 0 in
  let retry := Max backoff retryAfterHeader in
  let retry := Min retry (ofInt defaultMaxWait) in
  wrap64 (toInt64 (unrepresentable env) retry * Second).

(** The description of a failed write or creation: the decoded error
    body, or the status line when the body does not decode. *)
Definition description (resp : GoHTTP.Response) : string :=
  match GoHTTP.decodeGeneric (GoHTTP.Body resp) with
  | Some g => genericRespError_Error g
  | None => GoHTTP.Status resp
  end.

Definition statusIn (code : Z) (codes : list Z) : bool :=
  existsb (Z.eqb code) codes.

(** The part of [writeBatch] after the response has arrived, from the
    first [switch] on. *)
Definition writeBatchResponse (bucket : string) (resp : GoHTTP.Response) : M (option error) :=
  if statusIn (GoHTTP.StatusCode resp)
       [GoHTTP.StatusNoContent; GoHTTP.StatusOK; GoHTTP.StatusCreated;
        GoHTTP.StatusAccepted; GoHTTP.StatusPartialContent;
        GoHTTP.StatusMultiStatus; GoHTTP.StatusAlreadyReported]
  then
    modifyClient (set_retryCount 0);;
    mret None
  else
    let desc := description resp in
    if statusIn (GoHTTP.StatusCode resp)
         [GoHTTP.StatusBadRequest; GoHTTP.StatusRequestEntityTooLarge;
          GoHTTP.StatusUnprocessableEntity; GoHTTP.StatusNotAcceptable]
    then
      logPrintf (LogWillBeDropped (GoHTTP.Status resp) desc);;
      mret None
    else if statusIn (GoHTTP.StatusCode resp)
              [GoHTTP.StatusUnauthorized; GoHTTP.StatusForbidden]
    then mret (Some (ErrFailedToWrite (GoHTTP.Status resp) desc))
    else if statusIn (GoHTTP.StatusCode resp)
              [GoHTTP.StatusTooManyRequests; GoHTTP.StatusServiceUnavailable;
               GoHTTP.StatusBadGateway; GoHTTP.StatusGatewayTimeout]
    then
      modifyClient (fun c => set_retryCount (wrap64 (retryCount c + 1)) c);;
      c ← getClient;
      let retryDuration := getRetryDuration c (GoHTTP.Header resp) in
      t ← timeNow;
      modifyClient (set_retryTime (t + retryDuration));;
      logPrintf (LogWillRetry retryDuration (GoHTTP.Status resp));;
      mret (Some (ErrWaiting retryDuration))
    else if GoStrings.Contains desc errStringBucketNotFound then
      mret (Some (ErrBucketNotFound
                    (mkAPIError (GoHTTP.StatusCode resp) (GoHTTP.Status resp) desc) bucket))
    else if GoStrings.HasPrefix (GoHTTP.Status resp) "4" then
      logPrintf (LogWillBeDropped (GoHTTP.Status resp) desc);;
      mret None
    else
      let xErr := GoHTTP.Get (GoHTTP.Header resp) "X-Influx-Error" in
      let desc := if negb (String.eqb xErr "") then desc +:+ "; " +:+ xErr else desc in
      mret (Some (ErrAPI (mkAPIError (GoHTTP.StatusCode resp) (GoHTTP.Status resp) desc))).

(** [writeBatch]: one batch is sent to one bucket. *)
Definition writeBatch (bucket : string) (metrics : list Metric) : M (option error) :=
  c ← getClient;
  match makeWriteURL (url c) (Organization c) bucket with
  | inr err => mret (Some err)
  | inl loc =>
      reader ← requestBodyReader metrics;
      match reader with
      | inr err => mret (Some err)
      | inl body =>
          match makeWriteRequest c loc body with
          | inr err => mret (Some err)
          | inl req =>
              r ← Do req;
              match r with
              | inl err => OnClientError err;; mret (Some (ErrTransport err))
              | inr resp => writeBatchResponse bucket resp
              end
          end
      end
  end.

(** [validateResponse]: an empty body is valid, any other must be
    JSON.  The body is handed back with the verdict. *)
Definition validateResponse (response : GoHTTP.ResponseBody)
  : option GoHTTP.ResponseBody * option string :=
  match GoHTTP.readAll response with
  | inr err => (None, Some err)
  | inl bodyBytes =>
      if String.eqb bodyBytes "" then (Some response, None)
      else if negb (GoHTTP.jsonValid response) then (Some response, Some bodyBytes)
      else (Some response, None)
  end.

(** [getOrgID]: the organization's ID, looked up by its name. *)
Definition getOrgID : M (string * option error) :=
  c ← getClient;
  match makeOrgIDURL (url c) (Organization c) with
  | inr err => mret ("", Some err)
  | inl loc =>
      match makeAPIRequest c "GET" loc GoHTTP.NoBody with
      | inr err => mret ("", Some err)
      | inl req =>
          r ← Do req;
          match r with
          | inl err => OnClientError err;; mret ("", Some (ErrTransport err))
          | inr resp =>
              match validateResponse (GoHTTP.Body resp) with
              | (_, Some err) =>
                  mret ("", Some (ErrAPI (mkAPIError (GoHTTP.StatusCode resp) (GoHTTP.Status resp)
                    ("An error response was received while attempting to get the organization's ID for: "
                     +:+ Organization c +:+ ". Error: " +:+ err))))
              | (body, None) =>
                  match from_option GoHTTP.decodeOrgs None body with
                  | None => mret ("", Some ErrDecode)
                  | Some orgs =>
                      match orgs with
                      | [org] =>
                          if GoHTTP.StatusCode resp =? 200 then mret (Id org, None)
                          else mret ("", Some (ErrOrgID (Organization c)))
                      | _ => mret ("", Some (ErrOrgID (Organization c)))
                      end
                  end
              end
          end
      end
  end.

(** [CreateBucket]: creates [bucket] in the configured organization. *)
Definition CreateBucket (bucket : string) : M (option error) :=
  r ← getOrgID;
  match r with
  | (_, Some err) => mret (Some err)
  | (orgId, None) =>
      c ← getClient;
      match makeCreateURL (url c) with
      | inr err => mret (Some err)
      | inl loc =>
          let body := GoHTTP.CreateBucketJSON (mkCreateBucketRequest bucket orgId) in
          match makeAPIRequest c "POST" loc body with
          | inr err => mret (Some err)
          | inl req =>
              r ← Do req;
              match r with
              | inl err => OnClientError err;; mret (Some (ErrTransport err))
              | inr resp =>
                  if GoHTTP.StatusCode resp =? 201 then
                    modifyClient (fun c =>
                      set_createBucketExecuted (<[bucket := true]> (createBucketExecuted c)) c);;
                    mret None
                  else
                    mret (Some (ErrAPI (mkAPIError (GoHTTP.StatusCode resp)
                                          (GoHTTP.Status resp) (description resp))))
              end
          end
      end
  end.

(** The copy of a metric that goes out in its place when the routing tag
    is not to be sent: the metric is not modified, in case the request
    has to be retried. *)
Definition withoutTag (metric : Metric) (key : string) : M Metric :=
  copy ← Copy metric;
  Accept copy;;
  RemoveTag copy key;;
  mret copy.

(** The first loop of [Write]: every metric is put into the batch of
    its bucket; with [ExcludeBucketTag] a copy without the routing tag
    takes its place. *)
Fixpoint groupMetrics (metrics : list Metric) (batches : gmap string (list Metric))
  : M (gmap string (list Metric)) :=
  match metrics with
  | [] => mret batches
  | metric :: rest =>
      c ← getClient;
      '(value, ok) ← GetTag metric (BucketTag c);
      let bucket := if ok : bool then value else Bucket c in
      let batches := match batches !! bucket with
                     | Some _ => batches
                     | None => <[bucket := []]> batches
                     end in
      metric ← (if ExcludeBucketTag c then withoutTag metric (BucketTag c)
                else mret metric);
      groupMetrics rest (<[bucket := (default [] (batches !! bucket) ++ [metric])%list]> batches)
  end.

(** The head of the body of the second loop of [Write]: the bucket is
    created unless creation is switched off or already done; a failure
    is logged and nothing more. *)
Definition ensureBucket (bucket : string) : M unit :=
  c ← getClient;
  if negb (SkipBucketCreation c) && negb (executed (createBucketExecuted c) bucket) then
    err ← CreateBucket bucket;
    match err with
    | Some err => logPrintf (LogBucketCreationFailed (URL_String (url c)) bucket err)
    | None => mret tt
    end
  else mret tt.

(** The second loop of [Write], over the batches in the order [range]
    yields them. *)
Fixpoint writeBatches (batches : list (string * list Metric)) : M (option error) :=
  match batches with
  | [] => mret None
  | (bucket, batch) :: rest =>
      ensureBucket bucket;;
      err ← writeBatch bucket batch;
      match err with
      | Some err => mret (Some err)
      | None => writeBatches rest
      end
  end.

(** [range batches]. *)
Definition rangeMap (batches : gmap string (list Metric)) : M (list (string * list Metric)) :=
  w ← getWorld;
  mret (rangeOrder env (trace w) (map_to_list batches)).

(** [Write]: the metrics are delivered, each to its bucket. *)
Definition Write (metrics : list Metric) : M (option error) :=
  c ← getClient;
  t ← timeNow;
  if t <? retryTime c then mret (Some ErrRetryTime)
  else if String.eqb (BucketTag c) "" then
    err ← writeBatch (Bucket c) metrics;
    match err with
    | Some err => mret (Some err)
    | None => mret None
    end
  else
    batches ← groupMetrics metrics ∅;
    order ← rangeMap batches;
    writeBatches order.

End Client.

(** [NewHTTPClient], as far as it sets up the client's own fields. *)
Record HTTPConfig := mkHTTPConfig {
  cfgURL : option URL;
  cfgOrganization : string;
  cfgBucket : string;
  cfgBucketTag : string;
  cfgExcludeBucketTag : bool;
  cfgSkipBucketCreation : bool;
  cfgTimeout : Z;
  cfgHeaders : gmap string string;
  cfgToken : string;
  cfgUserAgent : string;
  cfgContentEncoding : string;
}.

Definition defaultRequestTimeout : Z := 5 * Second.

Definition NewHTTPClient (productToken : string) (config : HTTPConfig) : option httpClient :=
  match cfgURL config with
  | None => None
  | Some u =>
      let timeout := if cfgTimeout config =? 0 then defaultRequestTimeout else cfgTimeout config in
      let userAgent := if String.eqb (cfgUserAgent config) "" then productToken
                       else cfgUserAgent config in
      let headers :=
        cfgHeaders config ∪
        <["Authorization" := "Token " +:+ cfgToken config]> (<["User-Agent" := userAgent]> ∅) in
      if String.eqb (Scheme u) "http" || String.eqb (Scheme u) "https"
         || String.eqb (Scheme u) "unix"
      then Some (mkHttpClient (cfgContentEncoding config) timeout headers
                   (cfgOrganization config) (cfgBucket config) (cfgBucketTag config)
                   (cfgExcludeBucketTag config) (cfgSkipBucketCreation config)
                   ∅ u zeroTime 0)
      else None
  end.

(** * Vocabulary of the properties *)

(** ** Paths *)

Definition noSlash (e : string) : bool :=
  forallb (fun c => negb (Ascii.eqb c GoPath.slash)) (list_ascii_of_string e).

(** A path element that [path.Clean] keeps as it is: not empty, not a
    dot element, without a slash. *)
Definition isSegment (e : string) : bool :=
  negb (String.eqb e "") && negb (String.eqb e ".") && negb (String.eqb e "..")
  && noSlash e.

(** The rooted path with the given elements: [/e1/e2/.../en]. *)
Fixpoint rootedPath (segs : list string) : string :=
  match segs with
  | [] => ""
  | e :: rest => "/" +:+ e +:+ rootedPath rest
  end.

(** ** Requests and answers *)

(** The request [writeBatch] builds for a batch, or the error that keeps
    it from sending one. *)
Definition writeRequestOf (env : Env) (s : State) (bucket : string) (metrics : list Metric)
  : GoHTTP.Request + error :=
  match makeWriteURL (url (client s)) (Organization (client s)) bucket with
  | inr err => inr err
  | inl loc =>
      match fst (requestBodyReader env metrics s) with
      | inr err => inr err
      | inl body => makeWriteRequest env (client s) loc body
      end
  end.

(** What the transport answers to [req] in state [s]. *)
Definition answer (env : Env) (s : State) (req : GoHTTP.Request) : string + GoHTTP.Response :=
  result (transport env (trace (world s)) req).

(** ** The delay of the back-off, in the words of the specification *)

(** The client's own back-off after [count] throttled writes in a row:
    the square of the count over 40, in seconds. *)
Definition backoffSeconds (count : Z) : Q := inject_Z (count ^ 2) / inject_Z 40.

(** The number of seconds a [Retry-After] header asks for: 0 without the
    header, 10 when it does not parse, the number it parses to otherwise
    (nothing is said here for an infinity or NaN). *)
Definition retryAfterSeconds (env : Env) (headers : gmap string string) : option Q :=
  match headers !! "Retry-After" with
  | None | Some "" => Some (inject_Z 0)
  | Some value =>
      match ParseFloat env value with
      | None => Some (inject_Z 10)
      | Some (FFinite q) => Some q
      | Some _ => None
      end
  end.

(** The larger of the two, at most 60, in whole seconds. *)
Definition delaySeconds (count : Z) (retryAfter : Q) : Z :=
  Qfloor (Qmin (Qmax (backoffSeconds count) retryAfter) (inject_Z 60)).

(** ** Outcomes and traffic *)

(** The outcome of a write, by its response, in the order [writeBatch]
    decides it. *)
Inductive Outcome :=
  | Success
  | DropSilently
  | Unauthorized
  | Throttle
  | BucketMissing
  | ClientError
  | ServerError.

Definition classify (resp : GoHTTP.Response) : Outcome :=
  let code := GoHTTP.StatusCode resp in
  if statusIn code [204; 200; 201; 202; 206; 207; 208] then Success
  else if statusIn code [400; 413; 422; 406] then DropSilently
  else if statusIn code [401; 403] then Unauthorized
  else if statusIn code [429; 503; 502; 504] then Throttle
  else if GoStrings.Contains (description resp) errStringBucketNotFound then BucketMissing
  else if GoStrings.HasPrefix (GoHTTP.Status resp) "4" then ClientError
  else ServerError.

(** The outcomes after which the batch counts as delivered. *)
Definition absorbed (o : Outcome) : bool :=
  match o with
  | Success | DropSilently | ClientError => true
  | _ => false
  end.

(** The part of the client that no method changes. *)
Definition config (c : httpClient) :=
  (ContentEncoding c, Timeout c, Headers c, Organization c, Bucket c,
   BucketTag c, ExcludeBucketTag c, SkipBucketCreation c, url c).

(** A round trip that carries line protocol. *)
Definition isWrite (ev : Event) : bool :=
  match ev with
  | EvRoundTrip req _ =>
      match GoHTTP.ReqBody req with
      | GoHTTP.LineProtocol _ _ => true
      | _ => false
      end
  | _ => false
  end.

(** A round trip that asks for the creation of [bucket]. *)
Definition isCreationOf (bucket : string) (ev : Event) : bool :=
  match ev with
  | EvRoundTrip req _ =>
      match GoHTTP.ReqBody req with
      | GoHTTP.CreateBucketJSON r => String.eqb (Name r) bucket
      | _ => false
      end
  | _ => false
  end.

(** A round trip of the bucket manager: an organization lookup or a
    creation. *)
Definition isBucketManager (ev : Event) : bool :=
  match ev with
  | EvRoundTrip req _ =>
      match GoHTTP.ReqBody req with
      | GoHTTP.LineProtocol _ _ => false
      | _ => true
      end
  | _ => false
  end.

(** What [writeBatch] may leave in the trace. *)
Definition isWriteTraffic (ev : Event) : bool :=
  match ev with
  | EvRoundTrip _ _ => isWrite ev
  | EvLog (LogWillBeDropped _ _) | EvLog (LogWillRetry _ _) => true
  | EvOnClientError _ => true
  | _ => false
  end.

(** What [CreateBucket] of [bucket] may leave in the trace. *)
Definition isCreateTraffic (bucket : string) (ev : Event) : bool :=
  match ev with
  | EvRoundTrip req _ =>
      match GoHTTP.ReqBody req with
      | GoHTTP.NoBody => true
      | GoHTTP.CreateBucketJSON r => String.eqb (Name r) bucket
      | GoHTTP.LineProtocol _ _ => false
      end
  | EvOnClientError _ => true
  | _ => false
  end.

(** The events after those of [s] in the trace of [s']. *)
Definition eventsSince (s s' : State) : list Event :=
  drop (length (trace (world s))) (trace (world s')).

(** The events from [s] to [s']. *)
Definition happened (s s' : State) (delta : list Event) : Prop :=
  trace (world s') = (trace (world s) ++ delta)%list.

(** What the bucket manager may leave in the trace when [Write] asks it
    for [bucket]: the traffic of [CreateBucket] and the log line of a
    failure. *)
Definition isEnsureTraffic (bucket : string) (ev : Event) : bool :=
  match ev with
  | EvLog (LogBucketCreationFailed _ b _) => String.eqb b bucket
  | _ => isCreateTraffic bucket ev
  end.

(** The description that goes into a plain [APIError] of a write. *)
Definition serverErrorDescription (resp : GoHTTP.Response) : string :=
  let xErr := GoHTTP.Get (GoHTTP.Header resp) "X-Influx-Error" in
  if negb (String.eqb xErr "") then description resp +:+ "; " +:+ xErr
  else description resp.

(** The batches of a routed [Write], in the order the second loop takes
    them. *)
Definition batchOrder (env : Env) (metrics : list Metric) (s : State)
  : list (string * list Metric) :=
  rangeOrder env (trace (world (snd (groupMetrics metrics ∅ s))))
    (map_to_list (fst (groupMetrics metrics ∅ s))).

(** A creation request for [bucket] that was answered with 201. *)
Definition isCreated (bucket : string) (ev : Event) : bool :=
  match ev with
  | EvRoundTrip _ (inr resp) => isCreationOf bucket ev && (GoHTTP.StatusCode resp =? 201)
  | _ => false
  end.

(** The number of creation requests for [bucket] among some events. *)
Fixpoint countCreations (bucket : string) (events : list Event) : nat :=
  match events with
  | [] => 0
  | ev :: rest => (if isCreationOf bucket ev then 1 else 0) + countCreations bucket rest
  end.

(** How the record of created buckets evolves from [s] to [s'], for one
    bucket: once recorded it stays recorded and no creation is asked for
    any more; it gets recorded with a creation answered 201, and only
    so. *)
Definition grows (bucket : string) (s s' : State) : Prop :=
  exists delta,
    happened s s' delta
    /\ (executed (createBucketExecuted (client s)) bucket = true ->
        executed (createBucketExecuted (client s')) bucket = true
        /\ Forall (fun ev => isCreationOf bucket ev = false) delta)
    /\ (executed (createBucketExecuted (client s')) bucket = true ->
        executed (createBucketExecuted (client s)) bucket = true
        \/ Exists (fun ev => isCreated bucket ev = true) delta)
    /\ (Exists (fun ev => isCreated bucket ev = true) delta ->
        executed (createBucketExecuted (client s')) bucket = true).

(** The batch of [bucket] went out and was taken as delivered: among the
    events there is a write to the address of the bucket, with the metrics
    of the batch, whose response has an absorbed outcome. *)
Definition delivered (c : httpClient) (metrics : list MetricData) (events : list Event)
    (group : string * list Metric) : Prop :=
  exists req resp,
    In (EvRoundTrip req (inr resp)) events
    /\ makeWriteURL (url c) (Organization c) (fst group) = inl (GoHTTP.URL req)
    /\ (exists gzip, GoHTTP.ReqBody req
                     = GoHTTP.LineProtocol gzip (contents metrics (snd group)))
    /\ absorbed (classify resp) = true.

(** ** The retry time as a parameter of a run *)

(** The state [s] with another retry time. *)
Definition withRetryTime (t : Z) (s : State) : State :=
  mkState (set_retryTime t (client s)) (world s).

(** A method does not read the retry time: started with another retry
    time it returns the same and ends in the same state, up to the retry
    time it leaves. *)
Definition blind {A : Type} (m : M A) : Prop :=
  forall s t, exists t',
    m (withRetryTime t s) = (fst (m s), withRetryTime t' (snd (m s))).

(** ** The life of a client

    The scheduler calls [Write] again and again; between two calls time
    passes and new metrics arrive. *)
Record Call := mkCall {
  pause : Z;
  arriving : list MetricData;
  batch : list Metric;
}.

Definition call (env : Env) (s : State) (c : Call) : State :=
  snd (Write env (batch c)
         (mkState (client s)
            (mkWorld (now (world s) + pause c) (trace (world s))
               (store (world s) ++ arriving c)))).

Definition session (env : Env) (calls : list Call) (s : State) : State :=
  fold_left (call env) calls s.

(** ** Query parameters *)

(** The bytes [url.QueryEscape] writes: letters, digits, the four marks
    it leaves alone, and the [%] and [+] of its own escapes. *)
Definition queryByte (c : ascii) : bool := isAlnum c || oneOf "-_.~%+" c.

(** [url.QueryUnescape], which the server applies to a query parameter:
    [%XX] is the byte with that code, [+] is a space. *)
Fixpoint QueryUnescape (s : string) : option string :=
  match s with
  | EmptyString => Some ""
  | String c rest =>
      if Ascii.eqb c "%" then
        match rest with
        | String h (String l rest') =>
            match unhex h, unhex l with
            | Some a, Some b =>
                option_map (String (ascii_of_nat (16 * a + b))) (QueryUnescape rest')
            | _, _ => None
            end
        | _ => None
        end
      else if Ascii.eqb c "+" then option_map (String " ") (QueryUnescape rest)
      else option_map (String c) (QueryUnescape rest)
  end.

(** ** Addresses *)

(** The user info as [URL.String] writes it in front of the host. *)
Definition userPrefix (user : option Userinfo) : string :=
  match user with
  | Some ui => Userinfo_String ui +:+ "@"
  | None => ""
  end.

(** The authority as [URL.String] writes it between [scheme:] and a
    path: [//userinfo@host], or nothing for a URL that was read without
    an authority and has neither host nor user info. *)
Definition authority (u : URL) : string :=
  if OmitHost u && negb (nonEmpty (Host u)) && negb (isSet (User u)) then ""
  else "//" +:+ userPrefix (User u) +:+ escape (Host u) encodeHost.

(** The query as [URL.String] writes it behind the path. *)
Definition querySuffix (force : bool) (query : string) : string :=
  if force || nonEmpty query then "?" +:+ query else "".

(** The fragment as [URL.String] writes it at the end. *)
Definition fragmentSuffix (u : URL) : string :=
  if nonEmpty (Fragment u) then "#" +:+ EscapedFragment u else "".

(** What [URL.String] writes in front of the query. *)
Definition beforeQuery (u : URL) : string :=
  URL_String (mkLocation (Scheme u) (Opaque u) (User u) (Host u) (Path u) (RawPath u)
                (OmitHost u) false "" "" "").

(** The schemes of a base address the client can work with. *)
Definition supportedScheme (scheme : string) : bool :=
  String.eqb scheme "unix" || String.eqb scheme "http" || String.eqb scheme "https".

(** ** Header names *)

(** [validHeaderFieldByte] of [net/textproto]: the bytes of a token. *)
Definition validHeaderFieldByte (c : ascii) : bool :=
  isAlnum c || oneOf "!#$%&'*+-.^_`|~" c.

(** The quick check of [textproto.CanonicalMIMEHeaderKey]: the name is
    handed back as it is when the check meets a byte that is not of a
    token, or meets no letter in the wrong case - a lower-case letter at
    the start or behind a hyphen, an upper-case letter elsewhere. *)
Fixpoint canonicalFrom (upper : bool) (s : string) : bool :=
  match s with
  | EmptyString => true
  | String c rest =>
      if negb (validHeaderFieldByte c) then true
      else if upper && between "a" "z" c then false
      else if negb upper && between "A" "Z" c then false
      else canonicalFrom (Ascii.eqb c "-") rest
  end.

(** A header name that [Header.Set] files under itself. *)
Definition canonicalKey (key : string) : bool := canonicalFrom true key.

(** ** The delay for every header *)

(** The seconds a [Retry-After] header counts for in the delay: as
    [retryAfterSeconds], with an infinite value counted as the bound it
    is cut down to (60) or raised to (0). *)
Definition retryAfterClamped (env : Env) (headers : gmap string string) : Q :=
  match retryAfterSeconds env headers with
  | Some q => q
  | None =>
      match ParseFloat env (GoHTTP.Get headers "Retry-After") with
      | Some (FInf false) => inject_Z 60
      | _ => inject_Z 0
      end
  end.

(** ** The requests of the bucket manager *)

(** The request [getOrgID] builds, or the error that keeps it from
    sending one. *)
Definition lookupRequestOf (env : Env) (c : httpClient) : GoHTTP.Request + error :=
  match makeOrgIDURL (url c) (Organization c) with
  | inr err => inr err
  | inl loc => makeAPIRequest env c "GET" loc GoHTTP.NoBody
  end.

(** The request [CreateBucket] builds for [bucket] once it has the ID of
    the organization, or the error that keeps it from sending one. *)
Definition creationRequestOf (env : Env) (c : httpClient) (bucket orgId : string)
  : GoHTTP.Request + error :=
  match makeCreateURL (url c) with
  | inr err => inr err
  | inl loc =>
      makeAPIRequest env c "POST" loc
        (GoHTTP.CreateBucketJSON (mkCreateBucketRequest bucket orgId))
  end.

(** The state after a round trip with [req]. *)
Definition afterRoundTrip (env : Env) (s : State) (req : GoHTTP.Request) : State :=
  snd (Do env req s).

(** The text [getOrgID] puts into the error of a response it does not
    accept. *)
Definition lookupErrorText (org err : string) : string :=
  "An error response was received while attempting to get the organization's ID for: "
  +:+ org +:+ ". Error: " +:+ err.

(** What [getOrgID] makes of a response. *)
Definition lookupResult (c : httpClient) (resp : GoHTTP.Response) : string * option error :=
  match validateResponse (GoHTTP.Body resp) with
  | (_, Some err) =>
      ("", Some (ErrAPI (mkAPIError (GoHTTP.StatusCode resp) (GoHTTP.Status resp)
                           (lookupErrorText (Organization c) err))))
  | (body, None) =>
      match from_option GoHTTP.decodeOrgs None body with
      | None => ("", Some ErrDecode)
      | Some [org] =>
          if GoHTTP.StatusCode resp =? 200 then (Id org, None)
          else ("", Some (ErrOrgID (Organization c)))
      | Some _ => ("", Some (ErrOrgID (Organization c)))
      end
  end.

(** ** More on outcomes and traffic *)

(** The status codes the two [switch] statements of [writeBatch] name. *)
Definition switchedCodes : list Z :=
  [204; 200; 201; 202; 206; 207; 208; 400; 413; 422; 406; 401; 403; 429; 503; 502; 504].

(** The number of write requests among some events. *)
Definition countWrites (events : list Event) : nat :=
  length (filter (fun ev => isWrite ev = true) events).

(** From [s] to [s'], for a client that does not create buckets: it
    still does not, its record of created buckets has not moved, and the
    bucket manager has sent nothing. *)
Definition quiet (s s' : State) : Prop :=
  SkipBucketCreation (client s) = true ->
  SkipBucketCreation (client s') = true
  /\ createBucketExecuted (client s') = createBucketExecuted (client s)
  /\ exists delta,
       happened s s' delta /\ Forall (fun ev => isBucketManager ev = false) delta.

(** A round trip, whoever asks for it. *)
Definition isRequest (ev : Event) : bool :=
  match ev with
  | EvRoundTrip _ _ => true
  | _ => false
  end.

(** The state in which the [Write] of a call starts: the pause is over
    and the new metrics are there. *)
Definition arrival (s : State) (c : Call) : State :=
  mkState (client s)
    (mkWorld (now (world s) + pause c) (trace (world s)) (store (world s) ++ arriving c)).

(** ** Routing *)

(** The bucket [Write] routes a metric to: the value of the routing tag,
    or the default bucket for a metric without the tag. *)
Definition bucketOf (s : State) (metric : Metric) : string :=
  let '(value, ok) := fst (GetTag metric (BucketTag (client s)) s) in
  if ok : bool then value else Bucket (client s).

(** The metrics of the input that go to [bucket], in the order of the
    input. *)
Definition routedTo (s : State) (bucket : string) (metrics : list Metric) : list Metric :=
  filter (fun m => bucketOf s m = bucket) metrics.

(** ** A concrete world *)

Module Scenario.

Definition emptyBody : GoHTTP.ResponseBody :=
  GoHTTP.mkResponseBody (inl "") true None None.

Definition orgsBody : GoHTTP.ResponseBody :=
  GoHTTP.mkResponseBody (inl "{orgs}") true
    (Some (mkGenericRespError "" "" None None)) (Some [mkOrgInfo "0a1b"]).

Definition errorBody (code message : string) : GoHTTP.ResponseBody :=
  GoHTTP.mkResponseBody (inl "{error}") true
    (Some (mkGenericRespError code message None None)) (Some []).

(** A response with the status line of [code]. *)
Definition respond (code : Z) (reason : string) (headers : gmap string string)
    (body : GoHTTP.ResponseBody) : GoHTTP.Response :=
  GoHTTP.mkResponse code (itoa code +:+ " " +:+ reason) headers body.

Fixpoint digitsValue (acc : Z) (s : string) : option Z :=
  match s with
  | EmptyString => Some acc
  | String c rest =>
      if GoURL.between "0" "9" c
      then digitsValue (10 * acc + Z.of_nat (nat_of_ascii c) - 48) rest
      else None
  end.

(** A [ParseFloat] for whole numbers of seconds. *)
Definition parseSeconds (s : string) : option float64 :=
  match s with
  | EmptyString => None
  | _ => option_map (fun z => FFinite (inject_Z z)) (digitsValue 0 s)
  end.

(** A server that answers the organization lookup with [orgs], the
    creation of a bucket with [create] of its name, and a write with
    [write] of its address; every round trip takes a millisecond, and
    [range] walks a map in the order of its keys. *)
Definition scripted (orgs : GoHTTP.Response) (create : string -> GoHTTP.Response)
    (write : string -> GoHTTP.Response) : Env :=
  mkEnv
    (fun _ req =>
       mkRoundTrip 1000000
         (inr match GoHTTP.ReqBody req with
              | GoHTTP.NoBody => orgs
              | GoHTTP.CreateBucketJSON r => create (Name r)
              | GoHTTP.LineProtocol _ _ => write (GoHTTP.URL req)
              end))
    parseSeconds 0 (fun _ _ => None) (fun _ => None) (fun _ batches => batches).

Definition orgsOK : GoHTTP.Response := respond 200 "OK" ∅ orgsBody.
Definition created (_ : string) : GoHTTP.Response := respond 201 "Created" ∅ emptyBody.
Definition noContent (_ : string) : GoHTTP.Response := respond 204 "No Content" ∅ emptyBody.

Definition base : URL := mkURL "http" "host:8086" "" "".

Definition configWith (bucketTag : string) (exclude skip : bool) : HTTPConfig :=
  mkHTTPConfig (Some base) "o" "default" bucketTag exclude skip 0 ∅ "secret" "" "".

(** The client [NewHTTPClient] sets up for [configWith]. *)
Definition clientWith (bucketTag : string) (exclude skip : bool) : httpClient :=
  match NewHTTPClient "Telegraf/1.14" (configWith bucketTag exclude skip) with
  | Some c => c
  | None => mkHttpClient "" 0 ∅ "" "" "" false false ∅ base zeroTime 0
  end.

Definition cpu (tag : list (string * string)) : MetricData :=
  mkMetricData "cpu" (list_to_map tag) [("usage", "0.5")] 1600000000.

(** Three metrics: one routed to bucket [a], one without the routing
    tag, one routed to bucket [b]. *)
Definition metrics : list MetricData :=
  [cpu [("route", "a"); ("host", "h1")]; cpu [("host", "h2")]; cpu [("route", "b")]].

Definition worldAt (time : Z) : World := mkWorld time [] metrics.

(** The write request for [bucket] with the given batch. *)
Definition writeRequest (bucket : string) (batch : list MetricData) : GoHTTP.Request :=
  GoHTTP.mkRequest "POST"
    ("http://host:8086/api/v2/write?bucket=" +:+ bucket +:+ "&org=o")
    (<["Content-Type" := "text/plain; charset=utf-8"]>
       (<["Authorization" := "Token secret"]> (<["User-Agent" := "Telegraf/1.14"]> ∅)))
    (GoHTTP.LineProtocol false batch).

(** Every request is answered as hoped for. *)
Definition healthy : Env := scripted orgsOK created noContent.

(** A client without routing whose last three writes were throttled. *)
Definition afterThreeThrottles : State :=
  mkState (set_retryCount 3 (clientWith "" false false)) (worldAt 0).

(** The server does not know the bucket of a write. *)
Definition bucketNotFound (_ : string) : GoHTTP.Response :=
  respond 404 "Not Found" ∅ (errorBody "not found" "bucket default not found").

Definition bucketVanished : Env := scripted orgsOK created bucketNotFound.

(** The server takes a write for a conflict. *)
Definition conflict (_ : string) : GoHTTP.Response :=
  respond 409 "Conflict" ∅ (errorBody "conflict" "write refused").

Definition conflicting : Env := scripted orgsOK created conflict.

(** The server is overloaded and gives no hint. *)
Definition tooManyRequests (_ : string) : GoHTTP.Response :=
  respond 429 "Too Many Requests" ∅ emptyBody.

Definition overloaded : Env := scripted orgsOK created tooManyRequests.

(** A client without routing whose last thirty writes were throttled. *)
Definition afterThirtyThrottles : State :=
  mkState (set_retryCount 30 (clientWith "" false false)) (worldAt 0).

(** A fresh client without routing, with bucket creation switched on. *)
Definition unrouted : State :=
  mkState (clientWith "" false false) (worldAt 0).

(** A fresh client that routes by the tag [route] and sends the metrics
    without it. *)
Definition routed : State :=
  mkState (clientWith "route" true false) (worldAt 0).

(** A client that still has to wait. *)
Definition waiting : State :=
  mkState (set_retryTime 5000000000 (clientWith "route" true false)) (worldAt 0).

(** The routed client after a first [Write] against a server that
    creates buckets and then does not find them: bucket [a] is recorded
    as created. *)
Definition afterVanishing : State :=
  snd (Write bucketVanished [0%nat; 1%nat; 2%nat] routed).

(** The routed client after a [Write] that went well: the buckets [a],
    [b] and [default] are recorded as created. *)
Definition afterDelivery : State :=
  snd (Write healthy [0%nat; 1%nat; 2%nat] routed).

(** The server refuses to create buckets. *)
Definition forbidden (_ : string) : GoHTTP.Response :=
  respond 403 "Forbidden" ∅ (errorBody "forbidden" "insufficient permissions").

Definition readOnly : Env := scripted orgsOK forbidden noContent.

(** Two more calls of the scheduler, a second apart. *)
Definition twoCalls : list Call :=
  [mkCall 1000000000 [] [0%nat; 1%nat; 2%nat]; mkCall 1000000000 [] [0%nat; 2%nat]].

(** The server does not let the client write to bucket [b]. *)
Definition unauthorizedForB (address : string) : GoHTTP.Response :=
  if GoStrings.Contains address "bucket=b&"
  then respond 401 "Unauthorized" ∅ (errorBody "unauthorized" "unauthorized access")
  else respond 204 "No Content" ∅ emptyBody.

Definition guarded : Env := scripted orgsOK created unauthorizedForB.

(** A metric of the scenario as it is sent: without the routing tag. *)
Definition sent (tag : list (string * string)) : MetricData :=
  mkMetricData "cpu" (list_to_map tag) [("usage", "0.5")] 1600000000.

(** A proxy in front of the server answers in its place, with a page. *)
Definition htmlBody : GoHTTP.ResponseBody :=
  GoHTTP.mkResponseBody (inl "<html>Bad Gateway</html>") false None None.

Definition badGateway : GoHTTP.Response := respond 502 "Bad Gateway" ∅ htmlBody.

Definition behindProxy : Env := scripted badGateway created noContent.

(** The organization lookup of the scenario's client. *)
Definition lookupRequest : GoHTTP.Request :=
  GoHTTP.mkRequest "GET" "http://host:8086/api/v2/orgs?limit=1&org=o"
    (<["Accept" := "application/json"]>
       (<["Authorization" := "Token secret"]> (<["User-Agent" := "Telegraf/1.14"]> ∅)))
    GoHTTP.NoBody.

(** Its request for the creation of [bucket]. *)
Definition creationRequest (bucket : string) : GoHTTP.Request :=
  GoHTTP.mkRequest "POST" "http://host:8086/api/v2/buckets"
    (<["Content-Type" := "application/json"]>
       (<["Accept" := "application/json"]>
          (<["Authorization" := "Token secret"]> (<["User-Agent" := "Telegraf/1.14"]> ∅))))
    (GoHTTP.CreateBucketJSON (mkCreateBucketRequest bucket "0a1b")).

(** The server has the bucket already. *)
Definition alreadyExists (_ : string) : GoHTTP.Response :=
  respond 422 "Unprocessable Entity" ∅
    (errorBody "conflict" "bucket with name a already exists").

Definition existing : Env := scripted orgsOK alreadyExists noContent.

(** The server fails, and says why in a header only. *)
Definition internalError (_ : string) : GoHTTP.Response :=
  respond 500 "Internal Server Error" {["X-Influx-Error" := "engine: cache full"]} emptyBody.

Definition failing : Env := scripted orgsOK created internalError.

(** The server sends the client elsewhere, without a body. *)
Definition moved (_ : string) : GoHTTP.Response :=
  respond 301 "Moved Permanently" ∅ emptyBody.

Definition redirecting : Env := scripted orgsOK created moved.

(** Nobody answers. *)
Definition unreachable : Env :=
  mkEnv (fun _ _ => mkRoundTrip 1000000 (inl "connection refused"))
    parseSeconds 0 (fun _ _ => None) (fun _ => None) (fun _ batches => batches).

(** The gzip helper refuses every batch. *)
Definition brokenGzip : Env :=
  mkEnv (transport healthy) parseSeconds 0 (fun _ _ => None)
    (fun _ => Some "gzip: short write") (fun _ batches => batches).

(** [http.NewRequest] refuses every address. *)
Definition strictRequests : Env :=
  mkEnv (transport healthy) parseSeconds 0 (fun _ _ => Some "invalid URL escape")
    (fun _ => None) (fun _ batches => batches).

(** A fresh client that routes by the tag [route] and sends the metrics
    as they are. *)
Definition tagged : State :=
  mkState (clientWith "route" false false) (worldAt 0).

(** A fresh client that routes and does not create buckets. *)
Definition skipping : State :=
  mkState (clientWith "route" true true) (worldAt 0).

(** A configuration with compression and headers of its own. *)
Definition customConfig : HTTPConfig :=
  mkHTTPConfig (Some base) "o" "default" "" false false (2 * Second)
    (<["Content-Type" := "application/octet-stream"]> (<["X-Trace" := "1"]> ∅))
    "secret" "agent/2" "gzip".

Definition customClient : httpClient :=
  mkHttpClient "gzip" (2 * Second)
    (<["Content-Type" := "application/octet-stream"]>
       (<["X-Trace" := "1"]>
          (<["Authorization" := "Token secret"]> (<["User-Agent" := "agent/2"]> ∅))))
    "o" "default" "" false false ∅ base zeroTime 0.

(** A fresh client that compresses what it sends. *)
Definition compressing : State := mkState customClient (worldAt 0).

(** A client whose address has a scheme the client does not know. *)
Definition datagram : State :=
  mkState (mkHttpClient "" (5 * Second) ∅ "o" "default" "" false false ∅
             (mkURL "udp" "host:8089" "" "") zeroTime 0)
    (worldAt 0).

(** The scheduler hands over the three metrics and, a second later, the
    two that are routed by their tag. *)
Definition firstCall : Call := mkCall 1000000000 [] [0%nat; 1%nat; 2%nat].
Definition secondCall : Call := mkCall 1000000000 [] [0%nat; 2%nat].

End Scenario.

(** * Properties *)

(** ** The URL builder *)

Example makeWriteURL_example_prefix :
  makeWriteURL (mkURL "https" "host" "/prefix" "") "o" "b"
  = inl "https://host/prefix/api/v2/write?bucket=b&org=o".
Proof. reflexivity. Qed.

Example makeWriteURL_example_socket :
  makeWriteURL (mkURL "unix" "" "/var/run/influxdb.sock" "") "my org" "b/1"
  = inl "http://127.0.0.1/api/v2/write?bucket=b%2F1&org=my+org".
Proof. reflexivity. Qed.

Example makeOrgIDURL_example :
  makeOrgIDURL (mkURL "http" "host:8086" "" "") "o"
  = inl "http://host:8086/api/v2/orgs?limit=1&org=o".
Proof. reflexivity. Qed.

Section URLBuilder.

Lemma append_cons (x : ascii) (a b : string) :
  String x a +:+ b = String x (a +:+ b).
Proof. reflexivity. Qed.

Lemma append_assoc (a b c : string) : (a +:+ b) +:+ c = a +:+ (b +:+ c).
Proof.
  induction a as [|x a IH]; [reflexivity |].
  now rewrite !append_cons, IH.
Qed.

Lemma append_nil_l (a : string) : "" +:+ a = a.
Proof. reflexivity. Qed.

Lemma append_nil_r (a : string) : a +:+ "" = a.
Proof.
  induction a as [|x a IH]; [reflexivity |].
  now rewrite append_cons, IH.
Qed.

Lemma escape_append (a b : string) (mode : encoding) :
  escape (a +:+ b) mode = escape a mode +:+ escape b mode.
Proof.
  induction a as [|x a IH]; [reflexivity |].
  rewrite append_cons. cbn [escape]. now rewrite IH, append_assoc.
Qed.

Lemma rootedPath_app (a b : list string) :
  rootedPath (a ++ b) = rootedPath a +:+ rootedPath b.
Proof.
  induction a as [|x a IH]; [reflexivity |].
  cbn [app rootedPath]. now rewrite IH, !append_assoc.
Qed.

Lemma Join_rootedPath (e : string) (segs : list string) :
  "/" +:+ GoStrings.Join (e :: segs) "/" = rootedPath (e :: segs).
Proof.
  revert e. induction segs as [|x segs IH]; intros e.
  - cbn. now rewrite append_nil_r.
  - change (GoStrings.Join (e :: x :: segs) "/")
      with (e +:+ "/" +:+ GoStrings.Join (x :: segs) "/").
    change (rootedPath (e :: x :: segs)) with ("/" +:+ e +:+ rootedPath (x :: segs)).
    now rewrite <- IH.
Qed.

Lemma elements_not_nil (p : string) : GoPath.elements p <> [].
Proof.
  destruct p as [|c p]; cbn; [discriminate |].
  destruct (Ascii.eqb c GoPath.slash); [discriminate |].
  destruct (GoPath.elements p); discriminate.
Qed.

Lemma elements_app_slash (a b : string) :
  GoPath.elements (a +:+ String GoPath.slash b)
  = (GoPath.elements a ++ GoPath.elements b)%list.
Proof.
  induction a as [|c a IH].
  - reflexivity.
  - rewrite append_cons. cbn [GoPath.elements]. rewrite IH.
    destruct (Ascii.eqb c GoPath.slash); [reflexivity |].
    pose proof (elements_not_nil a) as Hne.
    destruct (GoPath.elements a); [contradiction | reflexivity].
Qed.

Lemma elements_noSlash (e : string) :
  noSlash e = true -> GoPath.elements e = [e].
Proof.
  unfold noSlash. induction e as [|c e IH]; cbn; [reflexivity |].
  intros H. apply andb_prop in H as [Hc He].
  destruct (Ascii.eqb c GoPath.slash); [discriminate |].
  now rewrite (IH He).
Qed.

Lemma isSegment_noSlash (e : string) : isSegment e = true -> noSlash e = true.
Proof. unfold isSegment. intros H. now apply andb_prop in H as [_ H]. Qed.

Lemma elements_rootedPath (e : string) (segs : list string) :
  forallb isSegment (e :: segs) = true ->
  GoPath.elements (rootedPath (e :: segs)) = "" :: e :: segs.
Proof.
  revert e. induction segs as [|x segs IH]; intros e H;
    cbn [forallb] in H; apply andb_prop in H as [He Hs].
  - cbn [rootedPath]. rewrite append_nil_r.
    change ("/" +:+ e) with ("" +:+ String GoPath.slash e).
    rewrite elements_app_slash.
    now rewrite (elements_noSlash e (isSegment_noSlash e He)).
  - change (rootedPath (e :: x :: segs))
      with (("/" +:+ e) +:+ String GoPath.slash (x +:+ rootedPath segs)).
    rewrite elements_app_slash.
    change ("/" +:+ e) with ("" +:+ String GoPath.slash e).
    rewrite elements_app_slash, (elements_noSlash e (isSegment_noSlash e He)).
    specialize (IH x Hs).
    change (rootedPath (x :: segs))
      with ("" +:+ String GoPath.slash (x +:+ rootedPath segs)) in IH.
    rewrite elements_app_slash in IH. cbn [GoPath.elements app] in IH.
    injection IH as IH. now rewrite IH.
Qed.

Lemma cleanLoop_segments (rooted : bool) (segs out rest : list string) :
  forallb isSegment segs = true ->
  GoPath.cleanLoop rooted out (segs ++ rest)
  = GoPath.cleanLoop rooted (rev segs ++ out) rest.
Proof.
  revert out. induction segs as [|e segs IH]; intros out Hs; [reflexivity |].
  cbn [forallb] in Hs. apply andb_prop in Hs as [He Hs].
  unfold isSegment in He.
  apply andb_prop in He as [He _]. apply andb_prop in He as [He H2].
  apply andb_prop in He as [H0 H1].
  apply negb_true_iff in H0, H1, H2.
  cbn [app GoPath.cleanLoop rev]. rewrite H0, H1, H2.
  rewrite (IH (e :: out) Hs). now rewrite <- app_assoc.
Qed.

(** A clean rooted path is left as it is. *)
Lemma Clean_rootedPath (e : string) (segs : list string) :
  forallb isSegment (e :: segs) = true ->
  GoPath.Clean (rootedPath (e :: segs)) = rootedPath (e :: segs).
Proof.
  intros H. unfold GoPath.Clean.
  replace (String.eqb (rootedPath (e :: segs)) "") with false by reflexivity.
  replace (GoStrings.HasPrefix (rootedPath (e :: segs)) "/") with true by reflexivity.
  rewrite (elements_rootedPath e segs H).
  change (GoPath.cleanLoop true [] ("" :: e :: segs))
    with (GoPath.cleanLoop true [] (e :: segs)).
  rewrite <- (app_nil_r (e :: segs)) at 1.
  rewrite (cleanLoop_segments true (e :: segs) [] [] H).
  cbn [GoPath.cleanLoop]. rewrite app_nil_r, rev_involutive.
  apply Join_rootedPath.
Qed.

(** Joining a clean rooted path to a clean rooted path appends it. *)
Lemma Join_clean_prefix (segs suffix : list string) :
  forallb isSegment segs = true ->
  forallb isSegment suffix = true -> suffix <> [] ->
  GoPath.Join (rootedPath segs) (rootedPath suffix)
  = rootedPath segs +:+ rootedPath suffix.
Proof.
  intros Hs Hx Hne.
  destruct suffix as [|y suffix]; [contradiction |].
  unfold GoPath.Join.
  replace (String.eqb (rootedPath (y :: suffix)) "") with false by reflexivity.
  destruct segs as [|e segs].
  - cbn [rootedPath String.eqb]. now apply (Clean_rootedPath y suffix).
  - replace (String.eqb (rootedPath (e :: segs)) "") with false by reflexivity.
    unfold GoPath.Clean.
    replace (String.eqb (rootedPath (e :: segs) +:+ "/" +:+ rootedPath (y :: suffix)) "")
      with false by reflexivity.
    replace (GoStrings.HasPrefix (rootedPath (e :: segs) +:+ "/" +:+ rootedPath (y :: suffix)) "/")
      with true by reflexivity.
    change ("/" +:+ rootedPath (y :: suffix))
      with (String GoPath.slash (rootedPath (y :: suffix))).
    rewrite elements_app_slash, (elements_rootedPath e segs Hs),
      (elements_rootedPath y suffix Hx).
    change (GoPath.cleanLoop true [] (("" :: e :: segs) ++ "" :: y :: suffix))
      with (GoPath.cleanLoop true [] ((e :: segs) ++ "" :: y :: suffix)).
    rewrite (cleanLoop_segments true (e :: segs) [] _ Hs).
    change (GoPath.cleanLoop true (rev (e :: segs) ++ []) ("" :: y :: suffix))
      with (GoPath.cleanLoop true (rev (e :: segs) ++ []) (y :: suffix)).
    rewrite <- (app_nil_r (y :: suffix)) at 1.
    rewrite (cleanLoop_segments true (y :: suffix) _ [] Hx).
    cbn [GoPath.cleanLoop].
    rewrite app_nil_r, rev_app_distr, !rev_involutive.
    change ((e :: segs) ++ y :: suffix)%list with (e :: (segs ++ y :: suffix))%list.
    rewrite Join_rootedPath.
    change (e :: (segs ++ y :: suffix))%list with ((e :: segs) ++ y :: suffix)%list.
    apply rootedPath_app.
Qed.

Lemma nonEmpty_cons (c : ascii) (s : string) : nonEmpty (String c s) = true.
Proof. reflexivity. Qed.

Lemma writeQuery (org bucket : string) :
  Values_Encode (Values_Set "org" org (Values_Set "bucket" bucket []))
  = "bucket=" +:+ QueryEscape bucket +:+ "&org=" +:+ QueryEscape org.
Proof. reflexivity. Qed.

End URLBuilder.

(** Appends are brought to one shape: nested to the right, with the
    bytes that are known in front. *)
Ltac string_norm :=
  repeat first [rewrite append_cons | rewrite append_nil_l
               | rewrite append_nil_r | rewrite append_assoc].

(** What [URL.String] writes: the part in front of the query, the
    query, the fragment. *)
Lemma URL_String_query (u : URL) :
  URL_String u
  = beforeQuery u +:+ querySuffix (ForceQuery u) (RawQuery u) +:+ fragmentSuffix u.
Proof.
  unfold beforeQuery, URL_String, EscapedPath, querySuffix, fragmentSuffix.
  cbn [Scheme Opaque User Host Path RawPath OmitHost ForceQuery RawQuery Fragment RawFragment].
  change (nonEmpty "") with false. cbn [orb].
  now rewrite !append_nil_r.
Qed.

(** The front of an address that has a scheme, no opaque part and a
    rooted path that is printed from [Path]. *)
Lemma beforeQuery_rooted (u : URL) (rest : string) :
  nonEmpty (Scheme u) = true -> Opaque u = "" -> RawPath u = "" ->
  Path u = String "/" rest ->
  beforeQuery u = Scheme u +:+ ":" +:+ authority u +:+ escape (Path u) encodePath.
Proof.
  destruct u as [scheme opaque user host path rawPath omit force query fragment rawFragment].
  cbn [Scheme Opaque User Host Path RawPath OmitHost]. intros Hs -> -> ->.
  unfold beforeQuery, URL_String, EscapedPath, rawIsCurrent, authority.
  cbn [Scheme Opaque User Host Path RawPath OmitHost ForceQuery RawQuery Fragment RawFragment].
  change (nonEmpty "") with false. cbn [andb orb]. rewrite Hs. cbn [orb].
  replace (String.eqb (String "/" rest) "*") with false by reflexivity.
  change (escape (String "/" rest) encodePath) with (String "/" (escape rest encodePath)).
  replace (GoStrings.HasPrefix (String "/" (escape rest encodePath)) "/")
    with true by reflexivity.
  rewrite !nonEmpty_cons. cbn [negb andb]. rewrite orb_true_r. cbn [orb].
  destruct scheme as [|c scheme]; [discriminate |].
  assert (Hhost : (if nonEmpty host then escape host encodeHost else "")
                  = escape host encodeHost) by now destruct host.
  rewrite Hhost. unfold userPrefix.
  destruct (omit && negb (nonEmpty host) && negb (isSet user));
    rewrite ?append_cons; cbn [String.eqb andb]; string_norm; reflexivity.
Qed.


(** The text of an API path behind a clean base path. *)
Lemma URL_String_endpoint (u : URL) (segs suffix : list string) :
  nonEmpty (Scheme u) = true -> Opaque u = "" -> RawPath u = "" ->
  forallb isSegment segs = true ->
  forallb isSegment suffix = true -> suffix <> [] ->
  URL_String (set_Path (GoPath.Join (rootedPath segs) (rootedPath suffix)) u)
  = Scheme u +:+ ":" +:+ authority u +:+ escape (rootedPath segs) encodePath
    +:+ escape (rootedPath suffix) encodePath
    +:+ querySuffix (ForceQuery u) (RawQuery u) +:+ fragmentSuffix u.
Proof.
  intros Hs Hop Hraw Hsegs Hsuffix Hne.
  rewrite URL_String_query.
  rewrite (Join_clean_prefix segs suffix Hsegs Hsuffix Hne).
  assert (Hrooted : exists rest, rootedPath segs +:+ rootedPath suffix = String "/" rest).
  { destruct segs as [|e segs]; [| eexists; reflexivity].
    destruct suffix as [|e suffix]; [contradiction | eexists; reflexivity]. }
  destruct Hrooted as [rest Hrest].
  rewrite (beforeQuery_rooted (set_Path (rootedPath segs +:+ rootedPath suffix) u) rest
             Hs Hop Hraw Hrest).
  cbn [set_Path Scheme Path ForceQuery RawQuery]. rewrite escape_append.
  change (authority (set_Path (rootedPath segs +:+ rootedPath suffix) u)) with (authority u).
  change (fragmentSuffix (set_Path (rootedPath segs +:+ rootedPath suffix) u))
    with (fragmentSuffix u).
  now rewrite !append_assoc.
Qed.

(** The text of an API path on the local host, for a socket. *)
Lemma URL_String_local (u : URL) (rest : string) :
  Opaque u = "" -> RawPath u = "" ->
  URL_String (set_Path (String "/" rest) (set_Host "127.0.0.1" (set_Scheme "http" u)))
  = "http://" +:+ userPrefix (User u) +:+ "127.0.0.1" +:+ escape (String "/" rest) encodePath
    +:+ querySuffix (ForceQuery u) (RawQuery u) +:+ fragmentSuffix u.
Proof.
  intros Hop Hraw. rewrite URL_String_query.
  rewrite (beforeQuery_rooted
             (set_Path (String "/" rest) (set_Host "127.0.0.1" (set_Scheme "http" u))) rest
             eq_refl Hop Hraw eq_refl).
  unfold authority. cbn [set_Path set_Host set_Scheme Scheme Host Path User OmitHost ForceQuery RawQuery].
  change (nonEmpty "127.0.0.1") with true. cbn [negb]. rewrite andb_false_r. cbn [andb].
  change (fragmentSuffix (set_Path (String "/" rest) (set_Host "127.0.0.1" (set_Scheme "http" u))))
    with (fragmentSuffix u).
  change (escape "127.0.0.1" encodeHost) with "127.0.0.1".
  string_norm. reflexivity.
Qed.

Lemma querySuffix_set (force : bool) (query : string) :
  nonEmpty query = true -> querySuffix force query = "?" +:+ query.
Proof. unfold querySuffix. intros ->. now rewrite orb_true_r. Qed.

Lemma scheme_nonEmpty (scheme : string) :
  scheme = "http" \/ scheme = "https" -> nonEmpty scheme = true.
Proof. now intros [-> | ->]. Qed.




(** The parts of a base address that the claim leaves out show in the
    write address: user info in front of the host, the fragment at the
    end, and an opaque part in place of host and path. *)
Example makeWriteURL_example_parts :
  makeWriteURL
    (mkLocation "unix" "" (Some (mkUserinfo "u" "" false)) "" "/run/influxdb.sock" ""
       false false "" "top" "") "o" "b"
  = inl "http://u@127.0.0.1/api/v2/write?bucket=b&org=o#top".
Proof. reflexivity. Qed.

(** ** Handling of the write response *)

Ltac munfold :=
  unfold mbind, M_bind, mret, M_ret, logPrintf, OnClientError, Accept in *;
  unfold emit in *;
  unfold getClient, modifyClient, getWorld, modifyWorld, timeNow in *;
  cbn [fst snd client world now trace store] in *.

(** Status codes between 400 and 499 print with a leading [4]. *)
Lemma itoa_4xx (code : Z) :
  400 <= code <= 499 -> exists rest, itoa code = String "4" rest.
Proof.
  intros H.
  assert (Hk : exists k : nat, (k < 100)%nat /\ code = 400 + Z.of_nat k).
  { exists (Z.to_nat (code - 400)). split; lia. }
  destruct Hk as (k & Hk & ->).
  do 100 (destruct k as [|k]; [eexists; reflexivity |]).
  lia.
Qed.

Lemma HasPrefix_trans_4 (status digits rest : string) :
  digits = String "4" rest ->
  GoStrings.HasPrefix status digits = true -> GoStrings.HasPrefix status "4" = true.
Proof.
  intros -> H. destruct status as [|c status]; [discriminate |].
  cbn in H |- *. apply andb_prop in H as [-> _]. reflexivity.
Qed.

Section ResponseHandling.

Variable env : Env.

Lemma requestBodyReader_state (metrics : list Metric) (s : State) :
  snd (requestBodyReader env metrics s) = s.
Proof.
  unfold requestBodyReader. munfold.
  destruct (String.eqb (ContentEncoding (client s)) "gzip"); [| reflexivity].
  destruct (gzipError env _); reflexivity.
Qed.

Lemma Do_state (req : GoHTTP.Request) (s : State) :
  Do env req s
  = (answer env s req,
     mkState (client s)
       (mkWorld (now (world s) + elapsed (transport env (trace (world s)) req))
          (trace (world s) ++ [EvRoundTrip req (answer env s req)]) (store (world s)))).
Proof. reflexivity. Qed.

(** Once the request is out and a response is back, [writeBatch] is the
    handling of the response. *)
Lemma writeBatch_sent (s : State) (bucket : string) (metrics : list Metric)
    (req : GoHTTP.Request) (resp : GoHTTP.Response) :
  writeRequestOf env s bucket metrics = inl req ->
  answer env s req = inr resp ->
  writeBatch env bucket metrics s
  = writeBatchResponse env bucket resp (snd (Do env req s)).
Proof.
  unfold writeRequestOf, writeBatch. intros Hreq Hans.
  unfold mbind, M_bind, getClient. cbn [fst snd].
  destruct (makeWriteURL _ _ bucket) as [loc | err]; [| discriminate].
  rewrite requestBodyReader_state.
  destruct (fst (requestBodyReader env metrics s)) as [body | err]; [| discriminate].
  rewrite Hreq, Do_state. cbn [fst snd].
  rewrite Hans. reflexivity.
Qed.

Lemma writeBatch_not_sent (s : State) (bucket : string) (metrics : list Metric)
    (err : error) :
  writeRequestOf env s bucket metrics = inr err ->
  writeBatch env bucket metrics s = (Some err, s).
Proof.
  unfold writeRequestOf, writeBatch. intros Hreq.
  unfold mbind, M_bind, getClient. cbn [fst snd].
  destruct (makeWriteURL _ _ bucket) as [loc | e].
  - rewrite requestBodyReader_state.
    destruct (fst (requestBodyReader env metrics s)) as [body | e].
    + rewrite Hreq. reflexivity.
    + injection Hreq as ->. reflexivity.
  - injection Hreq as ->. reflexivity.
Qed.

Lemma writeBatch_transport_error (s : State) (bucket : string) (metrics : list Metric)
    (req : GoHTTP.Request) (msg : string) :
  writeRequestOf env s bucket metrics = inl req ->
  answer env s req = inl msg ->
  writeBatch env bucket metrics s
  = (Some (ErrTransport msg),
     mkState (client s)
       (mkWorld (now (world s) + elapsed (transport env (trace (world s)) req))
          ((trace (world s) ++ [EvRoundTrip req (inl msg)]) ++ [EvOnClientError msg])
          (store (world s)))).
Proof.
  unfold writeRequestOf, writeBatch. intros Hreq Hans.
  unfold mbind, M_bind, getClient. cbn [fst snd].
  destruct (makeWriteURL _ _ bucket) as [loc | err]; [| discriminate].
  rewrite requestBodyReader_state.
  destruct (fst (requestBodyReader env metrics s)) as [body | err]; [| discriminate].
  rewrite Hreq, Do_state. cbn [fst snd].
  rewrite Hans. reflexivity.
Qed.

End ResponseHandling.

Lemma statusIn_In (code : Z) (codes : list Z) :
  statusIn code codes = true <-> In code codes.
Proof.
  unfold statusIn. rewrite existsb_exists. split.
  - intros (x & Hx & Heq). apply Z.eqb_eq in Heq. now subst.
  - intros H. exists code. split; [exact H | apply Z.eqb_refl].
Qed.

Lemma statusIn_not_In (code : Z) (codes : list Z) :
  ~ In code codes -> statusIn code codes = false.
Proof.
  intros H. destruct (statusIn code codes) eqn:E; [| reflexivity].
  now apply statusIn_In in E.
Qed.

Ltac status_constants :=
  unfold GoHTTP.StatusOK, GoHTTP.StatusCreated, GoHTTP.StatusAccepted,
    GoHTTP.StatusNoContent, GoHTTP.StatusPartialContent, GoHTTP.StatusMultiStatus,
    GoHTTP.StatusAlreadyReported, GoHTTP.StatusBadRequest, GoHTTP.StatusUnauthorized,
    GoHTTP.StatusForbidden, GoHTTP.StatusNotAcceptable,
    GoHTTP.StatusRequestEntityTooLarge, GoHTTP.StatusUnprocessableEntity,
    GoHTTP.StatusTooManyRequests, GoHTTP.StatusBadGateway,
    GoHTTP.StatusServiceUnavailable, GoHTTP.StatusGatewayTimeout in *.

(** How [writeBatchResponse] branches on a status code outside a list. *)
Ltac status_not_in :=
  match goal with
  | |- context [statusIn ?code ?codes] =>
      rewrite (statusIn_not_In code codes) by (status_constants; cbn [In] in *; lia)
  end.

Lemma classify_success (resp : GoHTTP.Response) :
  In (GoHTTP.StatusCode resp) [204; 200; 201; 202; 206; 207; 208] ->
  classify resp = Success.
Proof. intros H. unfold classify. now rewrite (proj2 (statusIn_In _ _) H). Qed.

Lemma classify_throttle (resp : GoHTTP.Response) :
  In (GoHTTP.StatusCode resp) [429; 503; 502; 504] -> classify resp = Throttle.
Proof.
  intros H. unfold classify.
  rewrite (statusIn_not_In _ [204; 200; 201; 202; 206; 207; 208]) by (cbn [In] in *; lia).
  rewrite (statusIn_not_In _ [400; 413; 422; 406]) by (cbn [In] in *; lia).
  rewrite (statusIn_not_In _ [401; 403]) by (cbn [In] in *; lia).
  now rewrite (proj2 (statusIn_In _ _) H).
Qed.

Lemma classify_dropped (resp : GoHTTP.Response) :
  In (GoHTTP.StatusCode resp) [400; 413; 422; 406]
  \/ (400 <= GoHTTP.StatusCode resp <= 499
      /\ ~ In (GoHTTP.StatusCode resp) [401; 403; 429]
      /\ GoStrings.HasPrefix (GoHTTP.Status resp) (itoa (GoHTTP.StatusCode resp)) = true
      /\ GoStrings.Contains (description resp) errStringBucketNotFound = false) ->
  In (classify resp) [DropSilently; ClientError].
Proof.
  intros Hcode. unfold classify.
  assert (H4xx : 400 <= GoHTTP.StatusCode resp <= 499).
  { destruct Hcode as [Hin | [H _]]; [cbn [In] in Hin; lia | exact H]. }
  rewrite (statusIn_not_In _ [204; 200; 201; 202; 206; 207; 208]) by (cbn [In] in *; lia).
  destruct (statusIn (GoHTTP.StatusCode resp) [400; 413; 422; 406]) eqn:Edrop; [now left |].
  destruct Hcode as [Hin | (_ & Hnot & Hline & Hdesc)].
  - apply statusIn_In in Hin. congruence.
  - rewrite (statusIn_not_In _ [401; 403]) by (cbn [In] in *; lia).
    rewrite (statusIn_not_In _ [429; 503; 502; 504]) by (cbn [In] in *; lia).
    rewrite Hdesc.
    destruct (itoa_4xx _ H4xx) as [rest Hrest].
    rewrite (HasPrefix_trans_4 _ _ rest Hrest Hline). right. now left.
Qed.

(** C7: a write answered with 204, 200, 201, 202, 206, 207 or 208 is a
    success: [writeBatch] returns nil, the retry counter is 0 afterwards,
    the retry time is the one before, and nothing but the round trip
    happened. *)
Theorem writeBatch_success (env : Env) (s : State) (bucket : string)
    (metrics : list Metric) (req : GoHTTP.Request) (resp : GoHTTP.Response) :
  writeRequestOf env s bucket metrics = inl req ->
  answer env s req = inr resp ->
  In (GoHTTP.StatusCode resp) [204; 200; 201; 202; 206; 207; 208] ->
  classify resp = Success
  /\ fst (writeBatch env bucket metrics s) = None
  /\ retryCount (client (snd (writeBatch env bucket metrics s))) = 0
  /\ retryTime (client (snd (writeBatch env bucket metrics s))) = retryTime (client s)
  /\ client (snd (writeBatch env bucket metrics s)) = set_retryCount 0 (client s)
  /\ trace (world (snd (writeBatch env bucket metrics s)))
     = (trace (world s) ++ [EvRoundTrip req (inr resp)])%list.
Proof.
  intros Hreq Hans Hcode. split; [now apply classify_success |].
  rewrite (writeBatch_sent env s bucket metrics req resp Hreq Hans).
  rewrite Do_state, Hans. unfold writeBatchResponse.
  assert (Hin : statusIn (GoHTTP.StatusCode resp)
            [GoHTTP.StatusNoContent; GoHTTP.StatusOK; GoHTTP.StatusCreated;
             GoHTTP.StatusAccepted; GoHTTP.StatusPartialContent;
             GoHTTP.StatusMultiStatus; GoHTTP.StatusAlreadyReported] = true).
  { cbn in Hcode. intuition (subst; try match goal with H : _ = GoHTTP.StatusCode resp |- _ =>
      rewrite <- H end; reflexivity). }
  rewrite Hin. munfold. repeat split.
Qed.

Lemma writeBatch_success_witness :
  classify (Scenario.noContent "") = Success
  /\ fst (writeBatch Scenario.healthy "default" [1%nat] Scenario.afterThreeThrottles) = None
  /\ retryCount (client (snd (writeBatch Scenario.healthy "default" [1%nat]
                                Scenario.afterThreeThrottles))) = 0
  /\ retryTime (client (snd (writeBatch Scenario.healthy "default" [1%nat]
                               Scenario.afterThreeThrottles)))
     = retryTime (client Scenario.afterThreeThrottles)
  /\ client (snd (writeBatch Scenario.healthy "default" [1%nat] Scenario.afterThreeThrottles))
     = set_retryCount 0 (client Scenario.afterThreeThrottles)
  /\ trace (world (snd (writeBatch Scenario.healthy "default" [1%nat]
                          Scenario.afterThreeThrottles)))
     = (trace (world Scenario.afterThreeThrottles)
        ++ [EvRoundTrip (Scenario.writeRequest "default" [Scenario.cpu [("host", "h2")]])
              (inr (Scenario.noContent ""))])%list.
Proof.
  apply (writeBatch_success Scenario.healthy Scenario.afterThreeThrottles "default" [1%nat]
           (Scenario.writeRequest "default" [Scenario.cpu [("host", "h2")]])
           (Scenario.noContent "")).
  - vm_compute. reflexivity.
  - vm_compute. reflexivity.
  - cbn. auto.
Defined.

(** C3, as the code has it: a write answered with 400, 413, 422 or 406 is
    logged and dropped, and so is a write answered with any other status
    between 400 and 499 except 401, 403 and 429, unless its description
    contains [not found: bucket]: [writeBatch] returns nil, the client is
    as before, and the round trip and the log line are all that
    happened. *)
Theorem writeBatch_dropped (env : Env) (s : State) (bucket : string)
    (metrics : list Metric) (req : GoHTTP.Request) (resp : GoHTTP.Response) :
  writeRequestOf env s bucket metrics = inl req ->
  answer env s req = inr resp ->
  In (GoHTTP.StatusCode resp) [400; 413; 422; 406]
  \/ (400 <= GoHTTP.StatusCode resp <= 499
      /\ ~ In (GoHTTP.StatusCode resp) [401; 403; 429]
      /\ GoStrings.HasPrefix (GoHTTP.Status resp) (itoa (GoHTTP.StatusCode resp)) = true
      /\ GoStrings.Contains (description resp) errStringBucketNotFound = false) ->
  In (classify resp) [DropSilently; ClientError]
  /\ fst (writeBatch env bucket metrics s) = None
  /\ client (snd (writeBatch env bucket metrics s)) = client s
  /\ trace (world (snd (writeBatch env bucket metrics s)))
     = (trace (world s)
        ++ [EvRoundTrip req (inr resp);
            EvLog (LogWillBeDropped (GoHTTP.Status resp) (description resp))])%list.
Proof.
  intros Hreq Hans Hcode. split; [now apply classify_dropped |].
  rewrite (writeBatch_sent env s bucket metrics req resp Hreq Hans).
  rewrite Do_state, Hans. unfold writeBatchResponse.
  assert (H4xx : 400 <= GoHTTP.StatusCode resp <= 499).
  { destruct Hcode as [Hin | [H _]]; [cbn [In] in Hin; lia | exact H]. }
  status_not_in.
  destruct (statusIn (GoHTTP.StatusCode resp)
              [GoHTTP.StatusBadRequest; GoHTTP.StatusRequestEntityTooLarge;
               GoHTTP.StatusUnprocessableEntity; GoHTTP.StatusNotAcceptable]) eqn:Edrop.
  - munfold. repeat split. now rewrite <- app_assoc.
  - destruct Hcode as [Hin | (_ & Hnot & Hline & Hdesc)].
    + apply statusIn_In in Hin. status_constants. congruence.
    + rewrite (statusIn_not_In _ [GoHTTP.StatusUnauthorized; GoHTTP.StatusForbidden])
        by (status_constants; cbn [In] in *; lia).
      status_not_in. rewrite Hdesc.
      destruct (itoa_4xx _ H4xx) as [rest Hrest].
      rewrite (HasPrefix_trans_4 _ _ rest Hrest Hline).
      munfold. repeat split. now rewrite <- app_assoc.
Qed.

Lemma writeBatch_dropped_witness :
  In (classify (Scenario.conflict "")) [DropSilently; ClientError]
  /\ fst (writeBatch Scenario.conflicting "default" [1%nat] Scenario.afterThreeThrottles) = None
  /\ client (snd (writeBatch Scenario.conflicting "default" [1%nat]
                    Scenario.afterThreeThrottles))
     = client Scenario.afterThreeThrottles
  /\ trace (world (snd (writeBatch Scenario.conflicting "default" [1%nat]
                          Scenario.afterThreeThrottles)))
     = (trace (world Scenario.afterThreeThrottles)
        ++ [EvRoundTrip (Scenario.writeRequest "default" [Scenario.cpu [("host", "h2")]])
              (inr (Scenario.conflict ""));
            EvLog (LogWillBeDropped (GoHTTP.Status (Scenario.conflict ""))
                     (description (Scenario.conflict "")))])%list.
Proof.
  apply (writeBatch_dropped Scenario.conflicting Scenario.afterThreeThrottles "default"
           [1%nat] (Scenario.writeRequest "default" [Scenario.cpu [("host", "h2")]])
           (Scenario.conflict "")).
  - vm_compute. reflexivity.
  - vm_compute. reflexivity.
  - right. repeat split.
    + vm_compute. discriminate.
    + vm_compute. discriminate.
    + cbn. intros [H | [H | [H | []]]]; discriminate.
Defined.

(** C3 as stated fails: a write answered with 404 whose description
    says that the bucket was not found is not dropped; [writeBatch]
    returns a [BucketNotFoundError]. *)
Lemma bucket_not_found_404_not_dropped :
  writeRequestOf Scenario.bucketVanished Scenario.afterThreeThrottles "default" [1%nat]
  = inl (Scenario.writeRequest "default" [Scenario.cpu [("host", "h2")]])
  /\ answer Scenario.bucketVanished Scenario.afterThreeThrottles
       (Scenario.writeRequest "default" [Scenario.cpu [("host", "h2")]])
     = inr (Scenario.bucketNotFound "")
  /\ GoHTTP.StatusCode (Scenario.bucketNotFound "") = 404
  /\ fst (writeBatch Scenario.bucketVanished "default" [1%nat] Scenario.afterThreeThrottles)
     = Some (ErrBucketNotFound
               (mkAPIError 404 "404 Not Found" "not found: bucket default not found")
               "default")
  /\ fst (writeBatch Scenario.bucketVanished "default" [1%nat] Scenario.afterThreeThrottles)
     <> None.
Proof. vm_compute. repeat split; discriminate. Qed.

(** ** The back-off *)

Lemma backoff_exact (count : Z) :
  (inject_Z count * inject_Z count / inject_Z 40 == backoffSeconds count)%Q.
Proof.
  unfold backoffSeconds. rewrite <- inject_Z_mult.
  replace (count ^ 2) with (count * count) by ring. reflexivity.
Qed.

Lemma backoff_nonneg (count : Z) : (0 <= backoffSeconds count)%Q.
Proof.
  unfold backoffSeconds, Qdiv. apply Qmult_le_0_compat; [| discriminate].
  change 0%Q with (inject_Z 0). rewrite <- Zle_Qle. apply Z.pow_even_nonneg.
  exists 1. reflexivity.
Qed.

(** The two comparisons of [getRetryDuration] compute the clamped
    maximum. *)
Lemma clamp_exact (a a' b : Q) :
  (a == a')%Q -> (0 <= a')%Q ->
  let m := if Qle_bool a b then b else a in
  let q := if Qle_bool m (inject_Z 60) then m else inject_Z 60 in
  (q == Qmin (Qmax a' b) (inject_Z 60))%Q /\ (0 <= q)%Q /\ (q <= inject_Z 60)%Q.
Proof.
  intros Ha Hpos m q.
  assert (Hm : (m == Qmax a' b)%Q /\ (0 <= m)%Q).
  { subst m. destruct (Qle_bool a b) eqn:E.
    - apply Qle_bool_iff in E. rewrite Ha in E. split.
      + symmetry. now apply Q.max_r.
      + now apply Qle_trans with a'.
    - assert (Hlt : (b < a')%Q).
      { apply Qnot_le_lt. intros H. rewrite <- Ha in H.
        apply Qle_bool_iff in H. congruence. }
      split.
      + rewrite Ha. symmetry. apply Q.max_l. now apply Qlt_le_weak.
      + now rewrite Ha. }
  destruct Hm as [Hm Hm0]. subst q.
  destruct (Qle_bool m (inject_Z 60)) eqn:E.
  - apply Qle_bool_iff in E. repeat split; try assumption.
    rewrite <- Hm. symmetry. now apply Q.min_l.
  - assert (Hlt : (inject_Z 60 < m)%Q).
    { apply Qnot_le_lt. intros H. apply Qle_bool_iff in H. congruence. }
    repeat split.
    + rewrite <- Hm. symmetry. apply Q.min_r. now apply Qlt_le_weak.
    + discriminate.
    + apply Qle_refl.
Qed.

Lemma wrap64_small (z : Z) : - 2 ^ 63 <= z < 2 ^ 63 -> wrap64 z = z.
Proof.
  intros H. unfold wrap64.
  change (2 ^ 63) with 9223372036854775808 in *.
  change (2 ^ 64) with 18446744073709551616.
  rewrite Z.mod_small; lia.
Qed.

(** [getRetryDuration] computes the delay of the specification from the
    counter as it stands when it is called. *)
Lemma getRetryDuration_delay (env : Env) (c : httpClient)
    (headers : gmap string string) (retryAfter : Q) :
  retryAfterSeconds env headers = Some retryAfter ->
  getRetryDuration env c headers = delaySeconds (retryCount c) retryAfter * Second.
Proof.
  intros Hhint. unfold getRetryDuration.
  assert (Hheader :
    (if 0 <? Z.of_nat (String.length (GoHTTP.Get headers "Retry-After"))
     then match ParseFloat env (GoHTTP.Get headers "Retry-After") with
          | Some x => x
          | None => ofInt 10
          end
     else ofInt 0) = FFinite retryAfter).
  { unfold retryAfterSeconds in Hhint. unfold GoHTTP.Get.
    destruct (headers !! "Retry-After") as [value |]; cbn [default from_option id].
    - destruct value as [|ch value].
      + cbn. injection Hhint as <-. reflexivity.
      + replace (0 <? Z.of_nat (String.length (String ch value))) with true
          by (symmetry; apply Z.ltb_lt; cbn [String.length]; lia).
        destruct (ParseFloat env (String ch value)) as [[q | neg |] |];
          try discriminate; injection Hhint as <-; reflexivity.
    - cbn. injection Hhint as <-. reflexivity. }
  rewrite Hheader. unfold ofInt, Pow2, div40, Max, Min, defaultMaxWait.
  pose proof (clamp_exact _ _ retryAfter (backoff_exact (retryCount c))
                (backoff_nonneg (retryCount c))) as (Heq & H0 & H60).
  cbv zeta in Heq, H0, H60.
  set (q := if Qle_bool _ (inject_Z 60) then _ else _) in *.
  unfold toInt64, truncate.
  assert (E0 : Qle_bool 0 q = true) by now apply Qle_bool_iff.
  rewrite E0.
  assert (Hfloor : 0 <= Qfloor q <= 60).
  { split.
    - rewrite <- (Qfloor_Z 0). now apply Qfloor_resp_le.
    - rewrite <- (Qfloor_Z 60). now apply Qfloor_resp_le. }
  assert (E1 : (- 2 ^ 63 <=? Qfloor q) && (Qfloor q <? 2 ^ 63) = true).
  { apply andb_true_intro.
    split; [apply Z.leb_le | apply Z.ltb_lt];
      change (2 ^ 63) with 9223372036854775808; lia. }
  rewrite E1.
  unfold delaySeconds. rewrite <- (Qfloor_comp _ _ Heq).
  apply wrap64_small. unfold Second.
  change (2 ^ 63) with 9223372036854775808. lia.
Qed.

(** C2, as the code has it: on a write answered with 429, 503, 502 or
    504 the retry counter goes up by one and the retry time is set to the
    time of the answer plus the delay; the delay is the larger of the
    back-off and the [Retry-After] seconds, at most 60 and cut down to
    whole seconds, and the back-off is the square of the counter after
    the increment over 40. *)
Theorem writeBatch_throttled (env : Env) (s : State) (bucket : string)
    (metrics : list Metric) (req : GoHTTP.Request) (resp : GoHTTP.Response)
    (retryAfter : Q) :
  writeRequestOf env s bucket metrics = inl req ->
  answer env s req = inr resp ->
  In (GoHTTP.StatusCode resp) [429; 503; 502; 504] ->
  0 <= retryCount (client s) < 2 ^ 63 - 1 ->
  retryAfterSeconds env (GoHTTP.Header resp) = Some retryAfter ->
  classify resp = Throttle
  /\ fst (writeBatch env bucket metrics s)
     = Some (ErrWaiting (delaySeconds (retryCount (client s) + 1) retryAfter * Second))
  /\ retryCount (client (snd (writeBatch env bucket metrics s)))
     = retryCount (client s) + 1
  /\ retryTime (client (snd (writeBatch env bucket metrics s)))
     = now (world (snd (writeBatch env bucket metrics s)))
       + delaySeconds (retryCount (client s) + 1) retryAfter * Second
  /\ now (world (snd (writeBatch env bucket metrics s)))
     = now (world s) + elapsed (transport env (trace (world s)) req).
Proof.
  intros Hreq Hans Hcode Hcount Hhint. split; [now apply classify_throttle |].
  rewrite (writeBatch_sent env s bucket metrics req resp Hreq Hans).
  rewrite Do_state, Hans. unfold writeBatchResponse.
  do 3 status_not_in.
  rewrite (proj2 (statusIn_In _ _)) by (status_constants; exact Hcode).
  munfold. rewrite wrap64_small by (change (2 ^ 63) with 9223372036854775808 in *; lia).
  rewrite (getRetryDuration_delay env _ _ retryAfter Hhint).
  cbn [retryCount set_retryCount retryTime set_retryTime].
  repeat split.
Qed.

Lemma writeBatch_throttled_witness :
  classify (Scenario.tooManyRequests "") = Throttle
  /\ fst (writeBatch Scenario.overloaded "default" [1%nat] Scenario.afterThirtyThrottles)
     = Some (ErrWaiting (24 * Second))
  /\ retryCount (client (snd (writeBatch Scenario.overloaded "default" [1%nat]
                                Scenario.afterThirtyThrottles))) = 31
  /\ retryTime (client (snd (writeBatch Scenario.overloaded "default" [1%nat]
                               Scenario.afterThirtyThrottles)))
     = now (world (snd (writeBatch Scenario.overloaded "default" [1%nat]
                          Scenario.afterThirtyThrottles))) + 24 * Second
  /\ now (world (snd (writeBatch Scenario.overloaded "default" [1%nat]
                        Scenario.afterThirtyThrottles))) = 1000000.
Proof.
  apply (writeBatch_throttled Scenario.overloaded Scenario.afterThirtyThrottles "default"
           [1%nat] (Scenario.writeRequest "default" [Scenario.cpu [("host", "h2")]])
           (Scenario.tooManyRequests "") (inject_Z 0)).
  - vm_compute. reflexivity.
  - vm_compute. reflexivity.
  - cbn. auto.
  - vm_compute. split; [discriminate | reflexivity].
  - vm_compute. reflexivity.
Defined.

(** C2 as stated fails: entering with a retry counter of 30 and answered
    with 429 without [Retry-After], the client waits 24 seconds, which is
    31 squared over 40 cut down to whole seconds, not 22.5 seconds. *)
Lemma throttle_after_30_waits_24_seconds :
  retryCount (client Scenario.afterThirtyThrottles) = 30
  /\ GoHTTP.StatusCode (Scenario.tooManyRequests "") = 429
  /\ GoHTTP.Header (Scenario.tooManyRequests "") !! "Retry-After" = None
  /\ answer Scenario.overloaded Scenario.afterThirtyThrottles
       (Scenario.writeRequest "default" [Scenario.cpu [("host", "h2")]])
     = inr (Scenario.tooManyRequests "")
  /\ retryTime (client (snd (writeBatch Scenario.overloaded "default" [1%nat]
                               Scenario.afterThirtyThrottles)))
     - now (world (snd (writeBatch Scenario.overloaded "default" [1%nat]
                          Scenario.afterThirtyThrottles)))
     = 24 * Second
  /\ retryTime (client (snd (writeBatch Scenario.overloaded "default" [1%nat]
                               Scenario.afterThirtyThrottles)))
     - now (world (snd (writeBatch Scenario.overloaded "default" [1%nat]
                          Scenario.afterThirtyThrottles)))
     <> 22500000000.
Proof. vm_compute. repeat split; discriminate. Qed.

(** ** What a method leaves behind *)

Lemma happened_refl (s : State) : happened s s [].
Proof. unfold happened. now rewrite app_nil_r. Qed.

Lemma happened_trans (s1 s2 s3 : State) (d1 d2 : list Event) :
  happened s1 s2 d1 -> happened s2 s3 d2 -> happened s1 s3 (d1 ++ d2).
Proof. unfold happened. intros H1 H2. now rewrite H2, H1, app_assoc. Qed.

(** What [writeBatch] returns is decided by the outcome of the response. *)
Lemma writeBatchResponse_result (env : Env) (bucket : string)
    (resp : GoHTTP.Response) (s : State) :
  fst (writeBatchResponse env bucket resp s)
  = match classify resp with
    | Success | DropSilently | ClientError => None
    | Unauthorized => Some (ErrFailedToWrite (GoHTTP.Status resp) (description resp))
    | Throttle =>
        Some (ErrWaiting
                (getRetryDuration env
                   (set_retryCount (wrap64 (retryCount (client s) + 1)) (client s))
                   (GoHTTP.Header resp)))
    | BucketMissing =>
        Some (ErrBucketNotFound
                (mkAPIError (GoHTTP.StatusCode resp) (GoHTTP.Status resp) (description resp))
                bucket)
    | ServerError =>
        Some (ErrAPI (mkAPIError (GoHTTP.StatusCode resp) (GoHTTP.Status resp)
                        (serverErrorDescription resp)))
    end.
Proof.
  unfold writeBatchResponse, classify. status_constants.
  destruct (statusIn _ [204; 200; 201; 202; 206; 207; 208]); [reflexivity |].
  destruct (statusIn _ [400; 413; 422; 406]); [reflexivity |].
  destruct (statusIn _ [401; 403]); [reflexivity |].
  destruct (statusIn _ [429; 503; 502; 504]); [reflexivity |].
  destruct (GoStrings.Contains _ _); [reflexivity |].
  destruct (GoStrings.HasPrefix _ _); reflexivity.
Qed.

(** The handling of a response makes no request; it logs, and it touches
    the retry counter and the retry time only. *)
Lemma writeBatchResponse_frame (env : Env) (bucket : string)
    (resp : GoHTTP.Response) (s : State) :
  exists delta,
    happened s (snd (writeBatchResponse env bucket resp s)) delta
    /\ Forall (fun ev => isWriteTraffic ev = true /\ isWrite ev = false) delta
    /\ store (world (snd (writeBatchResponse env bucket resp s))) = store (world s)
    /\ config (client (snd (writeBatchResponse env bucket resp s))) = config (client s)
    /\ createBucketExecuted (client (snd (writeBatchResponse env bucket resp s)))
       = createBucketExecuted (client s).
Proof.
  unfold writeBatchResponse, happened.
  destruct (statusIn _ _).
  { exists []. munfold. rewrite app_nil_r. repeat split; constructor. }
  destruct (statusIn _ _).
  { eexists [_]. munfold. repeat split. repeat constructor. }
  destruct (statusIn _ _).
  { exists []. munfold. rewrite app_nil_r. repeat split; constructor. }
  destruct (statusIn _ _).
  { eexists [_]. munfold. repeat split. repeat constructor. }
  destruct (GoStrings.Contains _ _).
  { exists []. munfold. rewrite app_nil_r. repeat split; constructor. }
  destruct (GoStrings.HasPrefix _ _).
  { eexists [_]. munfold. repeat split. repeat constructor. }
  exists []. munfold. rewrite app_nil_r. repeat split; constructor.
Qed.

Lemma writeRequestOf_request (env : Env) (s : State) (bucket : string)
    (metrics : list Metric) (req : GoHTTP.Request) :
  writeRequestOf env s bucket metrics = inl req ->
  makeWriteURL (url (client s)) (Organization (client s)) bucket = inl (GoHTTP.URL req)
  /\ exists gzip,
       GoHTTP.ReqBody req = GoHTTP.LineProtocol gzip (contents (store (world s)) metrics).
Proof.
  unfold writeRequestOf, requestBodyReader, makeWriteRequest. munfold.
  destruct (makeWriteURL _ _ _) as [loc | err]; [| discriminate].
  destruct (String.eqb (ContentEncoding (client s)) "gzip").
  - destruct (gzipError env _); cbn [fst]; [discriminate |].
    destruct (newRequestError env _ _); [discriminate |].
    intros [= <-]. split; [reflexivity | now exists true].
  - cbn [fst]. destruct (newRequestError env _ _); [discriminate |].
    intros [= <-]. split; [reflexivity | now exists false].
Qed.

(** [writeBatch] makes at most one request, a write; it leaves the
    metrics, the configuration and the created buckets as they are. *)
Lemma writeBatch_frame (env : Env) (bucket : string) (metrics : list Metric) (s : State) :
  exists delta,
    happened s (snd (writeBatch env bucket metrics s)) delta
    /\ Forall (fun ev => isWriteTraffic ev = true) delta
    /\ store (world (snd (writeBatch env bucket metrics s))) = store (world s)
    /\ config (client (snd (writeBatch env bucket metrics s))) = config (client s)
    /\ createBucketExecuted (client (snd (writeBatch env bucket metrics s)))
       = createBucketExecuted (client s).
Proof.
  destruct (writeRequestOf env s bucket metrics) as [req | err] eqn:Hreq.
  - destruct (writeRequestOf_request env s bucket metrics req Hreq) as (_ & gzip & Hbody).
    destruct (answer env s req) as [msg | resp] eqn:Hans.
    + rewrite (writeBatch_transport_error env s bucket metrics req msg Hreq Hans).
      eexists [_; _]. unfold happened. cbn [snd world client trace store].
      rewrite <- app_assoc. repeat split.
      repeat constructor. cbn. now rewrite Hbody.
    + rewrite (writeBatch_sent env s bucket metrics req resp Hreq Hans).
      destruct (writeBatchResponse_frame env bucket resp (snd (Do env req s)))
        as (delta & Hd & Hall & Hst & Hcfg & Hcr).
      exists (EvRoundTrip req (answer env s req) :: delta).
      rewrite Hst, Hcfg, Hcr. repeat split.
      * unfold happened in *. rewrite Hd, Do_state. cbn [snd world trace].
        now rewrite <- app_assoc.
      * constructor; [cbn; now rewrite Hbody |].
        eapply Forall_impl; [exact Hall |]. now intros ev [H _].
  - rewrite (writeBatch_not_sent env s bucket metrics err Hreq).
    exists []. repeat split; [apply happened_refl | constructor].
Qed.

Lemma makeAPIRequest_body (env : Env) (c : httpClient) (method url : string)
    (body : GoHTTP.Payload) (req : GoHTTP.Request) :
  makeAPIRequest env c method url body = inl req -> GoHTTP.ReqBody req = body.
Proof.
  unfold makeAPIRequest. destruct (newRequestError env _ _); [discriminate |].
  now intros [= <-].
Qed.

(** [getOrgID] makes at most one request, without a body, and changes
    nothing of the client or the metrics. *)
Lemma getOrgID_frame (env : Env) (s : State) :
  client (snd (getOrgID env s)) = client s
  /\ store (world (snd (getOrgID env s))) = store (world s)
  /\ exists delta,
       happened s (snd (getOrgID env s)) delta
       /\ Forall (fun ev => forall bucket,
                    isCreateTraffic bucket ev = true /\ isCreationOf bucket ev = false) delta.
Proof.
  unfold getOrgID. munfold.
  destruct (makeOrgIDURL _ _) as [loc | err].
  2: { repeat split. exists []. split; [apply happened_refl | constructor]. }
  destruct (makeAPIRequest env _ "GET" loc _) as [req | err] eqn:Hreq.
  2: { repeat split. exists []. split; [apply happened_refl | constructor]. }
  apply makeAPIRequest_body in Hreq.
  rewrite Do_state. cbn [fst snd].
  assert (Hev : forall res bucket,
             isCreateTraffic bucket (EvRoundTrip req res) = true
             /\ isCreationOf bucket (EvRoundTrip req res) = false).
  { intros res bucket. cbn. now rewrite Hreq. }
  destruct (answer env s req) as [msg | resp] eqn:Hans.
  - munfold. repeat split. eexists [_; _]. unfold happened. cbn [world trace].
    rewrite <- app_assoc. split; [reflexivity |].
    constructor; [apply Hev |]. constructor; [| constructor]. now intros bucket.
  - assert (Hone : exists delta,
      happened s
        (mkState (client s)
           (mkWorld (now (world s) + elapsed (transport env (trace (world s)) req))
              (trace (world s) ++ [EvRoundTrip req (inr resp)]) (store (world s)))) delta
      /\ Forall (fun ev => forall bucket,
                   isCreateTraffic bucket ev = true /\ isCreationOf bucket ev = false) delta).
    { eexists [_]. split; [reflexivity |]. constructor; [apply Hev | constructor]. }
    destruct (validateResponse (GoHTTP.Body resp)) as [body [err |]].
    + repeat split. exact Hone.
    + destruct (from_option GoHTTP.decodeOrgs None body) as [orgs |].
      * destruct orgs as [| org [| org' orgs]];
          [| destruct (GoHTTP.StatusCode resp =? 200) |]; repeat split; exact Hone.
      * repeat split. exact Hone.
Qed.

Lemma countCreations_app (bucket : string) (d1 d2 : list Event) :
  countCreations bucket (d1 ++ d2) = (countCreations bucket d1 + countCreations bucket d2)%nat.
Proof. induction d1 as [| ev d1 IH]; cbn; [reflexivity | rewrite IH; lia]. Qed.

Lemma countCreations_none (bucket : string) (delta : list Event) :
  Forall (fun ev => isCreationOf bucket ev = false) delta ->
  countCreations bucket delta = 0%nat.
Proof. induction 1 as [| ev d Hev _ IH]; cbn; [reflexivity | now rewrite Hev, IH]. Qed.

Lemma isCreated_isCreationOf (bucket : string) (ev : Event) :
  isCreated bucket ev = true -> isCreationOf bucket ev = true.
Proof.
  destruct ev as [req [msg | resp] | | |]; cbn; try discriminate.
  intros H. now apply andb_prop in H as [H _].
Qed.

Lemma isCreationOf_false_isCreated (bucket : string) (ev : Event) :
  isCreationOf bucket ev = false -> isCreated bucket ev = false.
Proof.
  intros H. destruct (isCreated bucket ev) eqn:E; [| reflexivity].
  apply isCreated_isCreationOf in E. congruence.
Qed.

(** [CreateBucket] asks for nothing but the organization and the
    creation of its bucket, the latter at most once, and marks the bucket
    exactly when it returns nil, which it does exactly when the creation
    was answered with 201. *)
Lemma CreateBucket_frame (env : Env) (bucket : string) (s : State) :
  exists delta,
    happened s (snd (CreateBucket env bucket s)) delta
    /\ Forall (fun ev => isCreateTraffic bucket ev = true) delta
    /\ (countCreations bucket delta <= 1)%nat
    /\ world (snd (CreateBucket env bucket s))
       = mkWorld (now (world (snd (CreateBucket env bucket s))))
           (trace (world s) ++ delta) (store (world s))
    /\ ((fst (CreateBucket env bucket s) <> None
         /\ client (snd (CreateBucket env bucket s)) = client s
         /\ Forall (fun ev => isCreated bucket ev = false) delta)
        \/ (fst (CreateBucket env bucket s) = None
            /\ client (snd (CreateBucket env bucket s))
               = set_createBucketExecuted
                   (<[bucket := true]> (createBucketExecuted (client s))) (client s)
            /\ Exists (fun ev => isCreated bucket ev = true) delta)).
Proof.
  remember (CreateBucket env bucket s) as r eqn:Er.
  unfold CreateBucket in Er.
  pose proof (getOrgID_frame env s) as (Hc & Hst & d0 & Hd0 & Hall0).
  unfold mbind at 1, M_bind at 1 in Er.
  destruct (getOrgID env s) as [[orgId oerr] s0]. cbn [fst snd] in *.
  assert (Hall0' : Forall (fun ev => isCreateTraffic bucket ev = true) d0).
  { eapply Forall_impl; [exact Hall0 |]. intros ev H. apply H. }
  assert (Hnone0 : Forall (fun ev => isCreationOf bucket ev = false) d0).
  { eapply Forall_impl; [exact Hall0 |]. intros ev H. apply H. }
  assert (Hnot0 : Forall (fun ev => isCreated bucket ev = false) d0).
  { eapply Forall_impl; [exact Hnone0 |]. apply isCreationOf_false_isCreated. }
  assert (Hcount0 : countCreations bucket d0 = 0%nat) by now apply countCreations_none.
  assert (Hstop : forall err : error, r = (Some err, s0) ->
    exists delta,
      happened s (snd r) delta
      /\ Forall (fun ev => isCreateTraffic bucket ev = true) delta
      /\ (countCreations bucket delta <= 1)%nat
      /\ world (snd r)
         = mkWorld (now (world (snd r))) (trace (world s) ++ delta) (store (world s))
      /\ ((fst r <> None /\ client (snd r) = client s
           /\ Forall (fun ev => isCreated bucket ev = false) delta)
          \/ (fst r = None
              /\ client (snd r)
                 = set_createBucketExecuted
                     (<[bucket := true]> (createBucketExecuted (client s))) (client s)
              /\ Exists (fun ev => isCreated bucket ev = true) delta))).
  { intros err ->. exists d0. cbn [fst snd]. repeat split; try assumption.
    - lia.
    - unfold happened in Hd0. rewrite <- Hd0, <- Hst. now destruct (world s0).
    - left. repeat split; [discriminate | exact Hc | exact Hnot0]. }
  destruct oerr as [err |]; [exact (Hstop err Er) |].
  unfold mbind at 1, M_bind at 1 in Er. unfold getClient in Er. cbn [fst snd] in Er.
  destruct (makeCreateURL _) as [loc | err]; [| exact (Hstop err Er)].
  destruct (makeAPIRequest env _ "POST" loc _) as [req | err] eqn:Hreq;
    [| exact (Hstop err Er)].
  apply makeAPIRequest_body in Hreq. clear Hstop.
  unfold mbind at 1, M_bind at 1 in Er. rewrite Do_state in Er. cbn [fst snd] in Er.
  assert (Hev : forall res, isCreationOf bucket (EvRoundTrip req res) = true).
  { intros res. cbn. rewrite Hreq. cbn. apply String.eqb_refl. }
  assert (Hev' : forall res, isCreateTraffic bucket (EvRoundTrip req res) = true).
  { intros res. cbn. rewrite Hreq. cbn. apply String.eqb_refl. }
  unfold happened in *.
  destruct (answer env s0 req) as [msg | resp] eqn:Hans.
  - munfold. subst r. cbn [fst snd client world trace store now].
    exists (d0 ++ [EvRoundTrip req (inl msg); EvOnClientError msg])%list.
    rewrite Hd0, Hst, Hc. rewrite <- !app_assoc. repeat split.
    + apply Forall_app. split; [exact Hall0' |]. repeat constructor. apply Hev'.
    + rewrite countCreations_app, Hcount0. cbn. rewrite Hreq. cbn.
      rewrite String.eqb_refl. lia.
    + left. repeat split; [discriminate |].
      apply Forall_app. split; [exact Hnot0 |]. repeat constructor.
  - destruct (GoHTTP.StatusCode resp =? 201) eqn:E201.
    + munfold. subst r. cbn [fst snd client world trace store now].
      exists (d0 ++ [EvRoundTrip req (inr resp)])%list.
      rewrite Hd0, Hst, Hc. rewrite <- !app_assoc. repeat split.
      * apply Forall_app. split; [exact Hall0' |]. repeat constructor. apply Hev'.
      * rewrite countCreations_app, Hcount0. cbn. rewrite Hreq. cbn.
        rewrite String.eqb_refl. lia.
      * right. repeat split. apply Exists_app. right. constructor.
        unfold isCreated. now rewrite Hev, E201.
    + munfold. subst r. cbn [fst snd client world trace store now].
      exists (d0 ++ [EvRoundTrip req (inr resp)])%list.
      rewrite Hd0, Hst, Hc. rewrite <- !app_assoc. repeat split.
      * apply Forall_app. split; [exact Hall0' |]. repeat constructor. apply Hev'.
      * rewrite countCreations_app, Hcount0. cbn. rewrite Hreq. cbn.
        rewrite String.eqb_refl. lia.
      * left. repeat split; [discriminate |].
        apply Forall_app. split; [exact Hnot0 |]. repeat constructor.
        unfold isCreated. now rewrite Hev, E201.
Qed.

Lemma executed_insert (m : gmap string bool) (b b' : string) :
  executed (<[b' := true]> m) b = true <-> b' = b \/ executed m b = true.
Proof.
  unfold executed. destruct (decide (b' = b)) as [-> | Hne].
  - rewrite lookup_insert_eq. cbn. tauto.
  - rewrite lookup_insert_ne by exact Hne. split; [tauto | intros [H | H]; congruence].
Qed.

(** [ensureBucket] does nothing for a bucket already created or when
    creation is switched off. *)
Lemma ensureBucket_skip (env : Env) (bucket : string) (s : State) :
  SkipBucketCreation (client s) = true
  \/ executed (createBucketExecuted (client s)) bucket = true ->
  ensureBucket env bucket s = (tt, s).
Proof.
  unfold ensureBucket. munfold. intros [-> | ->]; [reflexivity |].
  now rewrite andb_false_r.
Qed.

(** Otherwise it is [CreateBucket], with a log line on failure. *)
Lemma ensureBucket_creates (env : Env) (bucket : string) (s : State) :
  SkipBucketCreation (client s) = false ->
  executed (createBucketExecuted (client s)) bucket = false ->
  snd (ensureBucket env bucket s)
  = match fst (CreateBucket env bucket s) with
    | Some err =>
        snd (logPrintf (LogBucketCreationFailed (URL_String (url (client s))) bucket err)
               (snd (CreateBucket env bucket s)))
    | None => snd (CreateBucket env bucket s)
    end.
Proof.
  unfold ensureBucket. intros Hskip Hex.
  unfold mbind at 1, M_bind at 1. unfold getClient. cbn [fst snd].
  rewrite Hskip, Hex. cbn [negb andb].
  unfold mbind, M_bind. now destruct (fst (CreateBucket env bucket s)).
Qed.

Lemma ensureBucket_frame (env : Env) (bucket : string) (s : State) :
  exists delta,
    happened s (snd (ensureBucket env bucket s)) delta
    /\ Forall (fun ev => isEnsureTraffic bucket ev = true) delta
    /\ (countCreations bucket delta <= 1)%nat
    /\ store (world (snd (ensureBucket env bucket s))) = store (world s)
    /\ ((client (snd (ensureBucket env bucket s)) = client s
         /\ Forall (fun ev => isCreated bucket ev = false) delta)
        \/ (client (snd (ensureBucket env bucket s))
            = set_createBucketExecuted
                (<[bucket := true]> (createBucketExecuted (client s))) (client s)
            /\ Exists (fun ev => isCreated bucket ev = true) delta)).
Proof.
  destruct (SkipBucketCreation (client s)) eqn:Hskip.
  { rewrite ensureBucket_skip by now left.
    exists []. repeat split; [apply happened_refl | constructor | cbn; lia |].
    left. split; [reflexivity | constructor]. }
  destruct (executed (createBucketExecuted (client s)) bucket) eqn:Hex.
  { rewrite ensureBucket_skip by now right.
    exists []. repeat split; [apply happened_refl | constructor | cbn; lia |].
    left. split; [reflexivity | constructor]. }
  rewrite (ensureBucket_creates env bucket s Hskip Hex).
  destruct (CreateBucket_frame env bucket s) as (delta & Hd & Hall & Hcount & Hw & Hcl).
  assert (Hall' : Forall (fun ev => isEnsureTraffic bucket ev = true) delta).
  { eapply Forall_impl; [exact Hall |]. intros [] H; try exact H. discriminate. }
  destruct (fst (CreateBucket env bucket s)) as [err |].
  - destruct Hcl as [(_ & Hcl & Hnot) | [Hnone _]]; [| discriminate].
    exists (delta ++ [EvLog (LogBucketCreationFailed (URL_String (url (client s))) bucket err)])%list.
    munfold. unfold happened in *. cbn [world trace store client].
    rewrite Hd, Hw. cbn [store]. rewrite app_assoc. repeat split.
    + apply Forall_app. split; [exact Hall' |]. repeat constructor.
      cbn. apply String.eqb_refl.
    + rewrite countCreations_app. cbn. lia.
    + left. split; [exact Hcl |]. apply Forall_app. split; [exact Hnot |].
      repeat constructor.
  - destruct Hcl as [[Hsome _] | (_ & Hcl & Hev)]; [congruence |].
    exists delta. rewrite Hw. cbn [store]. repeat split; try assumption.
    right. split; assumption.
Qed.

(** A relation between the state before and the state after that is
    reflexive, transitive and kept by the bucket manager and by a write
    is kept by the second loop of [Write]. *)
Lemma writeBatches_rel (env : Env) (R : State -> State -> Prop) :
  (forall s, R s s) ->
  (forall s1 s2 s3, R s1 s2 -> R s2 s3 -> R s1 s3) ->
  (forall bucket s, R s (snd (ensureBucket env bucket s))) ->
  (forall bucket metrics s, R s (snd (writeBatch env bucket metrics s))) ->
  forall batches s, R s (snd (writeBatches env batches s)).
Proof.
  intros Hrefl Htrans Hensure Hwrite batches.
  induction batches as [| [bucket metrics] rest IH]; intros s.
  - apply Hrefl.
  - cbn [writeBatches]. unfold mbind, M_bind.
    pose proof (Hensure bucket s) as H1.
    set (s1 := snd (ensureBucket env bucket s)) in *.
    pose proof (Hwrite bucket metrics s1) as H2.
    set (s2 := snd (writeBatch env bucket metrics s1)) in *.
    destruct (fst (writeBatch env bucket metrics s1)) as [err |].
    + cbn [snd mret M_ret]. eapply Htrans; eassumption.
    + eapply Htrans; [exact H1 |]. eapply Htrans; [exact H2 | apply IH].
Qed.

(** ** The first loop of [Write] *)

Lemma alter_out_of_range {A : Type} (f : A -> A) (l : list A) (i : nat) :
  l !! i = None -> alter f i l = l.
Proof.
  intros H. apply list_eq. intros j. rewrite list_lookup_alter.
  destruct (decide (i = j)) as [-> | _]; [now rewrite H | reflexivity].
Qed.

(** The defensive copy: the metrics that were there stay as they are; at
    most one metric, without the routing tag, is added behind them. *)
Lemma withoutTag_frame (metric : Metric) (key : string) (s : State) :
  client (snd (withoutTag metric key s)) = client s
  /\ now (world (snd (withoutTag metric key s))) = now (world s)
  /\ (exists m, happened s (snd (withoutTag metric key s)) [EvAccept m])
  /\ exists copies,
       store (world (snd (withoutTag metric key s))) = (store (world s) ++ copies)%list
       /\ Forall (fun d => tags d !! key = None) copies.
Proof.
  unfold withoutTag, Copy, RemoveTag. munfold.
  destruct (store (world s) !! metric) as [d |] eqn:Hd; cbn [fst snd client world now trace store].
  - repeat split.
    + eexists. reflexivity.
    + exists [removeTag key d]. split.
      * replace (length (store (world s))) with (length (store (world s)) + 0)%nat by lia.
        now rewrite alter_app_r.
      * repeat constructor. cbn. apply lookup_delete_eq.
  - repeat split.
    + eexists. reflexivity.
    + exists []. rewrite app_nil_r. split; [now apply alter_out_of_range | constructor].
Qed.

(** One turn of the first loop. *)
Lemma groupMetrics_cons (metric : Metric) (rest : list Metric)
    (batches : gmap string (list Metric)) (s : State) :
  exists batches',
    groupMetrics (metric :: rest) batches s
    = groupMetrics rest batches'
        (if ExcludeBucketTag (client s)
         then snd (withoutTag metric (BucketTag (client s)) s) else s).
Proof.
  cbn [groupMetrics]. unfold mbind, M_bind, getClient, GetTag. cbn [fst snd].
  destruct (match store (world s) !! metric with
            | Some d => match tags d !! BucketTag (client s) with
                        | Some v => (v, true)
                        | None => ("", false)
                        end
            | None => ("", false)
            end) as [value ok].
  destruct (ExcludeBucketTag (client s)); eexists; reflexivity.
Qed.

(** The first loop leaves the client and the clock alone, accepts the
    copies it makes, and only adds metrics. *)
Lemma groupMetrics_frame (metrics : list Metric) (batches : gmap string (list Metric))
    (s : State) :
  client (snd (groupMetrics metrics batches s)) = client s
  /\ now (world (snd (groupMetrics metrics batches s))) = now (world s)
  /\ (exists delta,
        happened s (snd (groupMetrics metrics batches s)) delta
        /\ Forall (fun ev => exists m, ev = EvAccept m) delta)
  /\ exists copies,
       store (world (snd (groupMetrics metrics batches s)))
       = (store (world s) ++ copies)%list
       /\ Forall (fun d => ExcludeBucketTag (client s) = true
                           /\ tags d !! BucketTag (client s) = None) copies.
Proof.
  revert batches s. induction metrics as [| metric rest IH]; intros batches s.
  - cbn. repeat split.
    + exists []. split; [apply happened_refl | constructor].
    + exists []. split; [now rewrite app_nil_r | constructor].
  - destruct (groupMetrics_cons metric rest batches s) as [batches' ->].
    destruct (ExcludeBucketTag (client s)) eqn:Hex.
    + pose proof (withoutTag_frame metric (BucketTag (client s)) s)
        as (Hc & Hn & (m & Hacc) & copies & Hst & Hall).
      destruct (IH batches' (snd (withoutTag metric (BucketTag (client s)) s)))
        as (IHc & IHn & (delta & IHd & IHall) & copies' & IHst & IHall').
      rewrite IHc, IHn, IHst, Hc, Hn, Hst. rewrite Hc, Hex in IHall'. repeat split.
      * exists (EvAccept m :: delta). split.
        -- unfold happened in *. rewrite IHd, Hacc. now rewrite <- app_assoc.
        -- constructor; [now exists m | exact IHall].
      * exists (copies ++ copies')%list. split; [now rewrite app_assoc |].
        apply Forall_app. split; [| exact IHall'].
        eapply Forall_impl; [exact Hall |]. now intros d Hd.
    + destruct (IH batches' s) as (IHc & IHn & IHd & copies' & IHst & IHall').
      rewrite Hex in IHall'. repeat split; try assumption.
      exists copies'. split; [exact IHst |].
      eapply Forall_impl; [exact IHall' |]. now intros d [Hd _].
Qed.

(** ** [Write], branch by branch *)

Lemma Write_gate_closed (env : Env) (metrics : list Metric) (s : State) :
  now (world s) < retryTime (client s) ->
  Write env metrics s = (Some ErrRetryTime, s).
Proof.
  intros H. unfold Write. munfold.
  destruct (Z.ltb_spec (now (world s)) (retryTime (client s))); [reflexivity | lia].
Qed.

Lemma Write_default (env : Env) (metrics : list Metric) (s : State) :
  retryTime (client s) <= now (world s) ->
  BucketTag (client s) = "" ->
  Write env metrics s = writeBatch env (Bucket (client s)) metrics s.
Proof.
  intros H Htag. unfold Write, mbind, M_bind, getClient, timeNow. cbn [fst snd].
  destruct (Z.ltb_spec (now (world s)) (retryTime (client s))); [lia |].
  rewrite Htag. cbn [String.eqb].
  destruct (writeBatch env (Bucket (client s)) metrics s) as [[err |] s']; reflexivity.
Qed.

Lemma Write_routed (env : Env) (metrics : list Metric) (s : State) :
  retryTime (client s) <= now (world s) ->
  BucketTag (client s) <> "" ->
  Write env metrics s
  = writeBatches env (batchOrder env metrics s) (snd (groupMetrics metrics ∅ s)).
Proof.
  intros H Htag. unfold Write, mbind, M_bind, getClient, timeNow. cbn [fst snd].
  destruct (Z.ltb_spec (now (world s)) (retryTime (client s))); [lia |].
  destruct (String.eqb_spec (BucketTag (client s)) ""); [contradiction |].
  reflexivity.
Qed.

(** A relation that is reflexive, transitive and kept by the three
    building blocks of [Write] is kept by [Write]. *)
Lemma Write_rel (env : Env) (R : State -> State -> Prop) :
  (forall s, R s s) ->
  (forall s1 s2 s3, R s1 s2 -> R s2 s3 -> R s1 s3) ->
  (forall metrics batches s, R s (snd (groupMetrics metrics batches s))) ->
  (forall bucket s, R s (snd (ensureBucket env bucket s))) ->
  (forall bucket metrics s, R s (snd (writeBatch env bucket metrics s))) ->
  forall metrics s, R s (snd (Write env metrics s)).
Proof.
  intros Hrefl Htrans Hgroup Hensure Hwrite metrics s.
  destruct (Z.lt_ge_cases (now (world s)) (retryTime (client s))) as [Hgate | Hgate].
  - rewrite Write_gate_closed by exact Hgate. apply Hrefl.
  - destruct (String.eqb_spec (BucketTag (client s)) "") as [Htag | Htag].
    + rewrite Write_default by assumption. apply Hwrite.
    + rewrite Write_routed by assumption.
      eapply Htrans; [apply Hgroup |].
      now apply writeBatches_rel.
Qed.

(** ** The retry window *)

Lemma writeRequestOf_error (env : Env) (s : State) (bucket : string)
    (metrics : list Metric) (err : error) :
  writeRequestOf env s bucket metrics = inr err -> err <> ErrRetryTime.
Proof.
  unfold writeRequestOf, makeWriteURL, requestBodyReader, makeWriteRequest. munfold.
  destruct (String.eqb (Scheme (url (client s))) "unix").
  - destruct (String.eqb (ContentEncoding (client s)) "gzip").
    + destruct (gzipError env _); cbn [fst]; [now intros [= <-] |].
      destruct (newRequestError env _ _); [now intros [= <-] | discriminate].
    + cbn [fst]. destruct (newRequestError env _ _); [now intros [= <-] | discriminate].
  - destruct (String.eqb _ "http" || String.eqb _ "https"); [| now intros [= <-]].
    destruct (String.eqb (ContentEncoding (client s)) "gzip").
    + destruct (gzipError env _); cbn [fst]; [now intros [= <-] |].
      destruct (newRequestError env _ _); [now intros [= <-] | discriminate].
    + cbn [fst]. destruct (newRequestError env _ _); [now intros [= <-] | discriminate].
Qed.

(** The retry-window error does not come from [writeBatch]. *)
Lemma writeBatch_error (env : Env) (bucket : string) (metrics : list Metric) (s : State) :
  fst (writeBatch env bucket metrics s) <> Some ErrRetryTime.
Proof.
  destruct (writeRequestOf env s bucket metrics) as [req | err] eqn:Hreq.
  - destruct (answer env s req) as [msg | resp] eqn:Hans.
    + now rewrite (writeBatch_transport_error env s bucket metrics req msg Hreq Hans).
    + rewrite (writeBatch_sent env s bucket metrics req resp Hreq Hans).
      rewrite writeBatchResponse_result. now destruct (classify resp).
  - rewrite (writeBatch_not_sent env s bucket metrics err Hreq). cbn.
    intros [= ->]. now apply (writeRequestOf_error env s bucket metrics ErrRetryTime).
Qed.

Lemma writeBatches_error (env : Env) (batches : list (string * list Metric)) (s : State) :
  fst (writeBatches env batches s) <> Some ErrRetryTime.
Proof.
  revert s. induction batches as [| [bucket metrics] rest IH]; intros s.
  - discriminate.
  - cbn [writeBatches]. unfold mbind, M_bind.
    pose proof (writeBatch_error env bucket metrics (snd (ensureBucket env bucket s))) as H.
    destruct (fst (writeBatch env bucket metrics (snd (ensureBucket env bucket s))))
      as [err |]; [| apply IH].
    cbn. congruence.
Qed.

(** ** The retry time is read on entry only *)

Lemma withRetryTime_same (s : State) : withRetryTime (retryTime (client s)) s = s.
Proof. destruct s as [[] w]. reflexivity. Qed.

Lemma blind_ret {A : Type} (a : A) : blind (mret a).
Proof. intros s t. exists t. reflexivity. Qed.

Lemma blind_bind {A B : Type} (m : M A) (k : A -> M B) :
  blind m -> (forall a, blind (k a)) -> blind (m ≫= k).
Proof.
  intros Hm Hk s t. unfold mbind, M_bind.
  destruct (Hm s t) as [t1 ->]. cbn [fst snd].
  destruct (Hk (fst (m s)) (snd (m s)) t1) as [t2 ->].
  exists t2. reflexivity.
Qed.

(** A method may look at the client as long as what it does with it does
    not depend on the retry time. *)
Lemma blind_getClient {A : Type} (k : httpClient -> M A) :
  (forall c t, k (set_retryTime t c) = k c) ->
  (forall c, blind (k c)) -> blind (getClient ≫= k).
Proof.
  intros Hsame Hk s t. unfold mbind, M_bind, getClient. cbn [fst snd].
  change (client (withRetryTime t s)) with (set_retryTime t (client s)).
  rewrite Hsame. apply Hk.
Qed.

Lemma blind_modifyWorld (f : World -> World) : blind (modifyWorld f).
Proof. intros s t. exists t. reflexivity. Qed.

Lemma blind_getWorld : blind getWorld.
Proof. intros s t. exists t. reflexivity. Qed.

Lemma blind_timeNow : blind timeNow.
Proof. intros s t. exists t. reflexivity. Qed.

Lemma blind_modifyClient (f : httpClient -> httpClient) :
  (forall c t, exists t', f (set_retryTime t c) = set_retryTime t' (f c)) ->
  blind (modifyClient f).
Proof.
  intros Hf s t. destruct (Hf (client s) t) as [t' Ht'].
  exists t'. unfold modifyClient, withRetryTime. cbn [fst snd client world].
  now rewrite Ht'.
Qed.

Lemma blind_Do (env : Env) (req : GoHTTP.Request) : blind (Do env req).
Proof. intros s t. exists t. reflexivity. Qed.

Lemma blind_GetTag (m : Metric) (key : string) : blind (GetTag m key).
Proof. intros s t. exists t. reflexivity. Qed.

Lemma blind_Copy (m : Metric) : blind (Copy m).
Proof.
  intros s t. exists t. unfold Copy, withRetryTime. cbn [world client].
  now destruct (store (world s) !! m).
Qed.

Create HintDb blind.

#[local] Hint Resolve blind_modifyWorld blind_getWorld blind_timeNow blind_Do
  blind_GetTag blind_Copy : blind.

(** One step through the text of a method. *)
Ltac blind_step :=
  match goal with
  | |- blind (mret _) => apply blind_ret
  | |- blind (mbind _ getClient) => apply blind_getClient; [intros; reflexivity | intros]
  | |- blind (mbind _ _) => apply blind_bind; [| intros]
  | |- blind (match ?x with _ => _ end) => destruct x
  | |- blind (modifyClient _) =>
      apply blind_modifyClient; intros; eexists; reflexivity
  | |- blind _ => solve [auto with blind]
  end.

Ltac blind_steps := repeat blind_step.

Lemma blind_emit (e : Event) : blind (emit e).
Proof. unfold emit. blind_steps. Qed.

#[local] Hint Resolve blind_emit : blind.

Lemma blind_requestBodyReader (env : Env) (metrics : list Metric) :
  blind (requestBodyReader env metrics).
Proof. unfold requestBodyReader. blind_steps. Qed.

Lemma blind_writeBatchResponse (env : Env) (bucket : string) (resp : GoHTTP.Response) :
  blind (writeBatchResponse env bucket resp).
Proof. unfold writeBatchResponse, logPrintf. blind_steps. Qed.

#[local] Hint Resolve blind_requestBodyReader blind_writeBatchResponse : blind.

Lemma blind_writeBatch (env : Env) (bucket : string) (metrics : list Metric) :
  blind (writeBatch env bucket metrics).
Proof. unfold writeBatch, OnClientError. blind_steps. Qed.

Lemma blind_getOrgID (env : Env) : blind (getOrgID env).
Proof. unfold getOrgID, OnClientError. blind_steps. Qed.

#[local] Hint Resolve blind_writeBatch blind_getOrgID : blind.

Lemma blind_CreateBucket (env : Env) (bucket : string) : blind (CreateBucket env bucket).
Proof. unfold CreateBucket, OnClientError. blind_steps. Qed.

#[local] Hint Resolve blind_CreateBucket : blind.

Lemma blind_ensureBucket (env : Env) (bucket : string) : blind (ensureBucket env bucket).
Proof. unfold ensureBucket, logPrintf. blind_steps. Qed.

Lemma blind_withoutTag (metric : Metric) (key : string) : blind (withoutTag metric key).
Proof. unfold withoutTag, Accept, RemoveTag. blind_steps. Qed.

#[local] Hint Resolve blind_ensureBucket blind_withoutTag : blind.

Lemma blind_groupMetrics (metrics : list Metric) (batches : gmap string (list Metric)) :
  blind (groupMetrics metrics batches).
Proof.
  revert batches. induction metrics as [| metric rest IH]; intros batches.
  - apply blind_ret.
  - cbn [groupMetrics]. blind_steps.
Qed.

Lemma blind_writeBatches (env : Env) (batches : list (string * list Metric)) :
  blind (writeBatches env batches).
Proof.
  induction batches as [| [bucket batch] rest IH].
  - apply blind_ret.
  - cbn [writeBatches]. blind_steps.
Qed.

(** When the window is over on entry, [Write] runs as it would with any
    other retry time that is over. *)
Lemma Write_blind (env : Env) (metrics : list Metric) (s : State) (t : Z) :
  retryTime (client s) <= now (world s) ->
  t <= now (world s) ->
  exists t', Write env metrics (withRetryTime t s)
             = (fst (Write env metrics s), withRetryTime t' (snd (Write env metrics s))).
Proof.
  intros Hgate Ht.
  destruct (String.eqb_spec (BucketTag (client s)) "") as [Htag | Htag].
  - rewrite (Write_default env metrics s Hgate Htag).
    rewrite (Write_default env metrics (withRetryTime t s) Ht Htag).
    apply blind_writeBatch.
  - rewrite (Write_routed env metrics s Hgate Htag).
    rewrite (Write_routed env metrics (withRetryTime t s) Ht Htag).
    unfold batchOrder.
    destruct (blind_groupMetrics metrics ∅ s t) as [t1 ->]. cbn [fst snd].
    apply blind_writeBatches.
Qed.

(** C5: while the retry time lies ahead, [Write] fails with the
    retry-window error and nothing else happens: no request, no log line,
    no change of the client.  The window is looked at on entry only: when
    it is over on entry, the retry-window error is not what [Write]
    returns, whatever the clock does between the bucket groups, and the
    call runs as it would with any other retry time that is over: it
    returns the same and ends in the same state, up to the retry time it
    leaves. *)
Theorem Write_retry_window (env : Env) (metrics : list Metric) (s : State) :
  (now (world s) < retryTime (client s) ->
   Write env metrics s = (Some ErrRetryTime, s))
  /\ (retryTime (client s) <= now (world s) ->
      fst (Write env metrics s) <> Some ErrRetryTime
      /\ forall t : Z,
           t <= now (world s) ->
           exists t',
             Write env metrics (withRetryTime t s)
             = (fst (Write env metrics s), withRetryTime t' (snd (Write env metrics s)))).
Proof.
  split.
  - apply Write_gate_closed.
  - intros Hgate. split.
    + destruct (String.eqb_spec (BucketTag (client s)) "") as [Htag | Htag].
      * rewrite Write_default by assumption. apply writeBatch_error.
      * rewrite Write_routed by assumption. apply writeBatches_error.
    + intros t Ht. now apply Write_blind.
Qed.

Lemma Write_retry_window_witness :
  Write Scenario.healthy [0%nat; 1%nat; 2%nat] Scenario.waiting
  = (Some ErrRetryTime, Scenario.waiting)
  /\ fst (Write Scenario.overloaded [0%nat; 1%nat; 2%nat] Scenario.routed)
     <> Some ErrRetryTime
  /\ exists t',
       Write Scenario.overloaded [0%nat; 1%nat; 2%nat]
         (withRetryTime (-1000) Scenario.routed)
       = (fst (Write Scenario.overloaded [0%nat; 1%nat; 2%nat] Scenario.routed),
          withRetryTime t'
            (snd (Write Scenario.overloaded [0%nat; 1%nat; 2%nat] Scenario.routed))).
Proof.
  split.
  - apply (proj1 (Write_retry_window Scenario.healthy [0%nat; 1%nat; 2%nat] Scenario.waiting)).
    vm_compute. reflexivity.
  - assert (Hgate : retryTime (client Scenario.routed) <= now (world Scenario.routed))
      by (vm_compute; discriminate).
    destruct (proj2 (Write_retry_window Scenario.overloaded [0%nat; 1%nat; 2%nat]
                       Scenario.routed) Hgate) as [Hne Hblind].
    split; [exact Hne |].
    apply (Hblind (-1000)). vm_compute. discriminate.
Defined.

(** ** The default bucket without routing *)

(** Without a routing tag [Write] is [writeBatch] to the default bucket:
    the bucket manager is not asked, whatever [SkipBucketCreation]
    says. *)
Lemma Write_default_frame (env : Env) (metrics : list Metric) (s : State) :
  BucketTag (client s) = "" ->
  createBucketExecuted (client (snd (Write env metrics s)))
  = createBucketExecuted (client s)
  /\ exists delta,
       happened s (snd (Write env metrics s)) delta
       /\ Forall (fun ev => isBucketManager ev = false) delta.
Proof.
  intros Htag.
  destruct (Z.lt_ge_cases (now (world s)) (retryTime (client s))) as [Hgate | Hgate].
  - rewrite Write_gate_closed by exact Hgate. split; [reflexivity |].
    exists []. split; [apply happened_refl | constructor].
  - rewrite Write_default by assumption.
    destruct (writeBatch_frame env (Bucket (client s)) metrics s)
      as (delta & Hd & Hall & _ & _ & Hcr).
    split; [exact Hcr |]. exists delta. split; [exact Hd |].
    eapply Forall_impl; [exact Hall |].
    intros [req res | l | msg | m]; cbn; try reflexivity.
    now destruct (GoHTTP.ReqBody req).
Qed.

(** C4 fails on the code: a fresh client without routing tag and with
    bucket creation switched on writes to the default bucket without
    asking for its creation: the write is the only round trip. *)
Theorem Write_default_bucket_not_created :
  BucketTag (client Scenario.unrouted) = ""
  /\ SkipBucketCreation (client Scenario.unrouted) = false
  /\ executed (createBucketExecuted (client Scenario.unrouted)) "default" = false
  /\ fst (Write Scenario.healthy [0%nat; 1%nat; 2%nat] Scenario.unrouted) = None
  /\ trace (world (snd (Write Scenario.healthy [0%nat; 1%nat; 2%nat] Scenario.unrouted)))
     = [EvRoundTrip (Scenario.writeRequest "default" Scenario.metrics)
          (inr (Scenario.noContent ""))]
  /\ filter (fun ev => isBucketManager ev = true)
       (trace (world (snd (Write Scenario.healthy [0%nat; 1%nat; 2%nat] Scenario.unrouted))))
     = [].
Proof. vm_compute. repeat split. Qed.

(** ** The metrics of the caller *)

(** C9: with a routing tag and the tag excluded from what is sent, the
    metrics the caller handed in are after [Write] what they were before:
    the store of metrics has only grown, by copies that do not have the
    routing tag. *)
Theorem Write_leaves_metrics (env : Env) (metrics : list Metric) (s : State) :
  BucketTag (client s) <> "" ->
  ExcludeBucketTag (client s) = true ->
  (forall (m : Metric) (d : MetricData),
     store (world s) !! m = Some d ->
     store (world (snd (Write env metrics s))) !! m = Some d)
  /\ exists copies,
       store (world (snd (Write env metrics s))) = (store (world s) ++ copies)%list
       /\ Forall (fun d => tags d !! BucketTag (client s) = None) copies.
Proof.
  intros Htag Hex.
  assert (Hgrow : exists copies,
    store (world (snd (Write env metrics s))) = (store (world s) ++ copies)%list
    /\ Forall (fun d => tags d !! BucketTag (client s) = None) copies).
  { destruct (Z.lt_ge_cases (now (world s)) (retryTime (client s))) as [Hgate | Hgate].
    - rewrite Write_gate_closed by exact Hgate.
      exists []. split; [now rewrite app_nil_r | constructor].
    - rewrite Write_routed by assumption.
      destruct (groupMetrics_frame metrics ∅ s) as (_ & _ & _ & copies & Hst & Hall).
      exists copies. split.
      + rewrite <- Hst.
        apply (writeBatches_rel env (fun s1 s2 => store (world s2) = store (world s1))).
        * reflexivity.
        * intros s1 s2 s3 H12 H23. now rewrite H23.
        * intros bucket s1.
          now destruct (ensureBucket_frame env bucket s1) as (_ & _ & _ & _ & H & _).
        * intros bucket batch s1.
          now destruct (writeBatch_frame env bucket batch s1) as (_ & _ & _ & H & _).
      + eapply Forall_impl; [exact Hall |]. now intros d [_ Hd]. }
  split; [| exact Hgrow].
  destruct Hgrow as (copies & -> & _). intros m d Hm.
  now apply lookup_app_l_Some.
Qed.

Lemma Write_leaves_metrics_witness :
  store (world (snd (Write Scenario.healthy [0%nat; 1%nat; 2%nat] Scenario.routed))) !! 0%nat
  = Some (Scenario.cpu [("route", "a"); ("host", "h1")])
  /\ exists copies,
       store (world (snd (Write Scenario.healthy [0%nat; 1%nat; 2%nat] Scenario.routed)))
       = (store (world Scenario.routed) ++ copies)%list
       /\ Forall (fun d => tags d !! BucketTag (client Scenario.routed) = None) copies.
Proof.
  assert (Htag : BucketTag (client Scenario.routed) <> "") by (vm_compute; discriminate).
  assert (Hex : ExcludeBucketTag (client Scenario.routed) = true) by (vm_compute; reflexivity).
  destruct (Write_leaves_metrics Scenario.healthy [0%nat; 1%nat; 2%nat] Scenario.routed
              Htag Hex) as [Hsame Hgrow].
  split; [| exact Hgrow].
  apply Hsame. vm_compute. reflexivity.
Defined.

(** ** The record of created buckets *)

Lemma happened_unique (s s' : State) (d1 d2 : list Event) :
  happened s s' d1 -> happened s s' d2 -> d1 = d2.
Proof. unfold happened. intros H1 H2. rewrite H1 in H2. now apply app_inv_head in H2. Qed.

Lemma not_Exists_isCreated (bucket : string) (delta : list Event) :
  Forall (fun ev => isCreated bucket ev = false) delta ->
  Exists (fun ev => isCreated bucket ev = true) delta -> False.
Proof.
  intros Hall Hex. apply Exists_exists in Hex as (ev & Hin & Hev).
  rewrite Forall_forall in Hall. specialize (Hall ev Hin). congruence.
Qed.

Lemma Forall_not_created (bucket : string) (delta : list Event) :
  Forall (fun ev => isCreationOf bucket ev = false) delta ->
  Forall (fun ev => isCreated bucket ev = false) delta.
Proof. intros H. eapply Forall_impl; [exact H |]. apply isCreationOf_false_isCreated. Qed.

Lemma grows_refl (bucket : string) (s : State) : grows bucket s s.
Proof.
  exists []. split; [apply happened_refl |]. repeat split.
  - assumption.
  - constructor.
  - now left.
  - intros H. now apply Exists_nil in H.
Qed.

Lemma grows_trans (bucket : string) (s1 s2 s3 : State) :
  grows bucket s1 s2 -> grows bucket s2 s3 -> grows bucket s1 s3.
Proof.
  intros (d1 & Hd1 & Hkeep1 & Hnew1 & Hmark1) (d2 & Hd2 & Hkeep2 & Hnew2 & Hmark2).
  exists (d1 ++ d2)%list. split; [eapply happened_trans; eassumption |]. repeat split.
  - now apply Hkeep2, Hkeep1.
  - apply Forall_app. split; [now apply Hkeep1 | now apply Hkeep2, Hkeep1].
  - intros H3. destruct (Hnew2 H3) as [H2 | Hex].
    + destruct (Hnew1 H2) as [H1 | Hex]; [now left | right].
      apply Exists_app. now left.
    + right. apply Exists_app. now right.
  - intros Hex. apply Exists_app in Hex as [Hex | Hex].
    + now apply Hkeep2, Hmark1.
    + now apply Hmark2.
Qed.

(** Events without a creation request for [bucket] and the same record
    of created buckets: the record has not moved. *)
Lemma grows_quiet (bucket : string) (s s' : State) (delta : list Event) :
  happened s s' delta ->
  Forall (fun ev => isCreationOf bucket ev = false) delta ->
  executed (createBucketExecuted (client s')) bucket
  = executed (createBucketExecuted (client s)) bucket ->
  grows bucket s s'.
Proof.
  intros Hd Hall Hsame. exists delta. split; [exact Hd |]. rewrite Hsame. repeat split.
  - assumption.
  - exact Hall.
  - now left.
  - intros Hex. exfalso.
    eapply not_Exists_isCreated; [| exact Hex]. now apply Forall_not_created.
Qed.

Lemma grows_groupMetrics (bucket : string) (metrics : list Metric)
    (batches : gmap string (list Metric)) (s : State) :
  grows bucket s (snd (groupMetrics metrics batches s)).
Proof.
  destruct (groupMetrics_frame metrics batches s) as (Hc & _ & (delta & Hd & Hall) & _).
  apply (grows_quiet bucket _ _ delta Hd); [| now rewrite Hc].
  eapply Forall_impl; [exact Hall |]. now intros ev [m ->].
Qed.

Lemma grows_writeBatch (env : Env) (bucket b : string) (metrics : list Metric) (s : State) :
  grows bucket s (snd (writeBatch env b metrics s)).
Proof.
  destruct (writeBatch_frame env b metrics s) as (delta & Hd & Hall & _ & _ & Hcr).
  apply (grows_quiet bucket _ _ delta Hd); [| now rewrite Hcr].
  eapply Forall_impl; [exact Hall |].
  intros [req res | l | msg | m]; cbn; try reflexivity.
  now destruct (GoHTTP.ReqBody req).
Qed.

Lemma isEnsureTraffic_other (bucket b : string) (ev : Event) :
  isEnsureTraffic b ev = true -> b <> bucket -> isCreationOf bucket ev = false.
Proof.
  intros H Hne. destruct ev as [req res | l | msg | m]; cbn in *; try reflexivity.
  destruct (GoHTTP.ReqBody req) as [| gzip lines | r]; try reflexivity.
  apply String.eqb_eq in H. apply String.eqb_neq. congruence.
Qed.

Lemma grows_ensureBucket (env : Env) (bucket b : string) (s : State) :
  grows bucket s (snd (ensureBucket env b s)).
Proof.
  destruct (executed (createBucketExecuted (client s)) b) eqn:Hb.
  { rewrite ensureBucket_skip by now right. apply grows_refl. }
  destruct (ensureBucket_frame env b s) as (delta & Hd & Hall & _ & _ & Hcl).
  destruct (decide (b = bucket)) as [-> | Hne].
  - exists delta. split; [exact Hd |]. repeat split.
    + congruence.
    + congruence.
    + intros Hex. destruct Hcl as [[Hcl _] | [_ Hcr]]; [| now right].
      left. now rewrite <- Hcl.
    + intros Hex. destruct Hcl as [[_ Hnot] | [Hcl _]].
      * exfalso. eapply not_Exists_isCreated; eassumption.
      * rewrite Hcl. cbn. apply executed_insert. now left.
  - apply (grows_quiet bucket _ _ delta Hd).
    + eapply Forall_impl; [exact Hall |]. intros ev Hev.
      now apply (isEnsureTraffic_other bucket b).
    + destruct Hcl as [[-> _] | [-> _]]; [reflexivity |].
      cbn. unfold executed. now rewrite lookup_insert_ne.
Qed.

Lemma grows_Write (env : Env) (bucket : string) (metrics : list Metric) (s : State) :
  grows bucket s (snd (Write env metrics s)).
Proof.
  apply (Write_rel env (grows bucket)).
  - apply grows_refl.
  - apply grows_trans.
  - apply grows_groupMetrics.
  - intros b s'. apply grows_ensureBucket.
  - intros b batch s'. apply grows_writeBatch.
Qed.

Lemma grows_call (env : Env) (bucket : string) (c : Call) (s : State) :
  grows bucket s (call env s c).
Proof.
  unfold call. eapply grows_trans; [| apply grows_Write].
  apply (grows_quiet bucket _ _ []); [| constructor | reflexivity].
  unfold happened. cbn. now rewrite app_nil_r.
Qed.

Lemma grows_session (env : Env) (bucket : string) (calls : list Call) (s : State) :
  grows bucket s (session env calls s).
Proof.
  revert s. induction calls as [| c calls IH]; intros s.
  - apply grows_refl.
  - cbn. eapply grows_trans; [apply grows_call | apply IH].
Qed.

Lemma Exists_existsb {A : Type} (f : A -> bool) (l : list A) :
  existsb f l = true -> Exists (fun x => f x = true) l.
Proof.
  intros H. apply existsb_exists in H as (x & Hin & Hx).
  apply Exists_exists. exists x. split; [now apply list_elem_of_In | exact Hx].
Qed.

Lemma Forall_forallb {A : Type} (f : A -> bool) (l : list A) :
  forallb (fun x => negb (f x)) l = true -> Forall (fun x => f x = false) l.
Proof.
  intros H. apply Forall_forall. intros x Hin.
  rewrite forallb_forall in H. apply negb_true_iff, H. now apply list_elem_of_In.
Qed.

Lemma countCreations_Exists (bucket : string) (delta : list Event) :
  Exists (fun ev => isCreated bucket ev = true) delta ->
  (1 <= countCreations bucket delta)%nat.
Proof.
  induction 1 as [ev rest Hev | ev rest _ IH]; cbn.
  - apply isCreated_isCreationOf in Hev. rewrite Hev. lia.
  - lia.
Qed.

(** *** The requests of the bucket manager *)

Lemma getOrgID_not_sent (env : Env) (s : State) (err : error) :
  lookupRequestOf env (client s) = inr err ->
  getOrgID env s = (("", Some err), s).
Proof.
  unfold lookupRequestOf, getOrgID. munfold.
  destruct (makeOrgIDURL _ _) as [loc | e]; [| now intros [= ->]].
  now intros ->.
Qed.

Lemma getOrgID_transport_error (env : Env) (s : State) (req : GoHTTP.Request) (msg : string) :
  lookupRequestOf env (client s) = inl req ->
  answer env s req = inl msg ->
  getOrgID env s
  = (("", Some (ErrTransport msg)), snd (OnClientError msg (afterRoundTrip env s req))).
Proof.
  unfold lookupRequestOf, getOrgID, afterRoundTrip. intros Hreq Hans.
  unfold mbind, M_bind, getClient. cbn [fst snd].
  destruct (makeOrgIDURL _ _) as [loc | e]; [| discriminate].
  rewrite Hreq, Do_state. cbn [fst snd]. rewrite Hans. reflexivity.
Qed.

Lemma getOrgID_sent (env : Env) (s : State) (req : GoHTTP.Request) (resp : GoHTTP.Response) :
  lookupRequestOf env (client s) = inl req ->
  answer env s req = inr resp ->
  getOrgID env s = (lookupResult (client s) resp, afterRoundTrip env s req).
Proof.
  unfold lookupRequestOf, getOrgID, afterRoundTrip, lookupResult, lookupErrorText.
  intros Hreq Hans.
  unfold mbind, M_bind, getClient. cbn [fst snd].
  destruct (makeOrgIDURL _ _) as [loc | e]; [| discriminate].
  rewrite Hreq, Do_state. cbn [fst snd]. rewrite Hans.
  destruct (validateResponse (GoHTTP.Body resp)) as [body [err |]]; [reflexivity |].
  destruct (from_option GoHTTP.decodeOrgs None body) as [[| org [| org' orgs]] |];
    try reflexivity.
  now destruct (GoHTTP.StatusCode resp =? 200).
Qed.

Lemma creationRequestOf_request (env : Env) (c : httpClient) (bucket orgId : string)
    (req : GoHTTP.Request) :
  creationRequestOf env c bucket orgId = inl req ->
  GoHTTP.Method req = "POST"
  /\ makeCreateURL (url c) = inl (GoHTTP.URL req)
  /\ GoHTTP.ReqBody req = GoHTTP.CreateBucketJSON (mkCreateBucketRequest bucket orgId).
Proof.
  unfold creationRequestOf, makeAPIRequest.
  destruct (makeCreateURL (url c)) as [loc | err]; [| discriminate].
  destruct (newRequestError env _ _); [discriminate |]. intros [= <-]. repeat split.
Qed.

Lemma lookupRequestOf_request (env : Env) (c : httpClient) (req : GoHTTP.Request) :
  lookupRequestOf env c = inl req ->
  GoHTTP.Method req = "GET"
  /\ makeOrgIDURL (url c) (Organization c) = inl (GoHTTP.URL req)
  /\ GoHTTP.ReqBody req = GoHTTP.NoBody.
Proof.
  unfold lookupRequestOf, makeAPIRequest.
  destruct (makeOrgIDURL (url c) _) as [loc | err]; [| discriminate].
  destruct (newRequestError env _ _); [discriminate |]. intros [= <-]. repeat split.
Qed.

Lemma getOrgID_client (env : Env) (s : State) : client (snd (getOrgID env s)) = client s.
Proof. now destruct (getOrgID_frame env s) as [H _]. Qed.

(** [CreateBucket] after the lookup. *)
Lemma CreateBucket_lookup_failed (env : Env) (bucket : string) (s : State) (err : error) :
  snd (fst (getOrgID env s)) = Some err ->
  CreateBucket env bucket s = (Some err, snd (getOrgID env s)).
Proof.
  unfold CreateBucket. unfold mbind at 1, M_bind at 1.
  destruct (getOrgID env s) as [[id oerr] s0]. cbn [fst snd]. now intros ->.
Qed.

Lemma CreateBucket_not_sent (env : Env) (bucket : string) (s : State) (id : string)
    (err : error) :
  fst (getOrgID env s) = (id, None) ->
  creationRequestOf env (client s) bucket id = inr err ->
  CreateBucket env bucket s = (Some err, snd (getOrgID env s)).
Proof.
  unfold CreateBucket, creationRequestOf. intros Hid Hreq.
  pose proof (getOrgID_client env s) as Hc.
  unfold mbind at 1, M_bind at 1.
  destruct (getOrgID env s) as [[id' oerr] s0]. cbn [fst snd] in *.
  injection Hid as -> ->. unfold mbind, M_bind, getClient. cbn [fst snd]. rewrite Hc.
  destruct (makeCreateURL _) as [loc | e]; [| now injection Hreq as ->].
  now rewrite Hreq.
Qed.

Lemma CreateBucket_sent (env : Env) (bucket : string) (s : State) (id : string)
    (req : GoHTTP.Request) :
  fst (getOrgID env s) = (id, None) ->
  creationRequestOf env (client s) bucket id = inl req ->
  CreateBucket env bucket s
  = match answer env (snd (getOrgID env s)) req with
    | inl msg =>
        (Some (ErrTransport msg),
         snd (OnClientError msg (afterRoundTrip env (snd (getOrgID env s)) req)))
    | inr resp =>
        if GoHTTP.StatusCode resp =? 201 then
          (None,
           mkState
             (set_createBucketExecuted (<[bucket := true]> (createBucketExecuted (client s)))
                (client s))
             (world (afterRoundTrip env (snd (getOrgID env s)) req)))
        else
          (Some (ErrAPI (mkAPIError (GoHTTP.StatusCode resp) (GoHTTP.Status resp)
                           (description resp))),
           afterRoundTrip env (snd (getOrgID env s)) req)
    end.
Proof.
  unfold CreateBucket, creationRequestOf, afterRoundTrip. intros Hid Hreq.
  pose proof (getOrgID_client env s) as Hc.
  unfold mbind at 1, M_bind at 1.
  destruct (getOrgID env s) as [[id' oerr] s0]. cbn [fst snd] in *.
  injection Hid as -> ->. unfold mbind, M_bind, getClient. cbn [fst snd]. rewrite Hc.
  destruct (makeCreateURL _) as [loc | e]; [| discriminate].
  rewrite Hreq, Do_state. cbn [fst snd].
  destruct (answer env s0 req) as [msg | resp]; [reflexivity |].
  destruct (GoHTTP.StatusCode resp =? 201); [| reflexivity].
  munfold. now rewrite Hc.
Qed.

(** The trace only grows in the second loop of [Write]. *)
Lemma writeBatches_trace (env : Env) (batches : list (string * list Metric)) (s : State) :
  exists delta, happened s (snd (writeBatches env batches s)) delta.
Proof.
  apply (writeBatches_rel env (fun a b => exists delta, happened a b delta)).
  - intros a. exists []. apply happened_refl.
  - intros a b c [d1 H1] [d2 H2]. exists (d1 ++ d2)%list. eapply happened_trans; eassumption.
  - intros b a. destruct (ensureBucket_frame env b a) as (d & Hd & _). now exists d.
  - intros b m a. destruct (writeBatch_frame env b m a) as (d & Hd & _). now exists d.
Qed.

(** The loop goes on behind the batches that were written without an
    error. *)
Lemma writeBatches_app (env : Env) (pre rest : list (string * list Metric)) (s s1 : State) :
  writeBatches env pre s = (None, s1) ->
  writeBatches env (pre ++ rest) s = writeBatches env rest s1.
Proof.
  revert s. induction pre as [| [b m] pre IH]; intros s Hpre.
  - now injection Hpre as <-.
  - cbn [app writeBatches] in *. unfold mbind, M_bind in *.
    destruct (fst (writeBatch env b m (snd (ensureBucket env b s)))) as [e |];
      [discriminate |].
    now apply IH.
Qed.

(** The bucket manager at work: for a bucket that is not recorded, with
    a lookup that gives an ID, the lookup and the creation request go out,
    in this order and nothing else; the bucket is recorded exactly when
    the creation is answered with 201. *)
Lemma ensureBucket_sent (env : Env) (bucket : string) (s : State)
    (lookup creation : GoHTTP.Request) (found : GoHTTP.Response) (id : string) :
  SkipBucketCreation (client s) = false ->
  executed (createBucketExecuted (client s)) bucket = false ->
  lookupRequestOf env (client s) = inl lookup ->
  answer env s lookup = inr found ->
  lookupResult (client s) found = (id, None) ->
  creationRequestOf env (client s) bucket id = inl creation ->
  (exists tail,
     happened s (snd (ensureBucket env bucket s))
       (EvRoundTrip lookup (inr found)
        :: EvRoundTrip creation (answer env (afterRoundTrip env s lookup) creation) :: tail)
     /\ Forall (fun ev => isRequest ev = false) tail)
  /\ isCreationOf bucket
       (EvRoundTrip creation (answer env (afterRoundTrip env s lookup) creation)) = true
  /\ executed (createBucketExecuted (client (snd (ensureBucket env bucket s)))) bucket
     = isCreated bucket
         (EvRoundTrip creation (answer env (afterRoundTrip env s lookup) creation)).
Proof.
  intros Hskip Hnot Hlookup Hfound Hid Hcreation.
  pose proof (getOrgID_sent env s lookup found Hlookup Hfound) as Hget.
  rewrite Hid in Hget.
  assert (Hfst : fst (getOrgID env s) = (id, None)) by now rewrite Hget.
  assert (Hsnd : snd (getOrgID env s) = afterRoundTrip env s lookup) by now rewrite Hget.
  pose proof (CreateBucket_sent env bucket s id creation Hfst Hcreation) as Hcreate.
  rewrite Hsnd in Hcreate.
  destruct (creationRequestOf_request env (client s) bucket id creation Hcreation)
    as (_ & _ & Hbody).
  assert (Hev : forall res, isCreationOf bucket (EvRoundTrip creation res) = true).
  { intros res. cbn. rewrite Hbody. cbn. apply String.eqb_refl. }
  assert (Hone : trace (world (afterRoundTrip env s lookup))
                 = (trace (world s) ++ [EvRoundTrip lookup (inr found)])%list).
  { unfold afterRoundTrip. rewrite Do_state, Hfound. reflexivity. }
  assert (Hclient : client (afterRoundTrip env s lookup) = client s).
  { unfold afterRoundTrip. now rewrite Do_state. }
  rewrite (ensureBucket_creates env bucket s Hskip Hnot), Hcreate.
  set (s1 := afterRoundTrip env s lookup) in *.
  split; [| split; [apply Hev |]].
  - unfold happened, afterRoundTrip. rewrite Do_state.
    destruct (answer env s1 creation) as [msg | resp].
    + eexists [_; _]. munfold. rewrite Hone, <- !app_assoc. split; [reflexivity |].
      repeat constructor.
    + destruct (GoHTTP.StatusCode resp =? 201); cbn [fst snd].
      * exists []. cbn [world trace]. rewrite Hone, <- !app_assoc.
        split; [reflexivity | constructor].
      * eexists [_]. munfold. rewrite Hone, <- !app_assoc. split; [reflexivity |].
        repeat constructor.
  - unfold isCreated. rewrite Hev. unfold afterRoundTrip. rewrite Do_state.
    destruct (answer env s1 creation) as [msg | resp].
    + munfold. now rewrite Hclient.
    + destruct (GoHTTP.StatusCode resp =? 201); cbn [fst snd andb].
      * cbn [client set_createBucketExecuted createBucketExecuted].
        apply executed_insert. now left.
      * munfold. now rewrite Hclient.
Qed.

(** C6: once [bucket] is recorded as created, no later [Write] asks for
    its creation again and it stays recorded; a creation answered with
    201 in a [Write] records it; of two attempts in a row, the first
    answered with 201, only the first sends a creation request; a
    creation that is not answered with 201 records nothing, and the next
    attempt goes through [CreateBucket] again.  What the bucket manager
    sends: for a bucket that is not recorded, with creation switched on
    and a lookup that gives the ID of the organization, the lookup and
    then the creation request go out and no other request, and the bucket
    is recorded exactly when the creation is answered with 201.  The
    retry: whatever calls of [Write] came before, as long as no creation
    of [bucket] has been answered with 201, the next [Write] that gets to
    the batch of [bucket] sends the lookup and the creation request. *)
Theorem bucket_creation_idempotent (env : Env) (bucket : string) :
  (forall (calls : list Call) (s : State) (delta : list Event),
     executed (createBucketExecuted (client s)) bucket = true ->
     happened s (session env calls s) delta ->
     countCreations bucket delta = 0%nat
     /\ executed (createBucketExecuted (client (session env calls s))) bucket = true)
  /\ (forall (metrics : list Metric) (s : State) (delta : list Event),
        happened s (snd (Write env metrics s)) delta ->
        Exists (fun ev => isCreated bucket ev = true) delta ->
        executed (createBucketExecuted (client (snd (Write env metrics s)))) bucket = true)
  /\ (forall (s : State) (first both : list Event),
        happened s (snd (ensureBucket env bucket s)) first ->
        happened s (snd (ensureBucket env bucket (snd (ensureBucket env bucket s)))) both ->
        Exists (fun ev => isCreated bucket ev = true) first ->
        countCreations bucket both = 1%nat)
  /\ (forall (s : State) (delta : list Event),
        happened s (snd (CreateBucket env bucket s)) delta ->
        Forall (fun ev => isCreated bucket ev = false) delta ->
        createBucketExecuted (client (snd (CreateBucket env bucket s)))
        = createBucketExecuted (client s))
  /\ (forall s : State,
        SkipBucketCreation (client s) = false ->
        executed (createBucketExecuted (client s)) bucket = false ->
        client (snd (ensureBucket env bucket s)) = client (snd (CreateBucket env bucket s))
        /\ exists log,
             happened (snd (CreateBucket env bucket s)) (snd (ensureBucket env bucket s)) log
             /\ Forall (fun ev => exists l, ev = EvLog l) log)
  /\ (forall (s : State) (lookup creation : GoHTTP.Request) (found : GoHTTP.Response)
             (id : string),
        SkipBucketCreation (client s) = false ->
        executed (createBucketExecuted (client s)) bucket = false ->
        lookupRequestOf env (client s) = inl lookup ->
        answer env s lookup = inr found ->
        lookupResult (client s) found = (id, None) ->
        creationRequestOf env (client s) bucket id = inl creation ->
        (exists tail,
           happened s (snd (ensureBucket env bucket s))
             (EvRoundTrip lookup (inr found)
              :: EvRoundTrip creation (answer env (afterRoundTrip env s lookup) creation)
              :: tail)
           /\ Forall (fun ev => isRequest ev = false) tail)
        /\ isCreationOf bucket
             (EvRoundTrip creation (answer env (afterRoundTrip env s lookup) creation)) = true
        /\ executed (createBucketExecuted (client (snd (ensureBucket env bucket s)))) bucket
           = isCreated bucket
               (EvRoundTrip creation (answer env (afterRoundTrip env s lookup) creation)))
  /\ (forall (calls : list Call) (next : Call) (s0 s1 : State)
             (pre post : list (string * list Metric)) (group : list Metric)
             (lookup creation : GoHTTP.Request) (found : GoHTTP.Response) (id : string)
             (before delta : list Event),
        executed (createBucketExecuted (client s0)) bucket = false ->
        BucketTag (client (session env calls s0)) <> "" ->
        retryTime (client (session env calls s0))
        <= now (world (session env calls s0)) + pause next ->
        batchOrder env (batch next) (arrival (session env calls s0) next)
        = (pre ++ (bucket, group) :: post)%list ->
        writeBatches env pre
          (snd (groupMetrics (batch next) ∅ (arrival (session env calls s0) next)))
        = (None, s1) ->
        happened s0 s1 before ->
        Forall (fun ev => isCreated bucket ev = false) before ->
        SkipBucketCreation (client s1) = false ->
        lookupRequestOf env (client s1) = inl lookup ->
        answer env s1 lookup = inr found ->
        lookupResult (client s1) found = (id, None) ->
        creationRequestOf env (client s1) bucket id = inl creation ->
        happened s1 (call env (session env calls s0) next) delta ->
        exists tail,
          delta = EvRoundTrip lookup (inr found)
                  :: EvRoundTrip creation (answer env (afterRoundTrip env s1 lookup) creation)
                  :: tail
          /\ isCreationOf bucket
               (EvRoundTrip creation (answer env (afterRoundTrip env s1 lookup) creation))
             = true).
Proof.
  split; [| split; [| split; [| split; [| split; [| split]]]]].
  - intros calls s delta Hs Hdelta.
    destruct (grows_session env bucket calls s) as (d & Hd & Hkeep & _).
    rewrite (happened_unique _ _ _ _ Hdelta Hd).
    split; [apply countCreations_none |]; now apply Hkeep.
  - intros metrics s delta Hdelta Hex.
    destruct (grows_Write env bucket metrics s) as (d & Hd & _ & _ & Hmark).
    apply Hmark. now rewrite (happened_unique _ _ _ _ Hd Hdelta).
  - intros s first both Hfirst Hboth Hex.
    destruct (ensureBucket_frame env bucket s) as (d & Hd & _ & Hcount & _ & Hcl).
    rewrite (happened_unique _ _ _ _ Hd Hfirst) in *.
    destruct Hcl as [[_ Hnot] | [Hcl _]].
    { exfalso. eapply not_Exists_isCreated; eassumption. }
    assert (Hmarked : executed (createBucketExecuted
                                  (client (snd (ensureBucket env bucket s)))) bucket = true).
    { rewrite Hcl. cbn. apply executed_insert. now left. }
    rewrite ensureBucket_skip in Hboth by now right. cbn [snd] in Hboth.
    rewrite (happened_unique _ _ _ _ Hboth Hfirst).
    pose proof (countCreations_Exists bucket first Hex). lia.
  - intros s delta Hdelta Hnot.
    destruct (CreateBucket_frame env bucket s) as (d & Hd & _ & _ & _ & Hcl).
    rewrite (happened_unique _ _ _ _ Hd Hdelta) in *.
    destruct Hcl as [(_ & -> & _) | (_ & _ & Hex)]; [reflexivity |].
    exfalso. eapply not_Exists_isCreated; eassumption.
  - intros s Hskip Hnot.
    rewrite (ensureBucket_creates env bucket s Hskip Hnot).
    destruct (fst (CreateBucket env bucket s)) as [err |].
    + split; [reflexivity |].
      eexists [_]. split; [reflexivity |]. repeat constructor. eexists. reflexivity.
    + split; [reflexivity |].
      exists []. split; [apply happened_refl | constructor].
  - intros s lookup creation found id. apply ensureBucket_sent.
  - intros calls next s0 s1 pre post group lookup creation found id before delta
      Hs0 Htag Hgate Horder Hpre Hbefore Hnone Hskip Hlookup Hfound Hid Hcreation Hdelta.
    set (s := session env calls s0) in *.
    assert (Hgrows : grows bucket s0 s1).
    { eapply grows_trans; [apply grows_session |]. fold s.
      eapply grows_trans with (s2 := arrival s next).
      { apply (grows_quiet bucket _ _ []); [| constructor | reflexivity].
        unfold happened. cbn. now rewrite app_nil_r. }
      eapply grows_trans; [apply (grows_groupMetrics bucket (batch next) ∅) |].
      replace s1 with (snd (writeBatches env pre
                              (snd (groupMetrics (batch next) ∅ (arrival s next)))))
        by now rewrite Hpre.
      apply (writeBatches_rel env (grows bucket)).
      - apply grows_refl.
      - apply grows_trans.
      - intros b a. apply grows_ensureBucket.
      - intros b m a. apply grows_writeBatch. }
    assert (Hnot : executed (createBucketExecuted (client s1)) bucket = false).
    { destruct Hgrows as (d & Hd & _ & Hnew & _).
      rewrite (happened_unique _ _ _ _ Hd Hbefore) in Hnew.
      destruct (executed (createBucketExecuted (client s1)) bucket); [| reflexivity].
      destruct (Hnew eq_refl) as [H | H]; [congruence |].
      exfalso. eapply not_Exists_isCreated; eassumption. }
    destruct (ensureBucket_sent env bucket s1 lookup creation found id
                Hskip Hnot Hlookup Hfound Hid Hcreation) as ((tail & Htail & _) & Hev & _).
    assert (Hwrite : call env s next
                     = snd (writeBatches env ((bucket, group) :: post) s1)).
    { unfold call. change (mkState (client s) _) with (arrival s next).
      rewrite Write_routed; [| exact Hgate | exact Htag].
      rewrite Horder. now rewrite (writeBatches_app env pre _ _ s1 Hpre). }
    assert (Hrest : exists more,
              happened (snd (ensureBucket env bucket s1)) (call env s next) more).
    { rewrite Hwrite. cbn [writeBatches]. unfold mbind, M_bind.
      destruct (writeBatch_frame env bucket group (snd (ensureBucket env bucket s1)))
        as (d1 & Hd1 & _).
      destruct (fst (writeBatch env bucket group (snd (ensureBucket env bucket s1)))).
      + now exists d1.
      + destruct (writeBatches_trace env post
                    (snd (writeBatch env bucket group (snd (ensureBucket env bucket s1)))))
          as (d2 & Hd2).
        exists (d1 ++ d2)%list. eapply happened_trans; eassumption. }
    destruct Hrest as (more & Hmore).
    pose proof (happened_trans _ _ _ _ _ Htail Hmore) as Hall.
    rewrite (happened_unique _ _ _ _ Hdelta Hall).
    exists (tail ++ more)%list. split; [reflexivity | exact Hev].
Qed.

Lemma bucket_creation_idempotent_witness :
  (countCreations "a"
     (eventsSince Scenario.afterDelivery
        (session Scenario.healthy Scenario.twoCalls Scenario.afterDelivery)) = 0%nat
   /\ executed (createBucketExecuted
                  (client (session Scenario.healthy Scenario.twoCalls Scenario.afterDelivery)))
        "a" = true)
  /\ executed (createBucketExecuted
                 (client (snd (Write Scenario.healthy [0%nat; 1%nat; 2%nat] Scenario.routed))))
       "a" = true
  /\ countCreations "a"
       (eventsSince Scenario.routed
          (snd (ensureBucket Scenario.healthy "a"
                  (snd (ensureBucket Scenario.healthy "a" Scenario.routed))))) = 1%nat
  /\ createBucketExecuted (client (snd (CreateBucket Scenario.readOnly "a" Scenario.routed)))
     = createBucketExecuted (client Scenario.routed)
  /\ (client (snd (ensureBucket Scenario.readOnly "a" Scenario.routed))
      = client (snd (CreateBucket Scenario.readOnly "a" Scenario.routed))
      /\ exists log,
           happened (snd (CreateBucket Scenario.readOnly "a" Scenario.routed))
             (snd (ensureBucket Scenario.readOnly "a" Scenario.routed)) log
           /\ Forall (fun ev => exists l, ev = EvLog l) log)
  /\ ((exists tail,
         happened Scenario.routed (snd (ensureBucket Scenario.readOnly "a" Scenario.routed))
           (EvRoundTrip Scenario.lookupRequest (inr Scenario.orgsOK)
            :: EvRoundTrip (Scenario.creationRequest "a") (inr (Scenario.forbidden "a"))
            :: tail)
         /\ Forall (fun ev => isRequest ev = false) tail)
      /\ isCreationOf "a"
           (EvRoundTrip (Scenario.creationRequest "a") (inr (Scenario.forbidden "a"))) = true
      /\ executed (createBucketExecuted
                     (client (snd (ensureBucket Scenario.readOnly "a" Scenario.routed)))) "a"
         = false)
  /\ exists tail,
       eventsSince
         (snd (writeBatches Scenario.readOnly [("a", [6%nat])]
                 (snd (groupMetrics [0%nat; 2%nat] ∅
                         (arrival (session Scenario.readOnly [Scenario.firstCall]
                                     Scenario.routed)
                            Scenario.secondCall)))))
         (session Scenario.readOnly [Scenario.firstCall; Scenario.secondCall] Scenario.routed)
       = EvRoundTrip Scenario.lookupRequest (inr Scenario.orgsOK)
         :: EvRoundTrip (Scenario.creationRequest "b") (inr (Scenario.forbidden "b")) :: tail
       /\ isCreationOf "b"
            (EvRoundTrip (Scenario.creationRequest "b") (inr (Scenario.forbidden "b"))) = true.
Proof.
  destruct (bucket_creation_idempotent Scenario.healthy "a") as (H1 & H2 & H3 & _).
  destruct (bucket_creation_idempotent Scenario.readOnly "a") as (_ & _ & _ & H4 & H5 & H6 & _).
  destruct (bucket_creation_idempotent Scenario.readOnly "b") as (_ & _ & _ & _ & _ & _ & H7).
  split; [| split; [| split; [| split; [| split; [| split]]]]].
  - apply (H1 Scenario.twoCalls Scenario.afterDelivery); vm_compute; reflexivity.
  - apply (H2 [0%nat; 1%nat; 2%nat] Scenario.routed
             (eventsSince Scenario.routed
                (snd (Write Scenario.healthy [0%nat; 1%nat; 2%nat] Scenario.routed)))).
    + vm_compute. reflexivity.
    + apply Exists_existsb. vm_compute. reflexivity.
  - apply (H3 Scenario.routed
             (eventsSince Scenario.routed (snd (ensureBucket Scenario.healthy "a" Scenario.routed)))).
    + vm_compute. reflexivity.
    + vm_compute. reflexivity.
    + apply Exists_existsb. vm_compute. reflexivity.
  - apply (H4 Scenario.routed
             (eventsSince Scenario.routed (snd (CreateBucket Scenario.readOnly "a" Scenario.routed)))).
    + vm_compute. reflexivity.
    + apply Forall_forallb. vm_compute. reflexivity.
  - apply (H5 Scenario.routed); vm_compute; reflexivity.
  - apply (H6 Scenario.routed Scenario.lookupRequest (Scenario.creationRequest "a")
             Scenario.orgsOK "0a1b"); vm_compute; reflexivity.
  - apply (H7 [Scenario.firstCall] Scenario.secondCall Scenario.routed
             (snd (writeBatches Scenario.readOnly [("a", [6%nat])]
                     (snd (groupMetrics [0%nat; 2%nat] ∅
                             (arrival (session Scenario.readOnly [Scenario.firstCall]
                                         Scenario.routed)
                                Scenario.secondCall)))))
             [("a", [6%nat])] [] [7%nat]
             Scenario.lookupRequest (Scenario.creationRequest "b") Scenario.orgsOK "0a1b"
             (eventsSince Scenario.routed
                (snd (writeBatches Scenario.readOnly [("a", [6%nat])]
                        (snd (groupMetrics [0%nat; 2%nat] ∅
                                (arrival (session Scenario.readOnly [Scenario.firstCall]
                                            Scenario.routed)
                                   Scenario.secondCall))))))).
    + vm_compute. reflexivity.
    + vm_compute. discriminate.
    + vm_compute. discriminate.
    + vm_compute. reflexivity.
    + vm_compute. reflexivity.
    + vm_compute. reflexivity.
    + apply Forall_forallb. vm_compute. reflexivity.
    + vm_compute. reflexivity.
    + vm_compute. reflexivity.
    + vm_compute. reflexivity.
    + vm_compute. reflexivity.
    + vm_compute. reflexivity.
    + vm_compute. reflexivity.
Defined.

(** Two calls of [Write] against a server that refuses to create
    buckets: the creation of [a] is asked for in both, and [a] is never
    recorded. *)
Example creation_retried_by_next_Write :
  countCreations "a"
    (eventsSince Scenario.routed
       (session Scenario.readOnly [Scenario.firstCall; Scenario.secondCall] Scenario.routed))
  = 2%nat
  /\ executed (createBucketExecuted
                 (client (session Scenario.readOnly [Scenario.firstCall; Scenario.secondCall]
                            Scenario.routed))) "a" = false.
Proof. vm_compute. now split. Qed.

(** C10: over the life of a client the record of created buckets only
    grows: a bucket that is recorded stays recorded; a bucket gets
    recorded only with a creation request answered 201; no write changes
    the record, whatever it returns; after a write to a recorded bucket
    has failed with [BucketNotFoundError] the bucket is still recorded and
    no later [Write] asks for its creation. *)
Theorem created_buckets_only_grow (env : Env) (bucket : string) :
  (forall (calls : list Call) (s : State),
     executed (createBucketExecuted (client s)) bucket = true ->
     executed (createBucketExecuted (client (session env calls s))) bucket = true)
  /\ (forall (calls : list Call) (s : State) (delta : list Event),
        happened s (session env calls s) delta ->
        executed (createBucketExecuted (client s)) bucket = false ->
        executed (createBucketExecuted (client (session env calls s))) bucket = true ->
        Exists (fun ev => isCreated bucket ev = true) delta)
  /\ (forall (b : string) (metrics : list Metric) (s : State),
        createBucketExecuted (client (snd (writeBatch env b metrics s)))
        = createBucketExecuted (client s))
  /\ (forall (metrics : list Metric) (s : State) (e : APIError) (calls : list Call)
             (delta : list Event),
        executed (createBucketExecuted (client s)) bucket = true ->
        fst (Write env metrics s) = Some (ErrBucketNotFound e bucket) ->
        happened (snd (Write env metrics s))
          (session env calls (snd (Write env metrics s))) delta ->
        executed (createBucketExecuted (client (snd (Write env metrics s)))) bucket = true
        /\ countCreations bucket delta = 0%nat).
Proof.
  split; [| split; [| split]].
  - intros calls s Hs.
    destruct (grows_session env bucket calls s) as (d & Hd & Hkeep & _). now apply Hkeep.
  - intros calls s delta Hdelta Hnot Hs'.
    destruct (grows_session env bucket calls s) as (d & Hd & _ & Hnew & _).
    rewrite (happened_unique _ _ _ _ Hdelta Hd).
    destruct (Hnew Hs') as [Hs | Hex]; [congruence | exact Hex].
  - intros b metrics s.
    now destruct (writeBatch_frame env b metrics s) as (_ & _ & _ & _ & _ & H).
  - intros metrics s e calls delta Hs _ Hdelta.
    destruct (grows_Write env bucket metrics s) as (d & _ & Hkeep & _).
    destruct (Hkeep Hs) as [Hs' _]. split; [exact Hs' |].
    destruct (grows_session env bucket calls (snd (Write env metrics s)))
      as (d' & Hd' & Hkeep' & _).
    rewrite (happened_unique _ _ _ _ Hdelta Hd'). apply countCreations_none.
    now apply Hkeep'.
Qed.

Lemma created_buckets_only_grow_witness :
  executed (createBucketExecuted
              (client (session Scenario.bucketVanished Scenario.twoCalls
                         Scenario.afterVanishing))) "a" = true
  /\ Exists (fun ev => isCreated "b" ev = true)
       (eventsSince Scenario.afterVanishing
          (session Scenario.healthy Scenario.twoCalls Scenario.afterVanishing))
  /\ (executed (createBucketExecuted
                  (client (snd (Write Scenario.bucketVanished [0%nat; 1%nat; 2%nat]
                                  Scenario.afterVanishing)))) "a" = true
      /\ countCreations "a"
           (eventsSince
              (snd (Write Scenario.bucketVanished [0%nat; 1%nat; 2%nat]
                      Scenario.afterVanishing))
              (session Scenario.bucketVanished Scenario.twoCalls
                 (snd (Write Scenario.bucketVanished [0%nat; 1%nat; 2%nat]
                         Scenario.afterVanishing)))) = 0%nat).
Proof.
  destruct (created_buckets_only_grow Scenario.bucketVanished "a") as (H1 & _ & _ & H4).
  destruct (created_buckets_only_grow Scenario.healthy "b") as (_ & H2 & _ & _).
  split; [| split].
  - apply (H1 Scenario.twoCalls Scenario.afterVanishing). vm_compute. reflexivity.
  - apply (H2 Scenario.twoCalls Scenario.afterVanishing); vm_compute; reflexivity.
  - apply (H4 [0%nat; 1%nat; 2%nat] Scenario.afterVanishing
             (mkAPIError 404 "404 Not Found" "not found: bucket default not found")
             Scenario.twoCalls);
      vm_compute; reflexivity.
Defined.

(** ** [Write] over the bucket groups *)

Lemma writeBatch_nil (env : Env) (bucket : string) (metrics : list Metric) (s : State) :
  fst (writeBatch env bucket metrics s) = None ->
  exists req resp logs,
    writeRequestOf env s bucket metrics = inl req
    /\ answer env s req = inr resp
    /\ absorbed (classify resp) = true
    /\ happened s (snd (writeBatch env bucket metrics s)) (EvRoundTrip req (inr resp) :: logs).
Proof.
  destruct (writeRequestOf env s bucket metrics) as [req | err] eqn:Hreq.
  - destruct (answer env s req) as [msg | resp] eqn:Hans.
    + now rewrite (writeBatch_transport_error env s bucket metrics req msg Hreq Hans).
    + rewrite (writeBatch_sent env s bucket metrics req resp Hreq Hans).
      rewrite writeBatchResponse_result. intros Hnil.
      destruct (writeBatchResponse_frame env bucket resp (snd (Do env req s)))
        as (logs & Hlogs & _).
      exists req, resp, logs.
      split; [reflexivity |]. split; [exact Hans |]. split.
      * now destruct (classify resp).
      * unfold happened in *. rewrite Hlogs, Do_state, Hans. cbn [snd world trace].
        now rewrite <- app_assoc.
  - now rewrite (writeBatch_not_sent env s bucket metrics err Hreq).
Qed.

(** A response with a hard outcome makes [writeBatch] return an error,
    and after the round trip it only logs. *)
Lemma writeBatch_hard (env : Env) (bucket : string) (metrics : list Metric) (s : State)
    (req : GoHTTP.Request) (resp : GoHTTP.Response) :
  writeRequestOf env s bucket metrics = inl req ->
  answer env s req = inr resp ->
  absorbed (classify resp) = false ->
  fst (writeBatch env bucket metrics s) <> None
  /\ exists logs,
       happened s (snd (writeBatch env bucket metrics s)) (EvRoundTrip req (inr resp) :: logs)
       /\ Forall (fun ev => isWrite ev = false /\ isBucketManager ev = false) logs.
Proof.
  intros Hreq Hans Hhard.
  rewrite (writeBatch_sent env s bucket metrics req resp Hreq Hans).
  rewrite writeBatchResponse_result. split.
  - now destruct (classify resp).
  - destruct (writeBatchResponse_frame env bucket resp (snd (Do env req s)))
      as (logs & Hlogs & Hall & _).
    exists logs. split.
    + unfold happened in *. rewrite Hlogs, Do_state, Hans. cbn [snd world trace].
      now rewrite <- app_assoc.
    + eapply Forall_impl; [exact Hall |].
      intros [r res | l | msg | m] [Ht Hw]; cbn in *; try (split; reflexivity).
      split; [exact Hw |]. now destruct (GoHTTP.ReqBody r).
Qed.

(** The loop stops at the first batch whose write returns an error. *)
Lemma writeBatches_abort (env : Env) (pre post : list (string * list Metric))
    (bucket : string) (batch : list Metric) (s s1 : State) :
  writeBatches env pre s = (None, s1) ->
  fst (writeBatch env bucket batch (snd (ensureBucket env bucket s1))) <> None ->
  writeBatches env (pre ++ (bucket, batch) :: post) s
  = writeBatch env bucket batch (snd (ensureBucket env bucket s1)).
Proof.
  revert s. induction pre as [| [b m] pre IH]; intros s Hpre Herr.
  - injection Hpre as <-. cbn [app writeBatches]. unfold mbind, M_bind.
    destruct (writeBatch env bucket batch (snd (ensureBucket env bucket s))) as [[e |] s2];
      [reflexivity | now cbn in Herr].
  - cbn [app writeBatches] in *. unfold mbind, M_bind in *.
    destruct (fst (writeBatch env b m (snd (ensureBucket env b s)))) as [e |];
      [discriminate |].
    now apply IH.
Qed.

Lemma ensureBucket_config (env : Env) (bucket : string) (s : State) :
  config (client (snd (ensureBucket env bucket s))) = config (client s).
Proof.
  destruct (ensureBucket_frame env bucket s) as (_ & _ & _ & _ & _ & [[-> _] | [-> _]]);
    reflexivity.
Qed.

Lemma delivered_mono (c c' : httpClient) (metrics : list MetricData)
    (events events' : list Event) (group : string * list Metric) :
  config c = config c' ->
  (forall ev, In ev events -> In ev events') ->
  delivered c metrics events group -> delivered c' metrics events' group.
Proof.
  intros Hcfg Hsub (req & resp & Hin & Hurl & Hbody & Habs).
  exists req, resp. repeat split; try assumption.
  - now apply Hsub.
  - unfold config in Hcfg. injection Hcfg as _ _ _ Horg _ _ _ _ Hu.
    now rewrite <- Hu, <- Horg.
Qed.

(** When the loop returns nil, every batch was sent and absorbed. *)
Lemma writeBatches_nil (env : Env) (batches : list (string * list Metric)) (s : State) :
  fst (writeBatches env batches s) = None ->
  exists delta,
    happened s (snd (writeBatches env batches s)) delta
    /\ Forall (delivered (client s) (store (world s)) delta) batches.
Proof.
  revert s. induction batches as [| [bucket batch] rest IH]; intros s Hnil.
  - exists []. split; [apply happened_refl | constructor].
  - cbn [writeBatches] in *. unfold mbind, M_bind in *.
    destruct (ensureBucket_frame env bucket s) as (d1 & Hd1 & _ & _ & Hst1 & _).
    pose proof (ensureBucket_config env bucket s) as Hcfg1.
    set (s1 := snd (ensureBucket env bucket s)) in *.
    destruct (writeBatch_frame env bucket batch s1) as (d2' & _ & _ & Hst2 & Hcfg2 & _).
    clear d2'.
    destruct (fst (writeBatch env bucket batch s1)) as [e |] eqn:Hw; [discriminate |].
    destruct (writeBatch_nil env bucket batch s1 Hw)
      as (req & resp & logs & Hreq & Hans & Habs & Hd2).
    set (s2 := snd (writeBatch env bucket batch s1)) in *.
    destruct (IH s2 Hnil) as (d3 & Hd3 & Hall).
    exists (d1 ++ (EvRoundTrip req (inr resp) :: logs) ++ d3)%list. split.
    + eapply happened_trans; [exact Hd1 |]. eapply happened_trans; eassumption.
    + constructor.
      * destruct (writeRequestOf_request env s1 bucket batch req Hreq) as (Hurl & Hbody).
        apply (delivered_mono (client s1) _ _ [EvRoundTrip req (inr resp)]).
        -- exact Hcfg1.
        -- intros ev [<- | []]. apply in_or_app. right. now left.
        -- exists req, resp. rewrite <- Hst1. repeat split; try assumption. now left.
      * eapply Forall_impl; [exact Hall |]. intros g Hg.
        rewrite <- Hst1, <- Hst2.
        apply (delivered_mono (client s2) _ _ d3); [| | exact Hg].
        -- now rewrite Hcfg2.
        -- intros ev Hin. apply in_or_app. right. apply in_or_app. now right.
Qed.

(** C1: in a [Write] with routing, when the write of a batch is answered
    with an Unauthorized, ServerError, BucketMissing or Throttle outcome,
    [Write] returns what that [writeBatch] returns, which is an error,
    and ends in the state that [writeBatch] ends in: after the round
    trip there are only log lines, and the batches behind it are not
    sent.  When [Write] returns nil, every batch the second loop went
    through, and so every batch there is when [range] leaves none out,
    was sent and was answered with a Success, DropSilently or ClientError
    outcome. *)
Theorem Write_stops_at_first_error (env : Env) (metrics : list Metric) (s : State) :
  BucketTag (client s) <> "" ->
  retryTime (client s) <= now (world s) ->
  (forall (pre post : list (string * list Metric)) (bucket : string) (batch : list Metric)
          (s1 : State) (req : GoHTTP.Request) (resp : GoHTTP.Response),
     batchOrder env metrics s = (pre ++ (bucket, batch) :: post)%list ->
     writeBatches env pre (snd (groupMetrics metrics ∅ s)) = (None, s1) ->
     writeRequestOf env (snd (ensureBucket env bucket s1)) bucket batch = inl req ->
     answer env (snd (ensureBucket env bucket s1)) req = inr resp ->
     In (classify resp) [Unauthorized; ServerError; BucketMissing; Throttle] ->
     Write env metrics s = writeBatch env bucket batch (snd (ensureBucket env bucket s1))
     /\ fst (Write env metrics s) <> None
     /\ exists logs,
          happened (snd (ensureBucket env bucket s1)) (snd (Write env metrics s))
            (EvRoundTrip req (inr resp) :: logs)
          /\ Forall (fun ev => isWrite ev = false /\ isBucketManager ev = false) logs)
  /\ (fst (Write env metrics s) = None ->
      exists delta,
        happened (snd (groupMetrics metrics ∅ s)) (snd (Write env metrics s)) delta
        /\ Forall (delivered (client s) (store (world (snd (groupMetrics metrics ∅ s)))) delta)
             (batchOrder env metrics s)
        /\ ((forall tr l, Permutation (rangeOrder env tr l) l) ->
            forall bucket batch,
              fst (groupMetrics metrics ∅ s) !! bucket = Some batch ->
              delivered (client s) (store (world (snd (groupMetrics metrics ∅ s)))) delta
                (bucket, batch))).
Proof.
  intros Htag Hgate. rewrite (Write_routed env metrics s Hgate Htag). split.
  - intros pre post bucket batch s1 req resp Horder Hpre Hreq Hans Hclass.
    assert (Hhard : absorbed (classify resp) = false).
    { cbn [In] in Hclass. now destruct Hclass as [<- | [<- | [<- | [<- | []]]]]. }
    destruct (writeBatch_hard env bucket batch _ req resp Hreq Hans Hhard) as (Herr & Hlogs).
    rewrite Horder, (writeBatches_abort env pre post bucket batch _ s1 Hpre Herr).
    repeat split; assumption.
  - intros Hnil.
    destruct (writeBatches_nil env _ _ Hnil) as (delta & Hd & Hall).
    destruct (groupMetrics_frame metrics ∅ s) as (Hc & _).
    rewrite Hc in Hall.
    exists delta. repeat split; try assumption.
    intros Hperm bucket batch Hlookup.
    rewrite Forall_forall in Hall. apply Hall.
    unfold batchOrder. rewrite Hperm. now apply elem_of_map_to_list.
Qed.

Lemma Write_stops_at_first_error_witness :
  (Write Scenario.guarded [0%nat; 1%nat; 2%nat] Scenario.routed
   = writeBatch Scenario.guarded "b" [5%nat]
       (snd (ensureBucket Scenario.guarded "b"
               (snd (writeBatches Scenario.guarded [("a", [3%nat])]
                       (snd (groupMetrics [0%nat; 1%nat; 2%nat] ∅ Scenario.routed))))))
   /\ fst (Write Scenario.guarded [0%nat; 1%nat; 2%nat] Scenario.routed) <> None
   /\ exists logs,
        happened
          (snd (ensureBucket Scenario.guarded "b"
                  (snd (writeBatches Scenario.guarded [("a", [3%nat])]
                          (snd (groupMetrics [0%nat; 1%nat; 2%nat] ∅ Scenario.routed))))))
          (snd (Write Scenario.guarded [0%nat; 1%nat; 2%nat] Scenario.routed))
          (EvRoundTrip (Scenario.writeRequest "b" [Scenario.sent []])
             (inr (Scenario.unauthorizedForB "bucket=b&")) :: logs)
        /\ Forall (fun ev => isWrite ev = false /\ isBucketManager ev = false) logs)
  /\ exists delta,
       happened (snd (groupMetrics [0%nat; 1%nat; 2%nat] ∅ Scenario.routed))
         (snd (Write Scenario.healthy [0%nat; 1%nat; 2%nat] Scenario.routed)) delta
       /\ Forall (delivered (client Scenario.routed)
                    (store (world (snd (groupMetrics [0%nat; 1%nat; 2%nat] ∅ Scenario.routed))))
                    delta)
            (batchOrder Scenario.healthy [0%nat; 1%nat; 2%nat] Scenario.routed)
       /\ delivered (client Scenario.routed)
            (store (world (snd (groupMetrics [0%nat; 1%nat; 2%nat] ∅ Scenario.routed))))
            delta ("default", [4%nat]).
Proof.
  split.
  - assert (Htag : BucketTag (client Scenario.routed) <> "") by (vm_compute; discriminate).
    assert (Hgate : retryTime (client Scenario.routed) <= now (world Scenario.routed))
      by (vm_compute; discriminate).
    apply (proj1 (Write_stops_at_first_error Scenario.guarded [0%nat; 1%nat; 2%nat]
                    Scenario.routed Htag Hgate)
             [("a", [3%nat])] [("default", [4%nat])] "b" [5%nat]).
    + vm_compute. reflexivity.
    + vm_compute. reflexivity.
    + vm_compute. reflexivity.
    + vm_compute. reflexivity.
    + vm_compute. auto.
  - assert (Htag : BucketTag (client Scenario.routed) <> "") by (vm_compute; discriminate).
    assert (Hgate : retryTime (client Scenario.routed) <= now (world Scenario.routed))
      by (vm_compute; discriminate).
    assert (Hnil : fst (Write Scenario.healthy [0%nat; 1%nat; 2%nat] Scenario.routed) = None)
      by (vm_compute; reflexivity).
    destruct (proj2 (Write_stops_at_first_error Scenario.healthy [0%nat; 1%nat; 2%nat]
                       Scenario.routed Htag Hgate) Hnil) as (delta & Hd & Hall & Hevery).
    exists delta. split; [exact Hd |]. split; [exact Hall |].
    apply Hevery.
    + intros tr l. reflexivity.
    + vm_compute. reflexivity.
Defined.

(** * Further properties *)

(** ** More of the URL builder *)

Lemma append_inv_head (a b c : string) : a +:+ b = a +:+ c -> b = c.
Proof.
  induction a as [|x a IH]; [trivial |].
  rewrite !append_cons. intros [= H]. now apply IH.
Qed.

Lemma QueryUnescape_escapeByte (c : ascii) (r : string) :
  QueryUnescape (escapeByte encodeQueryComponent c +:+ r)
  = option_map (String c) (QueryUnescape r).
Proof.
  destruct c as [[] [] [] [] [] [] [] []]; reflexivity.
Qed.

Lemma QueryUnescape_QueryEscape (s : string) : QueryUnescape (QueryEscape s) = Some s.
Proof.
  unfold QueryEscape. induction s as [|c s IH]; [reflexivity |].
  cbn [escape]. now rewrite QueryUnescape_escapeByte, IH.
Qed.

Lemma QueryEscape_inj (a b : string) : QueryEscape a = QueryEscape b -> a = b.
Proof.
  intros H. apply (f_equal QueryUnescape) in H.
  rewrite !QueryUnescape_QueryEscape in H. now injection H.
Qed.

Lemma queryByte_escapeByte (c : ascii) :
  forallb queryByte (list_ascii_of_string (escapeByte encodeQueryComponent c)) = true.
Proof.
  destruct c as [[] [] [] [] [] [] [] []]; reflexivity.
Qed.

Lemma list_ascii_of_string_app (a b : string) :
  list_ascii_of_string (a +:+ b) = (list_ascii_of_string a ++ list_ascii_of_string b)%list.
Proof.
  induction a as [|x a IH]; [reflexivity |].
  rewrite append_cons. cbn. now rewrite IH.
Qed.

Lemma append_inv_tail (a b c : string) : a +:+ c = b +:+ c -> a = b.
Proof.
  intros H. apply (f_equal list_ascii_of_string) in H.
  rewrite !list_ascii_of_string_app in H. apply app_inv_tail in H.
  apply (f_equal string_of_list_ascii) in H.
  now rewrite !string_of_list_ascii_of_string in H.
Qed.

Lemma queryByte_QueryEscape (s : string) :
  forallb queryByte (list_ascii_of_string (QueryEscape s)) = true.
Proof.
  unfold QueryEscape. induction s as [|c s IH]; [reflexivity |].
  cbn [escape]. rewrite list_ascii_of_string_app, forallb_app, queryByte_escapeByte.
  exact IH.
Qed.

(** Two texts without the byte [c], each followed by [c]: where [c]
    comes first tells them apart. *)
Lemma append_split_unique (c : ascii) (x x' y y' : string) :
  forallb (fun b => negb (Ascii.eqb b c)) (list_ascii_of_string x) = true ->
  forallb (fun b => negb (Ascii.eqb b c)) (list_ascii_of_string x') = true ->
  x +:+ String c y = x' +:+ String c y' -> x = x' /\ y = y'.
Proof.
  revert x'. induction x as [|a x IH]; intros [|a' x'] Hx Hx' H.
  - rewrite !append_nil_l in H. injection H as ->. now split.
  - rewrite append_nil_l, append_cons in H. injection H as <- _.
    cbn in Hx'. rewrite Ascii.eqb_refl in Hx'. discriminate.
  - rewrite append_nil_l, append_cons in H. injection H as -> _.
    cbn in Hx. rewrite Ascii.eqb_refl in Hx. discriminate.
  - rewrite !append_cons in H. injection H as -> H.
    cbn in Hx, Hx'. apply andb_prop in Hx as [_ Hx]. apply andb_prop in Hx' as [_ Hx'].
    destruct (IH x' Hx Hx' H) as [-> ->]. now split.
Qed.

Lemma queryByte_not (c : ascii) (s : string) :
  queryByte c = false ->
  forallb queryByte (list_ascii_of_string s) = true ->
  forallb (fun b => negb (Ascii.eqb b c)) (list_ascii_of_string s) = true.
Proof.
  intros Hc H. rewrite forallb_forall in *. intros b Hb.
  specialize (H b Hb). apply negb_true_iff. apply Ascii.eqb_neq. intros ->. congruence.
Qed.

(** What [makeWriteURL] answers, split at the question mark: the front
    and the fragment are those of the base address. *)
Lemma makeWriteURL_front (loc : URL) (org bucket : string) (a : string) :
  makeWriteURL loc org bucket = inl a ->
  exists front,
    forall org' bucket',
      makeWriteURL loc org' bucket'
      = inl (front +:+ "?bucket=" +:+ QueryEscape bucket' +:+ "&org=" +:+ QueryEscape org'
             +:+ fragmentSuffix loc).
Proof.
  unfold makeWriteURL. intros H.
  assert (Hshape : forall (loc' : URL) org' bucket',
    fragmentSuffix loc' = fragmentSuffix loc ->
    URL_String (set_RawQuery
                  ("bucket=" +:+ QueryEscape bucket' +:+ "&org=" +:+ QueryEscape org') loc')
    = beforeQuery loc' +:+ "?bucket=" +:+ QueryEscape bucket' +:+ "&org="
      +:+ QueryEscape org' +:+ fragmentSuffix loc).
  { intros loc' org' bucket' Hfragment. rewrite URL_String_query, <- Hfragment.
    cbn [set_RawQuery ForceQuery RawQuery]. rewrite querySuffix_set by reflexivity.
    now string_norm. }
  destruct (String.eqb (Scheme loc) "unix").
  - eexists. intros org' bucket'. rewrite writeQuery, Hshape; reflexivity.
  - destruct (String.eqb (Scheme loc) "http" || String.eqb (Scheme loc) "https");
      [| discriminate].
    eexists. intros org' bucket'. rewrite writeQuery, Hshape; reflexivity.
Qed.

Lemma orgQuery (orgName : string) :
  Values_Encode (Values_Set "limit" "1" (Values_Set "org" orgName []))
  = "limit=1&org=" +:+ QueryEscape orgName.
Proof. reflexivity. Qed.

(** X1: the address of the organization lookup.  For a base address
    with scheme [http] or [https], a clean rooted path, no opaque part and
    no raw path, it keeps scheme, authority and path, appends
    [/api/v2/orgs] and has the query [limit=1&org=<org>], the name
    query-escaped; the parameters come in the order of their names, not in
    the order in which they were set.  For the scheme [unix] it is
    [http://127.0.0.1/api/v2/orgs] with the same query, whatever the base
    path.  User info and fragment of the base address are kept in both
    cases; without them the authority is [//host] and nothing follows the
    query. *)
Theorem makeOrgIDURL_address (loc : URL) (orgName : string) :
  (Scheme loc = "http" \/ Scheme loc = "https" ->
   forall segs : list string,
     forallb isSegment segs = true -> Path loc = rootedPath segs ->
     Opaque loc = "" -> RawPath loc = "" ->
     makeOrgIDURL loc orgName
     = inl (Scheme loc +:+ ":" +:+ authority loc
            +:+ escape (Path loc) encodePath
            +:+ "/api/v2/orgs?limit=1&org=" +:+ QueryEscape orgName
            +:+ fragmentSuffix loc))
  /\ (Scheme loc = "unix" -> Opaque loc = "" -> RawPath loc = "" ->
      makeOrgIDURL loc orgName
      = inl ("http://" +:+ userPrefix (User loc)
             +:+ "127.0.0.1/api/v2/orgs?limit=1&org=" +:+ QueryEscape orgName
             +:+ fragmentSuffix loc))
  /\ (User loc = None -> OmitHost loc = false -> Fragment loc = "" ->
      authority loc = "//" +:+ escape (Host loc) encodeHost
      /\ userPrefix (User loc) = ""
      /\ fragmentSuffix loc = "").
Proof.
  split; [| split].
  - intros Hscheme segs Hsegs Hpath Hop Hraw.
    set (q := "limit=1&org=" +:+ QueryEscape orgName).
    assert (Hgen : makeOrgIDURL loc orgName
      = inl (URL_String (set_Path (GoPath.Join (Path loc) "/api/v2/orgs")
                           (set_RawQuery q loc)))).
    { unfold makeOrgIDURL. rewrite orgQuery.
      destruct Hscheme as [-> | ->]; reflexivity. }
    rewrite Hgen, Hpath.
    change "/api/v2/orgs" with (rootedPath ["api"; "v2"; "orgs"]).
    rewrite (URL_String_endpoint (set_RawQuery q loc) segs ["api"; "v2"; "orgs"]
               (scheme_nonEmpty _ Hscheme) Hop Hraw Hsegs eq_refl ltac:(discriminate)).
    cbn [set_RawQuery Scheme ForceQuery RawQuery].
    change (authority (set_RawQuery q loc)) with (authority loc).
    change (fragmentSuffix (set_RawQuery q loc)) with (fragmentSuffix loc).
    subst q.
    change (escape (rootedPath ["api"; "v2"; "orgs"]) encodePath) with "/api/v2/orgs".
    rewrite querySuffix_set by reflexivity. now string_norm.
  - intros Hscheme Hop Hraw. unfold makeOrgIDURL. rewrite orgQuery, Hscheme.
    cbn [String.eqb Ascii.eqb Bool.eqb].
    set (q := "limit=1&org=" +:+ QueryEscape orgName).
    change (set_RawQuery q
              (set_Path "/api/v2/orgs" (set_Host "127.0.0.1" (set_Scheme "http" loc))))
      with (set_Path "/api/v2/orgs"
              (set_Host "127.0.0.1" (set_Scheme "http" (set_RawQuery q loc)))).
    rewrite (URL_String_local (set_RawQuery q loc) "api/v2/orgs" Hop Hraw).
    cbn [set_RawQuery User ForceQuery RawQuery].
    change (fragmentSuffix (set_RawQuery q loc)) with (fragmentSuffix loc).
    subst q.
    change (escape "/api/v2/orgs" encodePath) with "/api/v2/orgs".
    rewrite querySuffix_set by reflexivity. now string_norm.
  - intros Huser Homit Hfragment.
    unfold authority, fragmentSuffix. rewrite Huser, Homit, Hfragment. repeat split.
Qed.

Lemma makeOrgIDURL_address_witness :
  makeOrgIDURL (mkURL "https" "host" "/prefix" "") "my org"
  = inl "https://host/prefix/api/v2/orgs?limit=1&org=my+org"
  /\ makeOrgIDURL (mkURL "unix" "" "/var/run/influxdb.sock" "") "my org"
     = inl "http://127.0.0.1/api/v2/orgs?limit=1&org=my+org"
  /\ makeOrgIDURL
       (mkLocation "unix" "" (Some (mkUserinfo "u" "" false)) "" "/run/influxdb.sock" ""
          false false "" "top" "") "my org"
     = inl "http://u@127.0.0.1/api/v2/orgs?limit=1&org=my+org#top".
Proof.
  split; [| split].
  - destruct (makeOrgIDURL_address (mkURL "https" "host" "/prefix" "") "my org") as [H _].
    exact (H (or_intror eq_refl) ["prefix"] eq_refl eq_refl eq_refl eq_refl).
  - destruct (makeOrgIDURL_address (mkURL "unix" "" "/var/run/influxdb.sock" "") "my org")
      as (_ & H & _).
    exact (H eq_refl eq_refl eq_refl).
  - destruct (makeOrgIDURL_address
                (mkLocation "unix" "" (Some (mkUserinfo "u" "" false)) "" "/run/influxdb.sock"
                   "" false false "" "top" "") "my org")
      as (_ & H & _).
    exact (H eq_refl eq_refl eq_refl).
Defined.



Lemma builders_supported (loc : URL) (org bucket : string) :
  supportedScheme (Scheme loc) = true ->
  exists write create lookup,
    makeWriteURL loc org bucket = inl write
    /\ makeCreateURL loc = inl create
    /\ makeOrgIDURL loc org = inl lookup.
Proof.
  unfold supportedScheme, makeWriteURL, makeCreateURL, makeOrgIDURL.
  destruct (String.eqb (Scheme loc) "unix"); cbn [orb].
  - intros _. do 3 eexists. repeat split.
  - destruct (String.eqb (Scheme loc) "http"), (String.eqb (Scheme loc) "https"); cbn [orb];
      try discriminate; intros _; do 3 eexists; repeat split.
Qed.

Lemma builders_unsupported (loc : URL) (org bucket : string) :
  supportedScheme (Scheme loc) = false ->
  makeWriteURL loc org bucket = inr (ErrUnsupportedScheme (Scheme loc))
  /\ makeCreateURL loc = inr (ErrUnsupportedScheme (Scheme loc))
  /\ makeOrgIDURL loc org = inr (ErrUnsupportedScheme (Scheme loc)).
Proof.
  unfold supportedScheme, makeWriteURL, makeCreateURL, makeOrgIDURL.
  destruct (String.eqb (Scheme loc) "unix"); cbn [orb]; [discriminate |].
  destruct (String.eqb (Scheme loc) "http"), (String.eqb (Scheme loc) "https"); cbn [orb];
    try discriminate; intros _; repeat split.
Qed.

(** X3: the three URL builders agree on the schemes.  For [unix],
    [http] and [https] each of them gives an address; for any other scheme
    each of them fails with the unsupported-scheme error, which names the
    scheme. *)
Theorem url_builders_scheme (loc : URL) (org bucket : string) :
  (supportedScheme (Scheme loc) = true ->
   exists write create lookup,
     makeWriteURL loc org bucket = inl write
     /\ makeCreateURL loc = inl create
     /\ makeOrgIDURL loc org = inl lookup)
  /\ (supportedScheme (Scheme loc) = false ->
      makeWriteURL loc org bucket = inr (ErrUnsupportedScheme (Scheme loc))
      /\ makeCreateURL loc = inr (ErrUnsupportedScheme (Scheme loc))
      /\ makeOrgIDURL loc org = inr (ErrUnsupportedScheme (Scheme loc))).
Proof. split; [apply builders_supported | apply builders_unsupported]. Qed.

Lemma url_builders_scheme_witness :
  (exists write create lookup,
     makeWriteURL (mkURL "https" "host" "" "") "o" "b" = inl write
     /\ makeCreateURL (mkURL "https" "host" "" "") = inl create
     /\ makeOrgIDURL (mkURL "https" "host" "" "") "o" = inl lookup)
  /\ makeWriteURL (mkURL "udp" "host:8089" "" "") "o" "b" = inr (ErrUnsupportedScheme "udp")
  /\ makeCreateURL (mkURL "udp" "host:8089" "" "") = inr (ErrUnsupportedScheme "udp")
  /\ makeOrgIDURL (mkURL "udp" "host:8089" "" "") "o" = inr (ErrUnsupportedScheme "udp").
Proof.
  split.
  - apply (proj1 (url_builders_scheme (mkURL "https" "host" "" "") "o" "b")). reflexivity.
  - apply (proj2 (url_builders_scheme (mkURL "udp" "host:8089" "" "") "o" "b")). reflexivity.
Defined.

(** X4: names do not reach out of the query.  The write address is a
    front part that depends on the base address only, followed by
    [?bucket=], the escaped bucket, [&org=] and the escaped organization,
    and then by the fragment of the base address, which is nothing or
    starts with [#]; the escaped names are made of letters, digits and
    [-_.~%+], so none of [&], [=], [?], [#], [/] or a space is in them,
    whatever the names are. *)
Theorem makeWriteURL_query_shape (loc : URL) (org bucket address : string) :
  makeWriteURL loc org bucket = inl address ->
  exists front,
    address = front +:+ "?bucket=" +:+ QueryEscape bucket +:+ "&org=" +:+ QueryEscape org
              +:+ fragmentSuffix loc
    /\ (forall org' bucket',
          makeWriteURL loc org' bucket'
          = inl (front +:+ "?bucket=" +:+ QueryEscape bucket' +:+ "&org=" +:+ QueryEscape org'
                 +:+ fragmentSuffix loc))
    /\ (fragmentSuffix loc = "" \/ exists text, fragmentSuffix loc = String "#" text)
    /\ forallb queryByte (list_ascii_of_string (QueryEscape bucket)) = true
    /\ forallb queryByte (list_ascii_of_string (QueryEscape org)) = true
    /\ forallb (fun c => negb (queryByte c)) (list_ascii_of_string "&=?#/ ") = true.
Proof.
  intros H. destruct (makeWriteURL_front loc org bucket address H) as [front Hfront].
  exists front. rewrite Hfront in H. injection H as <-.
  split; [reflexivity |]. split; [exact Hfront |]. split.
  - unfold fragmentSuffix. destruct (nonEmpty (Fragment loc)); [right | now left].
    eexists. reflexivity.
  - repeat split; apply queryByte_QueryEscape.
Qed.

Lemma makeWriteURL_query_shape_witness :
  exists front,
    "http://host:8086/api/v2/write?bucket=a%26x%3D1&org=o"
    = front +:+ "?bucket=" +:+ QueryEscape "a&x=1" +:+ "&org=" +:+ QueryEscape "o"
      +:+ fragmentSuffix Scenario.base
    /\ (forall org' bucket',
          makeWriteURL Scenario.base org' bucket'
          = inl (front +:+ "?bucket=" +:+ QueryEscape bucket' +:+ "&org=" +:+ QueryEscape org'
                 +:+ fragmentSuffix Scenario.base))
    /\ (fragmentSuffix Scenario.base = ""
        \/ exists text, fragmentSuffix Scenario.base = String "#" text)
    /\ forallb queryByte (list_ascii_of_string (QueryEscape "a&x=1")) = true
    /\ forallb queryByte (list_ascii_of_string (QueryEscape "o")) = true
    /\ forallb (fun c => negb (queryByte c)) (list_ascii_of_string "&=?#/ ") = true.
Proof.
  apply (makeWriteURL_query_shape Scenario.base "o" "a&x=1").
  reflexivity.
Defined.

(** X5: different destinations have different addresses.  For one
    base address, two pairs of organization and bucket that differ give
    write addresses that differ. *)
Theorem makeWriteURL_injective (loc : URL) (org bucket org' bucket' : string)
    (address address' : string) :
  makeWriteURL loc org bucket = inl address ->
  makeWriteURL loc org' bucket' = inl address' ->
  org <> org' \/ bucket <> bucket' ->
  address <> address'.
Proof.
  intros H H' Hne Heq. subst address'.
  destruct (makeWriteURL_front loc org bucket address H) as [front Hfront].
  rewrite Hfront in H, H'. rewrite <- H' in H. injection H as H.
  apply append_inv_head in H.
  apply (append_inv_head "?bucket=") in H.
  change ("&org=" +:+ QueryEscape org +:+ fragmentSuffix loc)
    with (String "&" ("org=" +:+ QueryEscape org +:+ fragmentSuffix loc)) in H.
  change ("&org=" +:+ QueryEscape org' +:+ fragmentSuffix loc)
    with (String "&" ("org=" +:+ QueryEscape org' +:+ fragmentSuffix loc)) in H.
  apply append_split_unique in H as [Hb Ho];
    try (apply queryByte_not; [reflexivity | apply queryByte_QueryEscape]).
  apply (append_inv_head "org=") in Ho. apply append_inv_tail in Ho.
  apply QueryEscape_inj in Hb, Ho. destruct Hne as [Hne | Hne]; congruence.
Qed.

Lemma makeWriteURL_injective_witness :
  "http://host:8086/api/v2/write?bucket=a+b&org=o"
  <> "http://host:8086/api/v2/write?bucket=a%2Bb&org=o".
Proof.
  apply (makeWriteURL_injective Scenario.base "o" "a b" "o" "a+b").
  - reflexivity.
  - reflexivity.
  - right. discriminate.
Defined.

(** ** Setting up the client and its requests *)

Lemma NewHTTPClient_url (productToken : string) (config : HTTPConfig) (c : httpClient) :
  NewHTTPClient productToken config = Some c ->
  cfgURL config = Some (url c) /\ supportedScheme (Scheme (url c)) = true
  /\ retryTime c = zeroTime /\ retryCount c = 0 /\ createBucketExecuted c = ∅.
Proof.
  unfold NewHTTPClient, supportedScheme. destruct (cfgURL config) as [u |]; [| discriminate].
  destruct (String.eqb (Scheme u) "http") eqn:E1;
    destruct (String.eqb (Scheme u) "https") eqn:E2;
    destruct (String.eqb (Scheme u) "unix") eqn:E3; cbn [orb];
    try discriminate; intros [= <-]; cbn; rewrite ?E1, ?E2, ?E3; repeat split.
Qed.

(** X6: [NewHTTPClient] gives a client exactly for a configuration
    with an address whose scheme is [unix], [http] or [https].  The client
    has that address; its timeout is never 0, 5 seconds standing in for a
    configured timeout of 0; it starts with the retry counter 0, the zero
    retry time and no bucket recorded as created; and each of the three
    URL builders gives an address for it. *)
Theorem NewHTTPClient_result (productToken : string) (config : HTTPConfig) :
  (is_Some (NewHTTPClient productToken config)
   <-> exists u, cfgURL config = Some u /\ supportedScheme (Scheme u) = true)
  /\ forall c : httpClient,
       NewHTTPClient productToken config = Some c ->
       cfgURL config = Some (url c)
       /\ Timeout c <> 0
       /\ (cfgTimeout config = 0 -> Timeout c = 5 * Second)
       /\ (cfgTimeout config <> 0 -> Timeout c = cfgTimeout config)
       /\ retryCount c = 0 /\ retryTime c = zeroTime /\ createBucketExecuted c = ∅
       /\ forall org bucket : string,
            exists write create lookup,
              makeWriteURL (url c) org bucket = inl write
              /\ makeCreateURL (url c) = inl create
              /\ makeOrgIDURL (url c) org = inl lookup.
Proof.
  split.
  - unfold NewHTTPClient, supportedScheme. split.
    + intros [c Hc]. destruct (cfgURL config) as [u |]; [| discriminate].
      exists u. split; [reflexivity |].
      destruct (String.eqb (Scheme u) "http"), (String.eqb (Scheme u) "https"),
        (String.eqb (Scheme u) "unix"); try reflexivity; discriminate.
    + intros (u & -> & Hu).
      destruct (String.eqb (Scheme u) "http"), (String.eqb (Scheme u) "https"),
        (String.eqb (Scheme u) "unix"); try discriminate; cbn [orb]; eexists; reflexivity.
  - intros c Hc.
    destruct (NewHTTPClient_url productToken config c Hc) as (Hu & Hs & Ht & Hn & He).
    split; [exact Hu |].
    assert (HT : Timeout c = if cfgTimeout config =? 0 then defaultRequestTimeout
                             else cfgTimeout config).
    { unfold NewHTTPClient in Hc. destruct (cfgURL config) as [u |]; [| discriminate].
      destruct (_ || _); [| discriminate]. now injection Hc as <-. }
    rewrite HT. destruct (Z.eqb_spec (cfgTimeout config) 0) as [E | E].
    + repeat split; try assumption; try (intros; congruence); try discriminate.
      intros org bucket. now apply builders_supported.
    + repeat split; try assumption; try (intros; congruence).
      intros org bucket. now apply builders_supported.
Qed.

Lemma NewHTTPClient_result_witness :
  (exists u, cfgURL Scenario.customConfig = Some u /\ supportedScheme (Scheme u) = true)
  /\ cfgURL Scenario.customConfig = Some (url Scenario.customClient)
  /\ Timeout Scenario.customClient <> 0
  /\ (cfgTimeout Scenario.customConfig = 0 -> Timeout Scenario.customClient = 5 * Second)
  /\ (cfgTimeout Scenario.customConfig <> 0 ->
      Timeout Scenario.customClient = cfgTimeout Scenario.customConfig)
  /\ retryCount Scenario.customClient = 0
  /\ retryTime Scenario.customClient = zeroTime
  /\ createBucketExecuted Scenario.customClient = ∅
  /\ forall org bucket : string,
       exists write create lookup,
         makeWriteURL (url Scenario.customClient) org bucket = inl write
         /\ makeCreateURL (url Scenario.customClient) = inl create
         /\ makeOrgIDURL (url Scenario.customClient) org = inl lookup.
Proof.
  assert (Hc : NewHTTPClient "Telegraf/1.14" Scenario.customConfig
               = Some Scenario.customClient) by (vm_compute; reflexivity).
  destruct (NewHTTPClient_result "Telegraf/1.14" Scenario.customConfig) as [Hiff Hfresh].
  split.
  - apply (proj1 Hiff). rewrite Hc. now exists Scenario.customClient.
  - exact (Hfresh Scenario.customClient Hc).
Defined.

(** X7: the headers of a new client are the configured headers
    together with [Authorization], which is [Token ] and the token, and
    [User-Agent], which is the configured user agent or, when that is
    empty, the product token; a configured header of one of these two
    names takes the place of the client's. *)
Theorem NewHTTPClient_headers (productToken : string) (config : HTTPConfig)
    (c : httpClient) (key : string) :
  NewHTTPClient productToken config = Some c ->
  Headers c !! key
  = match cfgHeaders config !! key with
    | Some value => Some value
    | None =>
        if String.eqb key "Authorization" then Some ("Token " +:+ cfgToken config)
        else if String.eqb key "User-Agent" then
          Some (if String.eqb (cfgUserAgent config) "" then productToken
                else cfgUserAgent config)
        else None
    end.
Proof.
  unfold NewHTTPClient. destruct (cfgURL config) as [u |]; [| discriminate].
  destruct (_ || _); [| discriminate]. intros [= <-]. cbn [Headers].
  rewrite lookup_union. destruct (cfgHeaders config !! key) as [value |].
  - now rewrite union_Some_l.
  - rewrite (left_id None _).
    destruct (String.eqb_spec key "Authorization") as [-> | Ha].
    + now rewrite lookup_insert_eq.
    + rewrite lookup_insert_ne by congruence.
      destruct (String.eqb_spec key "User-Agent") as [-> | Hu].
      * now rewrite lookup_insert_eq.
      * rewrite lookup_insert_ne by congruence. apply lookup_empty.
Qed.

Lemma NewHTTPClient_headers_witness :
  Headers Scenario.customClient !! "Content-Type" = Some "application/octet-stream"
  /\ Headers Scenario.customClient !! "Authorization" = Some "Token secret"
  /\ Headers Scenario.customClient !! "User-Agent" = Some "agent/2"
  /\ Headers (Scenario.clientWith "" false false) !! "User-Agent" = Some "Telegraf/1.14".
Proof.
  assert (Hc : NewHTTPClient "Telegraf/1.14" Scenario.customConfig
               = Some Scenario.customClient) by (vm_compute; reflexivity).
  assert (Hd : NewHTTPClient "Telegraf/1.14" (Scenario.configWith "" false false)
               = Some (Scenario.clientWith "" false false)) by reflexivity.
  split; [| split; [| split]].
  - exact (NewHTTPClient_headers _ _ _ "Content-Type" Hc).
  - exact (NewHTTPClient_headers _ _ _ "Authorization" Hc).
  - exact (NewHTTPClient_headers _ _ _ "User-Agent" Hc).
  - exact (NewHTTPClient_headers _ _ _ "User-Agent" Hd).
Defined.

Lemma addHeaders_union (c : httpClient) (h : gmap string string) :
  addHeaders c h = Headers c ∪ h.
Proof.
  unfold addHeaders, GoHTTP.Set'.
  apply (map_fold_weak_ind (fun r m => r = m ∪ h)).
  - now rewrite (left_id ∅ _).
  - intros k v m r Hk ->. now rewrite insert_union_l.
Qed.

Lemma lookup_union_match (m1 m2 : gmap string string) (k : string) :
  (m1 ∪ m2) !! k = match m1 !! k with Some v => Some v | None => m2 !! k end.
Proof.
  rewrite lookup_union. destruct (m1 !! k) as [v |].
  - now rewrite union_Some_l.
  - now rewrite (left_id None _).
Qed.

(** X8: the headers of a request, for a client whose header names are
    in canonical form.  Every header of the client is on the request with
    its value, also in place of the [Content-Type] and the [Accept] the
    client writes itself; only [Content-Encoding] is [gzip] for a
    compressing client whatever the headers of the client say.  A write
    names the content type [text/plain; charset=utf-8] and asks for no
    [Accept]; a request of the bucket manager asks for
    [application/json] and names that content type only when it has a
    body. *)
Theorem request_headers (env : Env) (c : httpClient) (method address : string)
    (body : GoHTTP.Payload) (key : string) :
  map_Forall (fun k _ => canonicalKey k = true) (Headers c) ->
  (forall req : GoHTTP.Request,
     makeWriteRequest env c address body = inl req ->
     GoHTTP.Method req = "POST" /\ GoHTTP.URL req = address /\ GoHTTP.ReqBody req = body
     /\ GoHTTP.ReqHeader req !! key
        = if String.eqb (ContentEncoding c) "gzip" && String.eqb key "Content-Encoding"
          then Some "gzip"
          else match Headers c !! key with
               | Some value => Some value
               | None =>
                   if String.eqb key "Content-Type" then Some "text/plain; charset=utf-8"
                   else None
               end)
  /\ (forall req : GoHTTP.Request,
        makeAPIRequest env c method address body = inl req ->
        GoHTTP.Method req = method /\ GoHTTP.URL req = address /\ GoHTTP.ReqBody req = body
        /\ GoHTTP.ReqHeader req !! key
           = if String.eqb (ContentEncoding c) "gzip" && String.eqb key "Content-Encoding"
             then Some "gzip"
             else match Headers c !! key with
                  | Some value => Some value
                  | None =>
                      if String.eqb key "Accept" then Some "application/json"
                      else if String.eqb key "Content-Type" then
                        match body with
                        | GoHTTP.NoBody => None
                        | _ => Some "application/json"
                        end
                      else None
                  end).
Proof.
  intros _. split.
  - intros req. unfold makeWriteRequest.
    destruct (newRequestError env "POST" address); [discriminate |]. intros [= <-].
    cbn [GoHTTP.Method GoHTTP.URL GoHTTP.ReqBody GoHTTP.ReqHeader]. repeat split.
    rewrite addHeaders_union. unfold GoHTTP.Set'.
    destruct (String.eqb (ContentEncoding c) "gzip"); cbn [andb].
    + destruct (String.eqb_spec key "Content-Encoding") as [-> | Hk].
      * now rewrite lookup_insert_eq.
      * rewrite lookup_insert_ne by congruence. rewrite lookup_union_match.
        destruct (Headers c !! key); [reflexivity |].
        destruct (String.eqb_spec key "Content-Type") as [-> | Ht].
        -- now rewrite lookup_insert_eq.
        -- rewrite lookup_insert_ne by congruence. apply lookup_empty.
    + rewrite lookup_union_match.
      destruct (Headers c !! key); [reflexivity |].
      destruct (String.eqb_spec key "Content-Type") as [-> | Ht].
      * now rewrite lookup_insert_eq.
      * rewrite lookup_insert_ne by congruence. apply lookup_empty.
  - intros req. unfold makeAPIRequest.
    destruct (newRequestError env method address); [discriminate |]. intros [= <-].
    cbn [GoHTTP.Method GoHTTP.URL GoHTTP.ReqBody GoHTTP.ReqHeader]. repeat split.
    rewrite addHeaders_union. unfold GoHTTP.Set'.
    assert (Hown : (<["Accept" := "application/json"]>
                      (match body with
                       | GoHTTP.NoBody => ∅
                       | _ => <["Content-Type" := "application/json"]> ∅
                       end) : gmap string string) !! key
                   = if String.eqb key "Accept" then Some "application/json"
                     else if String.eqb key "Content-Type" then
                       match body with
                       | GoHTTP.NoBody => None
                       | _ => Some "application/json"
                       end
                     else None).
    { destruct (String.eqb_spec key "Accept") as [-> | Ha].
      - now rewrite lookup_insert_eq.
      - rewrite lookup_insert_ne by congruence.
        destruct (String.eqb_spec key "Content-Type") as [-> | Ht].
        + destruct body; [apply lookup_empty | |]; now rewrite lookup_insert_eq.
        + destruct body; [apply lookup_empty | |];
            (rewrite lookup_insert_ne by congruence; apply lookup_empty). }
    destruct (String.eqb (ContentEncoding c) "gzip"); cbn [andb].
    + destruct (String.eqb_spec key "Content-Encoding") as [-> | Hk].
      * now rewrite lookup_insert_eq.
      * rewrite lookup_insert_ne by congruence. rewrite lookup_union_match, Hown.
        reflexivity.
    + rewrite lookup_union_match, Hown. reflexivity.
Qed.

Lemma request_headers_witness :
  (GoHTTP.Method (Scenario.writeRequest "default" []) = "POST"
   /\ GoHTTP.URL (Scenario.writeRequest "default" [])
      = "http://host:8086/api/v2/write?bucket=default&org=o"
   /\ GoHTTP.ReqBody (Scenario.writeRequest "default" []) = GoHTTP.LineProtocol false []
   /\ GoHTTP.ReqHeader (Scenario.writeRequest "default" []) !! "Authorization"
      = Some "Token secret")
  /\ forall req : GoHTTP.Request,
       makeAPIRequest Scenario.healthy Scenario.customClient "POST"
         "http://host:8086/api/v2/buckets"
         (GoHTTP.CreateBucketJSON (mkCreateBucketRequest "a" "0a1b")) = inl req ->
       GoHTTP.Method req = "POST" /\ GoHTTP.URL req = "http://host:8086/api/v2/buckets"
       /\ GoHTTP.ReqBody req = GoHTTP.CreateBucketJSON (mkCreateBucketRequest "a" "0a1b")
       /\ GoHTTP.ReqHeader req !! "Content-Type" = Some "application/octet-stream".
Proof.
  split.
  - assert (Hkeys : map_Forall (fun k _ => canonicalKey k = true)
                      (Headers (client Scenario.unrouted))).
    { apply map_Forall_to_list. vm_compute. repeat constructor. }
    apply (proj1 (request_headers Scenario.healthy (client Scenario.unrouted) "POST"
                    "http://host:8086/api/v2/write?bucket=default&org=o"
                    (GoHTTP.LineProtocol false []) "Authorization" Hkeys)).
    vm_compute. reflexivity.
  - assert (Hkeys : map_Forall (fun k _ => canonicalKey k = true)
                      (Headers Scenario.customClient)).
    { apply map_Forall_to_list. vm_compute. repeat constructor. }
    exact (proj2 (request_headers Scenario.healthy Scenario.customClient "POST"
                    "http://host:8086/api/v2/buckets"
                    (GoHTTP.CreateBucketJSON (mkCreateBucketRequest "a" "0a1b"))
                    "Content-Type" Hkeys)).
Defined.

(** ** The range of the back-off *)

Lemma delaySeconds_bounds (count : Z) (retryAfter : Q) :
  0 <= delaySeconds count retryAfter <= 60.
Proof.
  unfold delaySeconds. split.
  - rewrite <- (Qfloor_Z 0). apply Qfloor_resp_le. apply Q.min_glb; [| discriminate].
    eapply Qle_trans; [apply backoff_nonneg | apply Q.le_max_l].
  - rewrite <- (Qfloor_Z 60). apply Qfloor_resp_le. apply Q.le_min_r.
Qed.

Lemma backoff_le (n m : Z) :
  Z.abs n <= Z.abs m -> (backoffSeconds n <= backoffSeconds m)%Q.
Proof.
  intros H. unfold backoffSeconds, Qdiv. apply Qmult_le_compat_r; [| discriminate].
  rewrite <- Zle_Qle.
  replace (n ^ 2) with (n * n) by ring. replace (m ^ 2) with (m * m) by ring. nia.
Qed.

Lemma delaySeconds_mono (n m : Z) (r r' : Q) :
  Z.abs n <= Z.abs m -> (r <= r')%Q -> delaySeconds n r <= delaySeconds m r'.
Proof.
  intros Hnm Hr. unfold delaySeconds. apply Qfloor_resp_le.
  apply Q.min_le_compat_r. apply Q.max_le_compat; [now apply backoff_le | exact Hr].
Qed.

Lemma delaySeconds_raise (n : Z) (r : Q) :
  delaySeconds n (inject_Z 0) <= delaySeconds n r.
Proof.
  unfold delaySeconds. apply Qfloor_resp_le. apply Q.min_le_compat_r.
  apply Q.max_lub; [apply Q.le_max_l |].
  eapply Qle_trans; [apply backoff_nonneg | apply Q.le_max_l].
Qed.

Lemma backoff_49 (n : Z) : 49 <= Z.abs n -> (inject_Z 60 <= backoffSeconds n)%Q.
Proof.
  intros H. eapply Qle_trans; [| apply (backoff_le 49 n); simpl; lia].
  unfold backoffSeconds. discriminate.
Qed.

Lemma delaySeconds_cap (n : Z) (r : Q) : 49 <= Z.abs n -> delaySeconds n r = 60.
Proof.
  intros H. unfold delaySeconds. transitivity (Qfloor (inject_Z 60)); [| apply Qfloor_Z].
  apply Qfloor_comp. apply Q.min_r. eapply Qle_trans; [apply (backoff_49 n H) | apply Q.le_max_l].
Qed.

Lemma Qfloor_div40 (m : Z) : Qfloor (inject_Z m / inject_Z 40) = m / 40.
Proof.
  unfold Qdiv, Qmult, Qinv, inject_Z, Qfloor. cbn. now rewrite Z.mul_1_r.
Qed.

Lemma delaySeconds_plain (n : Z) :
  Z.abs n <= 48 -> delaySeconds n (inject_Z 0) = n * n / 40 /\ n * n / 40 <= 57.
Proof.
  intros H. unfold delaySeconds.
  assert (Hb : (backoffSeconds n <= backoffSeconds 48)%Q) by (apply backoff_le; simpl; lia).
  assert (E : (Qmin (Qmax (backoffSeconds n) (inject_Z 0)) (inject_Z 60) == backoffSeconds n)%Q).
  { rewrite (Q.max_l _ _ (backoff_nonneg n)). apply Q.min_l.
    eapply Qle_trans; [exact Hb |]. unfold backoffSeconds. discriminate. }
  rewrite (Qfloor_comp _ _ E). unfold backoffSeconds. rewrite Qfloor_div40.
  replace (n ^ 2) with (n * n) by ring. split; [reflexivity |].
  assert (n * n <= 48 * 48) by nia.
  change 57 with (48 * 48 / 40). apply Z.div_le_mono; lia.
Qed.

Lemma toInt64_seconds (u : Z) (q : Q) :
  0 <= Qfloor q <= 60 -> (0 <= q)%Q ->
  wrap64 (toInt64 u (FFinite q) * Second) = Qfloor q * Second.
Proof.
  intros Hk Hq. unfold toInt64, truncate.
  assert (E0 : Qle_bool 0 q = true) by now apply Qle_bool_iff.
  rewrite E0.
  assert (E1 : (- 2 ^ 63 <=? Qfloor q) && (Qfloor q <? 2 ^ 63) = true).
  { apply andb_true_intro.
    split; [apply Z.leb_le | apply Z.ltb_lt];
      change (2 ^ 63) with 9223372036854775808; lia. }
  rewrite E1. apply wrap64_small. unfold Second.
  change (2 ^ 63) with 9223372036854775808. lia.
Qed.

(** Unless the header parses to NaN, [getRetryDuration] is the delay of
    the specification for the clamped header. *)
Lemma getRetryDuration_clamped (env : Env) (c : httpClient) (headers : gmap string string) :
  ParseFloat env (GoHTTP.Get headers "Retry-After") <> Some FNaN ->
  getRetryDuration env c headers
  = delaySeconds (retryCount c) (retryAfterClamped env headers) * Second.
Proof.
  intros Hnan. unfold retryAfterClamped.
  destruct (retryAfterSeconds env headers) as [q |] eqn:Hhint.
  { now apply getRetryDuration_delay. }
  unfold retryAfterSeconds in Hhint. unfold getRetryDuration.
  unfold GoHTTP.Get in *.
  destruct (headers !! "Retry-After") as [value |]; cbn [default from_option id] in *;
    [| discriminate].
  destruct value as [| ch value]; [discriminate |].
  replace (0 <? Z.of_nat (String.length (String ch value))) with true
    by (symmetry; apply Z.ltb_lt; cbn [String.length]; lia).
  destruct (ParseFloat env (String ch value)) as [[q | [] |] |];
    try discriminate; try congruence.
  - (* -Inf: the back-off alone *)
    unfold ofInt, Pow2, div40, Max, Min, defaultMaxWait.
    pose proof (backoff_exact (retryCount c)) as Heq.
    pose proof (backoff_nonneg (retryCount c)) as Hpos.
    set (a := (inject_Z (retryCount c) * inject_Z (retryCount c) / inject_Z 40)%Q) in *.
    assert (Hq : ((if Qle_bool a (inject_Z 60) then a else inject_Z 60)
                  == Qmin (Qmax (backoffSeconds (retryCount c)) (inject_Z 0)) (inject_Z 60))%Q
                 /\ (0 <= (if Qle_bool a (inject_Z 60) then a else inject_Z 60))%Q).
    { rewrite (Q.max_l _ _ Hpos), <- Heq.
      destruct (Qle_bool a (inject_Z 60)) eqn:E.
      - apply Qle_bool_iff in E. split; [symmetry; now apply Q.min_l | now rewrite Heq].
      - split; [| discriminate]. symmetry. apply Q.min_r. apply Qlt_le_weak, Qnot_le_lt.
        intros H. apply Qle_bool_iff in H. congruence. }
    destruct Hq as [Hq Hq0].
    pose proof (delaySeconds_bounds (retryCount c) (inject_Z 0)) as Hb.
    unfold delaySeconds in *. rewrite <- (Qfloor_comp _ _ Hq) in *.
    apply toInt64_seconds; assumption.
  - (* +Inf: the upper bound *)
    unfold ofInt, Pow2, div40, Max, Min, defaultMaxWait.
    assert (E : delaySeconds (retryCount c) (inject_Z 60) = 60).
    { unfold delaySeconds. transitivity (Qfloor (inject_Z 60)); [| apply Qfloor_Z].
      apply Qfloor_comp. apply Q.min_r. apply Q.le_max_r. }
    rewrite E. reflexivity.
Qed.

Lemma retryAfterSeconds_absent (env : Env) (headers : gmap string string) :
  headers !! "Retry-After" = None -> retryAfterSeconds env headers = Some (inject_Z 0).
Proof. unfold retryAfterSeconds. now intros ->. Qed.

(** X9: unless the [Retry-After] header parses to NaN, the delay is a
    whole number of seconds between 0 and [defaultMaxWait], whatever the
    retry counter and the header are. *)
Theorem getRetryDuration_bounds (env : Env) (c : httpClient) (headers : gmap string string) :
  ParseFloat env (GoHTTP.Get headers "Retry-After") <> Some FNaN ->
  exists seconds : Z,
    0 <= seconds <= defaultMaxWait
    /\ getRetryDuration env c headers = seconds * Second.
Proof.
  intros Hnan. exists (delaySeconds (retryCount c) (retryAfterClamped env headers)).
  split; [apply delaySeconds_bounds | now apply getRetryDuration_clamped].
Qed.

Lemma getRetryDuration_bounds_witness :
  exists seconds : Z,
    0 <= seconds <= defaultMaxWait
    /\ getRetryDuration Scenario.healthy (client Scenario.afterThirtyThrottles)
         {["Retry-After" := "120"]} = seconds * Second.
Proof.
  apply (getRetryDuration_bounds Scenario.healthy (client Scenario.afterThirtyThrottles)
           {["Retry-After" := "120"]}).
  vm_compute. discriminate.
Defined.

(** X10: where the back-off meets its bound.  From a retry counter of
    49 on the delay is 60 seconds (unless the header parses to NaN); up to
    48 and without a [Retry-After] header it is the square of the counter
    over 40, cut down to whole seconds, which is at most 57. *)
Theorem getRetryDuration_cap (env : Env) (c : httpClient) (headers : gmap string string) :
  (ParseFloat env (GoHTTP.Get headers "Retry-After") <> Some FNaN ->
   49 <= Z.abs (retryCount c) ->
   getRetryDuration env c headers = 60 * Second)
  /\ (headers !! "Retry-After" = None ->
      Z.abs (retryCount c) <= 48 ->
      getRetryDuration env c headers = retryCount c * retryCount c / 40 * Second
      /\ getRetryDuration env c headers <= 57 * Second).
Proof.
  split.
  - intros Hnan Hcount. rewrite getRetryDuration_clamped by exact Hnan.
    now rewrite delaySeconds_cap.
  - intros Hnone Hcount.
    rewrite (getRetryDuration_delay env c headers (inject_Z 0))
      by now apply retryAfterSeconds_absent.
    destruct (delaySeconds_plain (retryCount c) Hcount) as [-> Hle].
    split; [reflexivity |]. unfold Second. lia.
Qed.

Lemma getRetryDuration_cap_witness :
  getRetryDuration Scenario.healthy (set_retryCount 49 (client Scenario.unrouted)) ∅
  = 60 * Second
  /\ getRetryDuration Scenario.healthy (set_retryCount 48 (client Scenario.unrouted)) ∅
     = 57 * Second
  /\ getRetryDuration Scenario.healthy (set_retryCount 48 (client Scenario.unrouted)) ∅
     <= 57 * Second.
Proof.
  split.
  - apply (proj1 (getRetryDuration_cap Scenario.healthy
                    (set_retryCount 49 (client Scenario.unrouted)) ∅)).
    + vm_compute. discriminate.
    + vm_compute. discriminate.
  - apply (proj2 (getRetryDuration_cap Scenario.healthy
                    (set_retryCount 48 (client Scenario.unrouted)) ∅)).
    + reflexivity.
    + vm_compute. discriminate.
Defined.

(** X11: the delay does not shrink.  Unless the header parses to NaN,
    a [Retry-After] header never makes the delay shorter than it is
    without the header, and a larger retry counter never makes it shorter
    than a smaller one. *)
Theorem getRetryDuration_monotone (env : Env) (c c' : httpClient)
    (headers : gmap string string) :
  ParseFloat env (GoHTTP.Get headers "Retry-After") <> Some FNaN ->
  0 <= retryCount c <= retryCount c' ->
  getRetryDuration env c ∅ <= getRetryDuration env c headers
  /\ getRetryDuration env c headers <= getRetryDuration env c' headers.
Proof.
  intros Hnan Hcount. rewrite !(getRetryDuration_clamped env _ headers) by exact Hnan.
  rewrite (getRetryDuration_delay env c ∅ (inject_Z 0))
    by (apply retryAfterSeconds_absent; apply lookup_empty).
  split; (apply Z.mul_le_mono_nonneg_r; [unfold Second; lia |]).
  - apply delaySeconds_raise.
  - apply delaySeconds_mono; [lia | apply Qle_refl].
Qed.

Lemma getRetryDuration_monotone_witness :
  getRetryDuration Scenario.healthy (client Scenario.afterThreeThrottles) ∅
  <= getRetryDuration Scenario.healthy (client Scenario.afterThreeThrottles)
       {["Retry-After" := "7"]}
  /\ getRetryDuration Scenario.healthy (client Scenario.afterThreeThrottles)
       {["Retry-After" := "7"]}
     <= getRetryDuration Scenario.healthy (client Scenario.afterThirtyThrottles)
          {["Retry-After" := "7"]}.
Proof.
  apply (getRetryDuration_monotone Scenario.healthy (client Scenario.afterThreeThrottles)
           (client Scenario.afterThirtyThrottles) {["Retry-After" := "7"]}).
  - vm_compute. discriminate.
  - vm_compute. split; discriminate.
Defined.

(** ** The bucket manager, request by request *)

Lemma lookupResult_found (c : httpClient) (resp : GoHTTP.Response) (id : string) :
  lookupResult c resp = (id, None) <->
  exists text,
    GoHTTP.StatusCode resp = 200
    /\ GoHTTP.readAll (GoHTTP.Body resp) = inl text
    /\ (text = "" \/ GoHTTP.jsonValid (GoHTTP.Body resp) = true)
    /\ GoHTTP.decodeOrgs (GoHTTP.Body resp) = Some [mkOrgInfo id].
Proof.
  unfold lookupResult, validateResponse. split.
  - destruct (GoHTTP.readAll (GoHTTP.Body resp)) as [text | err]; [| discriminate].
    assert (Hdec :
      match from_option GoHTTP.decodeOrgs None (Some (GoHTTP.Body resp)) with
      | Some [org] =>
          if GoHTTP.StatusCode resp =? 200 then (Id org, None)
          else ("", Some (ErrOrgID (Organization c)))
      | Some _ => ("", Some (ErrOrgID (Organization c)))
      | None => ("", Some ErrDecode)
      end = (id, None) ->
      GoHTTP.StatusCode resp = 200
      /\ GoHTTP.decodeOrgs (GoHTTP.Body resp) = Some [mkOrgInfo id]).
    { cbn [from_option].
      destruct (GoHTTP.decodeOrgs (GoHTTP.Body resp)) as [[| [i] [| org' orgs]] |];
        try discriminate.
      destruct (Z.eqb_spec (GoHTTP.StatusCode resp) 200); [| discriminate].
      cbn. intros [= ->]. now split. }
    destruct (String.eqb_spec text "") as [-> | Hne].
    + intros H. destruct (Hdec H) as [H1 H2]. exists "". repeat split; auto.
    + destruct (GoHTTP.jsonValid (GoHTTP.Body resp)) eqn:Hv; cbn [negb]; [| discriminate].
      intros H. destruct (Hdec H) as [H1 H2]. exists text. repeat split; auto.
  - intros (text & Hcode & Hread & Hvalid & Hdec). rewrite Hread.
    assert (E : (if String.eqb text "" then (Some (GoHTTP.Body resp), None)
                 else if negb (GoHTTP.jsonValid (GoHTTP.Body resp))
                      then (Some (GoHTTP.Body resp), Some text)
                      else (Some (GoHTTP.Body resp), None))
                = (Some (GoHTTP.Body resp), @None string)).
    { destruct Hvalid as [-> | ->]; [reflexivity |]. now destruct (String.eqb text ""). }
    rewrite E. cbn [from_option]. rewrite Hdec, Hcode. reflexivity.
Qed.

Lemma lookupResult_error (c : httpClient) (resp : GoHTTP.Response) :
  snd (lookupResult c resp) <> None -> fst (lookupResult c resp) = "".
Proof.
  unfold lookupResult.
  destruct (validateResponse (GoHTTP.Body resp)) as [body [err |]]; [reflexivity |].
  destruct (from_option GoHTTP.decodeOrgs None body) as [[| org [| org' orgs]] |];
    try reflexivity.
  destruct (GoHTTP.StatusCode resp =? 200); [now cbn | reflexivity].
Qed.

(** X12: [getOrgID] hands back an ID exactly when the lookup went out
    and was answered with status 200 and a body that reads, is empty or
    valid JSON, and decodes to one organization; the ID is that
    organization's.  In every other case it hands back the empty ID with
    an error. *)
Theorem getOrgID_found (env : Env) (s : State) :
  (forall id : string,
     fst (getOrgID env s) = (id, None) <->
     exists req resp text,
       lookupRequestOf env (client s) = inl req
       /\ answer env s req = inr resp
       /\ GoHTTP.StatusCode resp = 200
       /\ GoHTTP.readAll (GoHTTP.Body resp) = inl text
       /\ (text = "" \/ GoHTTP.jsonValid (GoHTTP.Body resp) = true)
       /\ GoHTTP.decodeOrgs (GoHTTP.Body resp) = Some [mkOrgInfo id])
  /\ (snd (fst (getOrgID env s)) <> None -> fst (fst (getOrgID env s)) = "").
Proof.
  destruct (lookupRequestOf env (client s)) as [req | err] eqn:Hreq.
  - destruct (answer env s req) as [msg | resp] eqn:Hans.
    + rewrite (getOrgID_transport_error env s req msg Hreq Hans). cbn [fst snd]. split.
      * intros id. split; [discriminate |].
        intros (req' & resp & text & [= <-] & Hans' & _). congruence.
      * reflexivity.
    + rewrite (getOrgID_sent env s req resp Hreq Hans). cbn [fst snd]. split.
      * intros id. rewrite lookupResult_found. split.
        -- intros (text & H). exists req, resp, text. now repeat split.
        -- intros (req' & resp' & text & [= <-] & Hans' & H).
           rewrite Hans in Hans'. injection Hans' as <-. now exists text.
      * apply lookupResult_error.
  - rewrite (getOrgID_not_sent env s err Hreq). cbn [fst snd]. split.
    + intros id. split; [discriminate |]. now intros (req & resp & text & [=] & _).
    + reflexivity.
Qed.

Lemma getOrgID_found_witness :
  fst (getOrgID Scenario.healthy Scenario.routed) = ("0a1b", None).
Proof.
  apply (proj1 (getOrgID_found Scenario.healthy Scenario.routed) "0a1b").
  exists (GoHTTP.mkRequest "GET" "http://host:8086/api/v2/orgs?limit=1&org=o"
            (<["Accept" := "application/json"]>
               (<["Authorization" := "Token secret"]> (<["User-Agent" := "Telegraf/1.14"]> ∅)))
            GoHTTP.NoBody),
    Scenario.orgsOK, "{orgs}".
  vm_compute. repeat split. now right.
Defined.

(** X13: a lookup whose answer does not read, or reads as text that is
    not JSON, fails with an [APIError] that carries the status of the
    answer and, in its description, the error of reading or the text
    itself, whatever the status is; the round trip is all that
    happened. *)
Theorem getOrgID_invalid_body (env : Env) (s : State) (req : GoHTTP.Request)
    (resp : GoHTTP.Response) (text : string) :
  lookupRequestOf env (client s) = inl req ->
  answer env s req = inr resp ->
  GoHTTP.readAll (GoHTTP.Body resp) = inr text
  \/ (GoHTTP.readAll (GoHTTP.Body resp) = inl text /\ text <> ""
      /\ GoHTTP.jsonValid (GoHTTP.Body resp) = false) ->
  getOrgID env s
  = (("", Some (ErrAPI (mkAPIError (GoHTTP.StatusCode resp) (GoHTTP.Status resp)
                          (lookupErrorText (Organization (client s)) text)))),
     afterRoundTrip env s req)
  /\ client (afterRoundTrip env s req) = client s
  /\ trace (world (afterRoundTrip env s req))
     = (trace (world s) ++ [EvRoundTrip req (inr resp)])%list.
Proof.
  intros Hreq Hans Hbody. rewrite (getOrgID_sent env s req resp Hreq Hans).
  unfold afterRoundTrip. rewrite Do_state, Hans. cbn [snd client world trace].
  repeat split. f_equal. unfold lookupResult, validateResponse.
  destruct Hbody as [-> | (-> & Hne & ->)]; [reflexivity |].
  destruct (String.eqb_spec text ""); [contradiction | reflexivity].
Qed.

Lemma getOrgID_invalid_body_witness :
  getOrgID Scenario.behindProxy Scenario.routed
  = (("", Some (ErrAPI (mkAPIError 502 "502 Bad Gateway"
                          (lookupErrorText "o" "<html>Bad Gateway</html>")))),
     afterRoundTrip Scenario.behindProxy Scenario.routed Scenario.lookupRequest)
  /\ client (afterRoundTrip Scenario.behindProxy Scenario.routed Scenario.lookupRequest) = client Scenario.routed
  /\ trace (world (afterRoundTrip Scenario.behindProxy Scenario.routed Scenario.lookupRequest))
     = (trace (world Scenario.routed) ++ [EvRoundTrip Scenario.lookupRequest (inr Scenario.badGateway)])%list.
Proof.
  apply (getOrgID_invalid_body Scenario.behindProxy Scenario.routed Scenario.lookupRequest Scenario.badGateway
           "<html>Bad Gateway</html>").
  - vm_compute. reflexivity.
  - vm_compute. reflexivity.
  - right. repeat split. discriminate.
Defined.

(** X14: [CreateBucket] returns nil exactly when the lookup gave an
    ID, the creation request went out and was answered with 201; any
    other answer, 200 and 422 included, is an error. *)
Theorem CreateBucket_created (env : Env) (bucket : string) (s : State) :
  fst (CreateBucket env bucket s) = None <->
  exists id req resp,
    fst (getOrgID env s) = (id, None)
    /\ creationRequestOf env (client s) bucket id = inl req
    /\ answer env (snd (getOrgID env s)) req = inr resp
    /\ GoHTTP.StatusCode resp = 201.
Proof.
  destruct (fst (getOrgID env s)) as [id [err |]] eqn:Hid.
  - rewrite (CreateBucket_lookup_failed env bucket s err) by now rewrite Hid.
    split; [discriminate |]. now intros (id' & req & resp & [=] & _).
  - destruct (creationRequestOf env (client s) bucket id) as [req | err] eqn:Hreq.
    + rewrite (CreateBucket_sent env bucket s id req Hid Hreq).
      destruct (answer env (snd (getOrgID env s)) req) as [msg | resp] eqn:Hans.
      * split; [discriminate |].
        intros (id' & req' & resp & [= <-] & Hreq' & Hans' & _).
        rewrite Hreq in Hreq'. injection Hreq' as <-. congruence.
      * destruct (Z.eqb_spec (GoHTTP.StatusCode resp) 201) as [E | E].
        -- split; [| reflexivity]. intros _. now exists id, req, resp.
        -- split; [discriminate |].
           intros (id' & req' & resp' & [= <-] & Hreq' & Hans' & Hcode).
           rewrite Hreq in Hreq'. injection Hreq' as <-.
           rewrite Hans in Hans'. injection Hans' as <-. contradiction.
    + rewrite (CreateBucket_not_sent env bucket s id err Hid Hreq).
      split; [discriminate |].
      intros (id' & req & resp & [= <-] & Hreq' & _). congruence.
Qed.

Lemma CreateBucket_created_witness :
  fst (CreateBucket Scenario.healthy "a" Scenario.routed) = None.
Proof.
  apply (proj2 (CreateBucket_created Scenario.healthy "a" Scenario.routed)).
  exists "0a1b", (Scenario.creationRequest "a"), (Scenario.created "a").
  vm_compute. repeat split.
Defined.

(** X15: the order of [CreateBucket].  The lookup of the organization,
    a GET without body to the address of [makeOrgIDURL], comes first, in
    every call: the ID is not kept.  When the lookup fails its error is
    the error of [CreateBucket] and no creation is asked for; when it
    gives an ID the creation request follows at once, a POST to the
    address of [makeCreateURL] with the bucket's name and that ID. *)
Theorem CreateBucket_protocol (env : Env) (bucket : string) (s : State)
    (lookup : GoHTTP.Request) :
  lookupRequestOf env (client s) = inl lookup ->
  (GoHTTP.Method lookup = "GET"
   /\ makeOrgIDURL (url (client s)) (Organization (client s)) = inl (GoHTTP.URL lookup)
   /\ GoHTTP.ReqBody lookup = GoHTTP.NoBody)
  /\ (forall err : error,
     snd (fst (getOrgID env s)) = Some err ->
     fst (CreateBucket env bucket s) = Some err
     /\ exists tail,
          happened s (snd (CreateBucket env bucket s))
            (EvRoundTrip lookup (answer env s lookup) :: tail)
          /\ Forall (fun ev => exists msg, ev = EvOnClientError msg) tail)
  /\ (forall (id : string) (creation : GoHTTP.Request),
        fst (getOrgID env s) = (id, None) ->
        creationRequestOf env (client s) bucket id = inl creation ->
        GoHTTP.Method creation = "POST"
        /\ makeCreateURL (url (client s)) = inl (GoHTTP.URL creation)
        /\ GoHTTP.ReqBody creation
           = GoHTTP.CreateBucketJSON (mkCreateBucketRequest bucket id)
        /\ exists tail,
             happened s (snd (CreateBucket env bucket s))
               (EvRoundTrip lookup (answer env s lookup)
                :: EvRoundTrip creation (answer env (snd (getOrgID env s)) creation) :: tail)
             /\ Forall (fun ev => exists msg, ev = EvOnClientError msg) tail).
Proof.
  intros Hlookup.
  assert (Hfirst : exists tail,
    happened s (snd (getOrgID env s)) (EvRoundTrip lookup (answer env s lookup) :: tail)
    /\ Forall (fun ev => exists msg, ev = EvOnClientError msg) tail
    /\ (snd (fst (getOrgID env s)) = None -> tail = [])).
  { destruct (answer env s lookup) as [msg | resp] eqn:Hans.
    - rewrite (getOrgID_transport_error env s lookup msg Hlookup Hans).
      exists [EvOnClientError msg]. unfold afterRoundTrip, happened.
      rewrite Do_state, Hans. munfold. rewrite <- app_assoc.
      repeat split; [| discriminate]. repeat constructor. now exists msg.
    - rewrite (getOrgID_sent env s lookup resp Hlookup Hans).
      exists []. unfold afterRoundTrip, happened. rewrite Do_state, Hans.
      cbn [snd world trace]. repeat split. constructor. }
  destruct Hfirst as (tail & Hd & Htail & Hnone).
  split; [exact (lookupRequestOf_request env (client s) lookup Hlookup) |]. split.
  - intros err Herr. rewrite (CreateBucket_lookup_failed env bucket s err Herr).
    split; [reflexivity |]. exists tail. now split.
  - intros id creation Hid Hreq.
    destruct (creationRequestOf_request env (client s) bucket id creation Hreq)
      as (Hm & Hu & Hb).
    repeat split; try assumption.
    rewrite (Hnone ltac:(now rewrite Hid)) in Hd.
    rewrite (CreateBucket_sent env bucket s id creation Hid Hreq).
    unfold happened in *. unfold afterRoundTrip. rewrite Do_state.
    destruct (answer env (snd (getOrgID env s)) creation) as [msg | resp].
    + exists [EvOnClientError msg]. munfold. rewrite Hd, <- !app_assoc.
      split; [reflexivity |]. repeat constructor. now exists msg.
    + exists []. split; [| constructor].
      destruct (GoHTTP.StatusCode resp =? 201); cbn [snd world trace];
        now rewrite Hd, <- !app_assoc.
Qed.

Lemma CreateBucket_protocol_witness :
  (GoHTTP.Method Scenario.lookupRequest = "GET"
   /\ makeOrgIDURL (url (client Scenario.routed)) (Organization (client Scenario.routed))
      = inl (GoHTTP.URL Scenario.lookupRequest)
   /\ GoHTTP.ReqBody Scenario.lookupRequest = GoHTTP.NoBody)
  /\ (fst (CreateBucket Scenario.behindProxy "a" Scenario.routed)
      = Some (ErrAPI (mkAPIError 502 "502 Bad Gateway"
                        (lookupErrorText "o" "<html>Bad Gateway</html>")))
      /\ exists tail,
           happened Scenario.routed (snd (CreateBucket Scenario.behindProxy "a" Scenario.routed))
             (EvRoundTrip Scenario.lookupRequest (answer Scenario.behindProxy Scenario.routed Scenario.lookupRequest)
              :: tail)
           /\ Forall (fun ev => exists msg, ev = EvOnClientError msg) tail)
  /\ (GoHTTP.Method (Scenario.creationRequest "a") = "POST"
      /\ makeCreateURL (url (client Scenario.routed)) = inl (GoHTTP.URL (Scenario.creationRequest "a"))
      /\ GoHTTP.ReqBody (Scenario.creationRequest "a")
         = GoHTTP.CreateBucketJSON (mkCreateBucketRequest "a" "0a1b")
      /\ exists tail,
           happened Scenario.routed (snd (CreateBucket Scenario.existing "a" Scenario.routed))
             (EvRoundTrip Scenario.lookupRequest (answer Scenario.existing Scenario.routed Scenario.lookupRequest)
              :: EvRoundTrip (Scenario.creationRequest "a")
                   (answer Scenario.existing (snd (getOrgID Scenario.existing Scenario.routed))
                      (Scenario.creationRequest "a")) :: tail)
           /\ Forall (fun ev => exists msg, ev = EvOnClientError msg) tail).
Proof.
  assert (Hproxy : lookupRequestOf Scenario.behindProxy (client Scenario.routed) = inl Scenario.lookupRequest)
    by (vm_compute; reflexivity).
  assert (Hexisting : lookupRequestOf Scenario.existing (client Scenario.routed) = inl Scenario.lookupRequest)
    by (vm_compute; reflexivity).
  destruct (CreateBucket_protocol Scenario.behindProxy "a" Scenario.routed Scenario.lookupRequest Hproxy)
    as (Hlookup & Hfailed & _).
  destruct (CreateBucket_protocol Scenario.existing "a" Scenario.routed Scenario.lookupRequest Hexisting)
    as (_ & _ & Hfound).
  split; [exact Hlookup |]. split.
  - apply Hfailed. vm_compute. reflexivity.
  - apply (Hfound "0a1b").
    + vm_compute. reflexivity.
    + vm_compute. reflexivity.
Defined.

(** ** The failures of a write *)

Lemma afterRoundTrip_state (env : Env) (s : State) (req : GoHTTP.Request) :
  client (afterRoundTrip env s req) = client s
  /\ store (world (afterRoundTrip env s req)) = store (world s)
  /\ trace (world (afterRoundTrip env s req))
     = (trace (world s) ++ [EvRoundTrip req (answer env s req)])%list
  /\ now (world (afterRoundTrip env s req))
     = now (world s) + elapsed (transport env (trace (world s)) req).
Proof. unfold afterRoundTrip. rewrite Do_state. repeat split. Qed.

(** X16: a write answered with 401 or 403 fails with the status line
    and the description of the answer; nothing is logged and the client
    is as before: neither the retry counter nor the retry time moves. *)
Theorem writeBatch_unauthorized (env : Env) (s : State) (bucket : string)
    (metrics : list Metric) (req : GoHTTP.Request) (resp : GoHTTP.Response) :
  writeRequestOf env s bucket metrics = inl req ->
  answer env s req = inr resp ->
  In (GoHTTP.StatusCode resp) [401; 403] ->
  writeBatch env bucket metrics s
  = (Some (ErrFailedToWrite (GoHTTP.Status resp) (description resp)),
     afterRoundTrip env s req)
  /\ client (afterRoundTrip env s req) = client s
  /\ trace (world (afterRoundTrip env s req))
     = (trace (world s) ++ [EvRoundTrip req (inr resp)])%list.
Proof.
  intros Hreq Hans Hcode.
  destruct (afterRoundTrip_state env s req) as (Hc & _ & Ht & _). rewrite Hans in Ht.
  split; [| now split].
  rewrite (writeBatch_sent env s bucket metrics req resp Hreq Hans).
  unfold writeBatchResponse, afterRoundTrip.
  do 2 status_not_in.
  rewrite (proj2 (statusIn_In _ _)) by (status_constants; exact Hcode).
  reflexivity.
Qed.

Lemma writeBatch_unauthorized_witness :
  writeBatch Scenario.guarded "b" [2%nat] Scenario.unrouted
  = (Some (ErrFailedToWrite "401 Unauthorized" "unauthorized: unauthorized access"),
     afterRoundTrip Scenario.guarded Scenario.unrouted
       (Scenario.writeRequest "b" [Scenario.cpu [("route", "b")]]))
  /\ client (afterRoundTrip Scenario.guarded Scenario.unrouted
               (Scenario.writeRequest "b" [Scenario.cpu [("route", "b")]]))
     = client Scenario.unrouted
  /\ trace (world (afterRoundTrip Scenario.guarded Scenario.unrouted
                     (Scenario.writeRequest "b" [Scenario.cpu [("route", "b")]])))
     = (trace (world Scenario.unrouted)
        ++ [EvRoundTrip (Scenario.writeRequest "b" [Scenario.cpu [("route", "b")]])
              (inr (Scenario.unauthorizedForB "bucket=b&"))])%list.
Proof.
  apply (writeBatch_unauthorized Scenario.guarded Scenario.unrouted "b" [2%nat]
           (Scenario.writeRequest "b" [Scenario.cpu [("route", "b")]])
           (Scenario.unauthorizedForB "bucket=b&")).
  - vm_compute. reflexivity.
  - vm_compute. reflexivity.
  - cbn. auto.
Defined.

Lemma writeBatchResponse_other (env : Env) (bucket : string) (resp : GoHTTP.Response)
    (s : State) :
  ~ In (GoHTTP.StatusCode resp) switchedCodes ->
  writeBatchResponse env bucket resp s
  = if GoStrings.Contains (description resp) errStringBucketNotFound then
      (Some (ErrBucketNotFound
               (mkAPIError (GoHTTP.StatusCode resp) (GoHTTP.Status resp) (description resp))
               bucket), s)
    else if GoStrings.HasPrefix (GoHTTP.Status resp) "4" then
      (None, snd (logPrintf (LogWillBeDropped (GoHTTP.Status resp) (description resp)) s))
    else
      (Some (ErrAPI (mkAPIError (GoHTTP.StatusCode resp) (GoHTTP.Status resp)
                       (serverErrorDescription resp))), s).
Proof.
  intros Hcode. unfold switchedCodes in Hcode. unfold writeBatchResponse.
  do 4 status_not_in.
  destruct (GoStrings.Contains _ _); [reflexivity |].
  destruct (GoStrings.HasPrefix _ _); reflexivity.
Qed.

(** X17: a write answered with a status outside the two [switch]
    statements and a description that contains [not found: bucket] fails
    with a [BucketNotFoundError] for the bucket, with the status and the
    description of the answer, whatever the status is, a 5xx included;
    nothing is logged and the client is as before. *)
Theorem writeBatch_bucket_not_found (env : Env) (s : State) (bucket : string)
    (metrics : list Metric) (req : GoHTTP.Request) (resp : GoHTTP.Response) :
  writeRequestOf env s bucket metrics = inl req ->
  answer env s req = inr resp ->
  ~ In (GoHTTP.StatusCode resp) switchedCodes ->
  GoStrings.Contains (description resp) errStringBucketNotFound = true ->
  writeBatch env bucket metrics s
  = (Some (ErrBucketNotFound
             (mkAPIError (GoHTTP.StatusCode resp) (GoHTTP.Status resp) (description resp))
             bucket),
     afterRoundTrip env s req)
  /\ client (afterRoundTrip env s req) = client s
  /\ trace (world (afterRoundTrip env s req))
     = (trace (world s) ++ [EvRoundTrip req (inr resp)])%list.
Proof.
  intros Hreq Hans Hcode Hdesc.
  destruct (afterRoundTrip_state env s req) as (Hc & _ & Ht & _). rewrite Hans in Ht.
  split; [| now split].
  rewrite (writeBatch_sent env s bucket metrics req resp Hreq Hans).
  rewrite (writeBatchResponse_other env bucket resp _ Hcode), Hdesc. reflexivity.
Qed.

Lemma writeBatch_bucket_not_found_witness :
  writeBatch Scenario.bucketVanished "default" [1%nat] Scenario.unrouted
  = (Some (ErrBucketNotFound
             (mkAPIError 404 "404 Not Found" "not found: bucket default not found")
             "default"),
     afterRoundTrip Scenario.bucketVanished Scenario.unrouted
       (Scenario.writeRequest "default" [Scenario.cpu [("host", "h2")]]))
  /\ client (afterRoundTrip Scenario.bucketVanished Scenario.unrouted
               (Scenario.writeRequest "default" [Scenario.cpu [("host", "h2")]]))
     = client Scenario.unrouted
  /\ trace (world (afterRoundTrip Scenario.bucketVanished Scenario.unrouted
                     (Scenario.writeRequest "default" [Scenario.cpu [("host", "h2")]])))
     = (trace (world Scenario.unrouted)
        ++ [EvRoundTrip (Scenario.writeRequest "default" [Scenario.cpu [("host", "h2")]])
              (inr (Scenario.bucketNotFound ""))])%list.
Proof.
  apply (writeBatch_bucket_not_found Scenario.bucketVanished Scenario.unrouted "default"
           [1%nat] (Scenario.writeRequest "default" [Scenario.cpu [("host", "h2")]])
           (Scenario.bucketNotFound "")).
  - vm_compute. reflexivity.
  - vm_compute. reflexivity.
  - vm_compute. intuition discriminate.
  - vm_compute. reflexivity.
Defined.

Lemma HasPrefix_append (s p rest : string) :
  GoStrings.HasPrefix s p = true -> GoStrings.HasPrefix (s +:+ rest) p = true.
Proof.
  revert s. induction p as [| a p IH]; intros s H; [reflexivity |].
  destruct s as [| b s]; [discriminate |].
  rewrite append_cons. cbn in H |- *. apply andb_prop in H as [-> H]. now apply IH.
Qed.

Lemma HasPrefix_split (s p : string) :
  GoStrings.HasPrefix s p = true -> exists rest, s = p +:+ rest.
Proof.
  revert s. induction p as [| a p IH]; intros s H; [now exists s |].
  destruct s as [| b s]; [discriminate |].
  cbn in H. apply andb_prop in H as [Hab H]. apply Ascii.eqb_eq in Hab as ->.
  destruct (IH s H) as [rest ->]. now exists rest.
Qed.

Lemma HasPrefix_Contains (s p : string) :
  GoStrings.HasPrefix s p = true -> GoStrings.Contains s p = true.
Proof. intros H. destruct s; cbn; now rewrite H. Qed.

Lemma Contains_append_l (a b sub : string) :
  GoStrings.Contains a sub = true -> GoStrings.Contains (a +:+ b) sub = true.
Proof.
  induction a as [| x a IH].
  - cbn. destruct (GoStrings.HasPrefix "" sub) eqn:E; [| discriminate]. intros _.
    apply HasPrefix_Contains. now apply (HasPrefix_append "" sub b).
  - cbn [GoStrings.Contains]. rewrite append_cons. cbn [GoStrings.Contains].
    destruct (GoStrings.HasPrefix (String x a) sub) eqn:E.
    + intros _. pose proof (HasPrefix_append _ _ b E) as E'.
      rewrite append_cons in E'. now rewrite E'.
    + intros H. rewrite (IH H).
      destruct (GoStrings.HasPrefix (String x (a +:+ b)) sub); reflexivity.
Qed.

Lemma Contains_append_r (a b sub : string) :
  GoStrings.Contains b sub = true -> GoStrings.Contains (a +:+ b) sub = true.
Proof.
  intros H. induction a as [| x a IH]; [exact H |].
  rewrite append_cons. cbn [GoStrings.Contains]. rewrite IH.
  destruct (GoStrings.HasPrefix (String x (a +:+ b)) sub); reflexivity.
Qed.

Lemma Error_shape (g : genericRespError) :
  exists suffix, genericRespError_Error g = Code g +:+ ": " +:+ Message g +:+ suffix.
Proof.
  unfold genericRespError_Error.
  destruct (Line g) as [p |]; [| destruct (MaxLength g) as [p |]].
  - eexists. now rewrite !append_assoc.
  - eexists. now rewrite !append_assoc.
  - exists "". now rewrite append_nil_r.
Qed.

(** X18: how a description comes to say that the bucket was not
    found.  The description of a decoded error body begins with its code,
    a colon and its message; so an error with the code [not found] and a
    message that begins with [bucket], and any error whose message
    contains [not found: bucket], has a description that contains
    [not found: bucket], and with a status outside the two [switch]
    statements its outcome is BucketMissing. *)
Theorem description_bucket_not_found (resp : GoHTTP.Response) (g : genericRespError) :
  GoHTTP.decodeGeneric (GoHTTP.Body resp) = Some g ->
  (Code g = "not found" /\ GoStrings.HasPrefix (Message g) "bucket" = true)
  \/ GoStrings.Contains (Message g) errStringBucketNotFound = true ->
  GoStrings.HasPrefix (description resp) (Code g +:+ ": " +:+ Message g) = true
  /\ GoStrings.Contains (description resp) errStringBucketNotFound = true
  /\ (~ In (GoHTTP.StatusCode resp) switchedCodes -> classify resp = BucketMissing).
Proof.
  intros Hdec Hg. unfold description. rewrite Hdec.
  destruct (Error_shape g) as [suffix Hshape].
  assert (Hpre : GoStrings.HasPrefix (genericRespError_Error g)
                   (Code g +:+ ": " +:+ Message g) = true).
  { rewrite Hshape, <- !append_assoc. apply HasPrefix_append.
    clear. induction (_ +:+ _) as [| a s IH]; [reflexivity |].
    cbn. now rewrite Ascii.eqb_refl. }
  assert (Hcontains : GoStrings.Contains (genericRespError_Error g)
                        errStringBucketNotFound = true).
  { rewrite Hshape. destruct Hg as [[Hcode Hmsg] | Hmsg].
    - apply HasPrefix_Contains. rewrite Hcode.
      destruct (HasPrefix_split _ _ Hmsg) as [rest ->]. reflexivity.
    - apply Contains_append_r. rewrite <- append_assoc.
      apply Contains_append_l, Contains_append_r, Hmsg. }
  split; [exact Hpre |]. split; [exact Hcontains |].
  intros Hcode. unfold classify, description, switchedCodes in *. rewrite Hdec, Hcontains.
  rewrite (statusIn_not_In _ [204; 200; 201; 202; 206; 207; 208]) by (cbn [In] in *; lia).
  rewrite (statusIn_not_In _ [400; 413; 422; 406]) by (cbn [In] in *; lia).
  rewrite (statusIn_not_In _ [401; 403]) by (cbn [In] in *; lia).
  rewrite (statusIn_not_In _ [429; 503; 502; 504]) by (cbn [In] in *; lia).
  reflexivity.
Qed.

Lemma description_bucket_not_found_witness :
  GoStrings.HasPrefix (description (Scenario.bucketNotFound ""))
    ("not found" +:+ ": " +:+ "bucket default not found") = true
  /\ GoStrings.Contains (description (Scenario.bucketNotFound "")) errStringBucketNotFound
     = true
  /\ (~ In (GoHTTP.StatusCode (Scenario.bucketNotFound "")) switchedCodes ->
      classify (Scenario.bucketNotFound "") = BucketMissing).
Proof.
  apply (description_bucket_not_found (Scenario.bucketNotFound "")
           (mkGenericRespError "not found" "bucket default not found" None None)).
  - reflexivity.
  - left. split; reflexivity.
Defined.

(** X19: a write answered with a status outside the two [switch]
    statements, whose status line does not start with 4 and whose
    description does not say that the bucket was not found, fails with an
    [APIError] that carries the status and the description, the latter
    followed by the [X-Influx-Error] header when there is one; nothing is
    logged, and the client is as before: such a failure does not start a
    back-off. *)
Theorem writeBatch_server_error (env : Env) (s : State) (bucket : string)
    (metrics : list Metric) (req : GoHTTP.Request) (resp : GoHTTP.Response) :
  writeRequestOf env s bucket metrics = inl req ->
  answer env s req = inr resp ->
  ~ In (GoHTTP.StatusCode resp) switchedCodes ->
  GoStrings.Contains (description resp) errStringBucketNotFound = false ->
  GoStrings.HasPrefix (GoHTTP.Status resp) "4" = false ->
  writeBatch env bucket metrics s
  = (Some (ErrAPI (mkAPIError (GoHTTP.StatusCode resp) (GoHTTP.Status resp)
                     (if String.eqb (GoHTTP.Get (GoHTTP.Header resp) "X-Influx-Error") ""
                      then description resp
                      else description resp +:+ "; "
                           +:+ GoHTTP.Get (GoHTTP.Header resp) "X-Influx-Error"))),
     afterRoundTrip env s req)
  /\ client (afterRoundTrip env s req) = client s
  /\ trace (world (afterRoundTrip env s req))
     = (trace (world s) ++ [EvRoundTrip req (inr resp)])%list.
Proof.
  intros Hreq Hans Hcode Hdesc Hline.
  destruct (afterRoundTrip_state env s req) as (Hc & _ & Ht & _). rewrite Hans in Ht.
  split; [| now split].
  rewrite (writeBatch_sent env s bucket metrics req resp Hreq Hans).
  rewrite (writeBatchResponse_other env bucket resp _ Hcode), Hdesc, Hline.
  unfold serverErrorDescription, afterRoundTrip.
  now destruct (String.eqb (GoHTTP.Get (GoHTTP.Header resp) "X-Influx-Error") "").
Qed.

Lemma writeBatch_server_error_witness :
  writeBatch Scenario.failing "default" [1%nat] Scenario.afterThreeThrottles
  = (Some (ErrAPI (mkAPIError 500 "500 Internal Server Error"
                     "500 Internal Server Error; engine: cache full")),
     afterRoundTrip Scenario.failing Scenario.afterThreeThrottles
       (Scenario.writeRequest "default" [Scenario.cpu [("host", "h2")]]))
  /\ client (afterRoundTrip Scenario.failing Scenario.afterThreeThrottles
               (Scenario.writeRequest "default" [Scenario.cpu [("host", "h2")]]))
     = client Scenario.afterThreeThrottles
  /\ trace (world (afterRoundTrip Scenario.failing Scenario.afterThreeThrottles
                     (Scenario.writeRequest "default" [Scenario.cpu [("host", "h2")]])))
     = (trace (world Scenario.afterThreeThrottles)
        ++ [EvRoundTrip (Scenario.writeRequest "default" [Scenario.cpu [("host", "h2")]])
              (inr (Scenario.internalError ""))])%list.
Proof.
  apply (writeBatch_server_error Scenario.failing Scenario.afterThreeThrottles "default"
           [1%nat] (Scenario.writeRequest "default" [Scenario.cpu [("host", "h2")]])
           (Scenario.internalError "")).
  - vm_compute. reflexivity.
  - vm_compute. reflexivity.
  - vm_compute. intuition discriminate.
  - vm_compute. reflexivity.
  - vm_compute. reflexivity.
Defined.

Lemma writeRequestOf_api (env : Env) (s : State) (bucket : string)
    (metrics : list Metric) (e : APIError) :
  writeRequestOf env s bucket metrics <> inr (ErrAPI e).
Proof.
  unfold writeRequestOf, makeWriteURL, requestBodyReader, makeWriteRequest. munfold.
  destruct (String.eqb (Scheme (url (client s))) "unix").
  - destruct (String.eqb (ContentEncoding (client s)) "gzip").
    + destruct (gzipError env _); cbn [fst]; [discriminate |].
      destruct (newRequestError env _ _); discriminate.
    + cbn [fst]. destruct (newRequestError env _ _); discriminate.
  - destruct (String.eqb _ "http" || String.eqb _ "https"); [| discriminate].
    destruct (String.eqb (ContentEncoding (client s)) "gzip").
    + destruct (gzipError env _); cbn [fst]; [discriminate |].
      destruct (newRequestError env _ _); discriminate.
    + cbn [fst]. destruct (newRequestError env _ _); discriminate.
Qed.

(** X20: an [APIError] that [writeBatch] returns stems from an answer
    with a ServerError outcome and carries its status code, its status
    line as title and its description.  Its text is the title, a colon
    and the description; so for an answer whose body does not decode and
    that has no [X-Influx-Error] header the text is the status line
    twice. *)
Theorem writeBatch_APIError_text (env : Env) (s : State) (bucket : string)
    (metrics : list Metric) (e : APIError) :
  fst (writeBatch env bucket metrics s) = Some (ErrAPI e) ->
  exists req resp,
    writeRequestOf env s bucket metrics = inl req
    /\ answer env s req = inr resp
    /\ classify resp = ServerError
    /\ e = mkAPIError (GoHTTP.StatusCode resp) (GoHTTP.Status resp)
             (serverErrorDescription resp)
    /\ (Description e <> "" ->
        APIError_Error e = GoHTTP.Status resp +:+ ": " +:+ Description e)
    /\ (Description e = "" -> APIError_Error e = GoHTTP.Status resp)
    /\ (GoHTTP.decodeGeneric (GoHTTP.Body resp) = None ->
        GoHTTP.Get (GoHTTP.Header resp) "X-Influx-Error" = "" ->
        GoHTTP.Status resp <> "" ->
        APIError_Error e = GoHTTP.Status resp +:+ ": " +:+ GoHTTP.Status resp).
Proof.
  destruct (writeRequestOf env s bucket metrics) as [req | err] eqn:Hreq.
  - destruct (answer env s req) as [msg | resp] eqn:Hans.
    + now rewrite (writeBatch_transport_error env s bucket metrics req msg Hreq Hans).
    + rewrite (writeBatch_sent env s bucket metrics req resp Hreq Hans).
      rewrite writeBatchResponse_result.
      destruct (classify resp) eqn:Hclass; try discriminate.
      intros He. assert (He' : e = mkAPIError (GoHTTP.StatusCode resp) (GoHTTP.Status resp)
                                     (serverErrorDescription resp)) by congruence.
      clear He. subst e.
      exists req, resp.
      split; [reflexivity |]. split; [exact Hans |]. split; [exact Hclass |].
      split; [reflexivity |]. split; [| split].
      * unfold APIError_Error. cbn [Description Title]. intros Hne.
        destruct (String.eqb_spec (serverErrorDescription resp) ""); [contradiction |].
        reflexivity.
      * unfold APIError_Error. cbn [Description Title]. now intros ->.
      * intros Hdec Hx Hstatus. unfold APIError_Error, serverErrorDescription, description.
        cbn [Description Title]. rewrite Hdec, Hx. cbn [String.eqb negb].
        destruct (String.eqb_spec (GoHTTP.Status resp) ""); [contradiction |].
        reflexivity.
  - rewrite (writeBatch_not_sent env s bucket metrics err Hreq). cbn. intros [= ->].
    now apply writeRequestOf_api in Hreq.
Qed.

Lemma writeBatch_APIError_text_witness :
  APIError_Error (mkAPIError 301 "301 Moved Permanently" "301 Moved Permanently")
  = "301 Moved Permanently: 301 Moved Permanently".
Proof.
  assert (Hres : fst (writeBatch Scenario.redirecting "default" [1%nat] Scenario.unrouted)
                 = Some (ErrAPI (mkAPIError 301 "301 Moved Permanently"
                                   "301 Moved Permanently")))
    by (vm_compute; reflexivity).
  destruct (writeBatch_APIError_text Scenario.redirecting Scenario.unrouted "default"
              [1%nat] _ Hres)
    as (req & resp & Hreq & Hans & Hclass & He & Htext & _).
  injection He as Hcode Hstatus Hdesc.
  rewrite Htext by discriminate. rewrite <- Hstatus. reflexivity.
Defined.

(** X21: when the transport fails, [writeBatch] reports the failure to
    the connection-health reporter and returns it; the client is as
    before: the failure does not count as a throttled write. *)
Theorem writeBatch_transport_failure (env : Env) (s : State) (bucket : string)
    (metrics : list Metric) (req : GoHTTP.Request) (msg : string) :
  writeRequestOf env s bucket metrics = inl req ->
  answer env s req = inl msg ->
  fst (writeBatch env bucket metrics s) = Some (ErrTransport msg)
  /\ client (snd (writeBatch env bucket metrics s)) = client s
  /\ store (world (snd (writeBatch env bucket metrics s))) = store (world s)
  /\ trace (world (snd (writeBatch env bucket metrics s)))
     = (trace (world s) ++ [EvRoundTrip req (inl msg); EvOnClientError msg])%list.
Proof.
  intros Hreq Hans.
  rewrite (writeBatch_transport_error env s bucket metrics req msg Hreq Hans).
  cbn [fst snd client world store trace]. repeat split. now rewrite <- app_assoc.
Qed.

Lemma writeBatch_transport_failure_witness :
  fst (writeBatch Scenario.unreachable "default" [1%nat] Scenario.afterThreeThrottles)
  = Some (ErrTransport "connection refused")
  /\ client (snd (writeBatch Scenario.unreachable "default" [1%nat]
                    Scenario.afterThreeThrottles))
     = client Scenario.afterThreeThrottles
  /\ store (world (snd (writeBatch Scenario.unreachable "default" [1%nat]
                          Scenario.afterThreeThrottles)))
     = store (world Scenario.afterThreeThrottles)
  /\ trace (world (snd (writeBatch Scenario.unreachable "default" [1%nat]
                          Scenario.afterThreeThrottles)))
     = (trace (world Scenario.afterThreeThrottles)
        ++ [EvRoundTrip (Scenario.writeRequest "default" [Scenario.cpu [("host", "h2")]])
              (inl "connection refused");
            EvOnClientError "connection refused"])%list.
Proof.
  apply (writeBatch_transport_failure Scenario.unreachable Scenario.afterThreeThrottles
           "default" [1%nat]
           (Scenario.writeRequest "default" [Scenario.cpu [("host", "h2")]])
           "connection refused").
  - vm_compute. reflexivity.
  - vm_compute. reflexivity.
Defined.

(** X22: a request that cannot be built is not sent.  For a base
    address with another scheme than [unix], [http] and [https], for a
    batch the gzip helper refuses, and for an address [http.NewRequest]
    refuses, [writeBatch] returns the error and leaves everything as it
    was. *)
Theorem writeBatch_not_built (env : Env) (bucket : string) (metrics : list Metric)
    (s : State) :
  (supportedScheme (Scheme (url (client s))) = false ->
   writeBatch env bucket metrics s
   = (Some (ErrUnsupportedScheme (Scheme (url (client s)))), s))
  /\ (forall (address msg : string),
        makeWriteURL (url (client s)) (Organization (client s)) bucket = inl address ->
        ContentEncoding (client s) = "gzip" ->
        gzipError env (contents (store (world s)) metrics) = Some msg ->
        writeBatch env bucket metrics s = (Some (ErrCompress msg), s))
  /\ (forall (address msg : string),
        makeWriteURL (url (client s)) (Organization (client s)) bucket = inl address ->
        (ContentEncoding (client s) = "gzip" ->
         gzipError env (contents (store (world s)) metrics) = None) ->
        newRequestError env "POST" address = Some msg ->
        writeBatch env bucket metrics s = (Some (ErrNewRequest msg), s)).
Proof.
  split; [| split].
  - intros Hscheme. apply writeBatch_not_sent. unfold writeRequestOf.
    now rewrite (proj1 (builders_unsupported _ (Organization (client s)) bucket Hscheme)).
  - intros address msg Hurl Hgzip Herr. apply writeBatch_not_sent.
    unfold writeRequestOf, requestBodyReader. munfold.
    now rewrite Hurl, Hgzip, Herr.
  - intros address msg Hurl Hgzip Herr. apply writeBatch_not_sent.
    unfold writeRequestOf, requestBodyReader, makeWriteRequest. munfold. rewrite Hurl.
    destruct (String.eqb_spec (ContentEncoding (client s)) "gzip") as [E | E].
    + rewrite (Hgzip E). cbn [fst]. now rewrite Herr.
    + cbn [fst]. now rewrite Herr.
Qed.

Lemma writeBatch_not_built_witness :
  writeBatch Scenario.healthy "default" [1%nat] Scenario.datagram
  = (Some (ErrUnsupportedScheme "udp"), Scenario.datagram)
  /\ writeBatch Scenario.brokenGzip "default" [1%nat] Scenario.compressing
     = (Some (ErrCompress "gzip: short write"), Scenario.compressing)
  /\ writeBatch Scenario.strictRequests "default" [1%nat] Scenario.unrouted
     = (Some (ErrNewRequest "invalid URL escape"), Scenario.unrouted).
Proof.
  split; [| split].
  - apply (proj1 (writeBatch_not_built Scenario.healthy "default" [1%nat] Scenario.datagram)).
    vm_compute. reflexivity.
  - apply (proj1 (proj2 (writeBatch_not_built Scenario.brokenGzip "default" [1%nat]
                           Scenario.compressing))
             "http://host:8086/api/v2/write?bucket=default&org=o").
    + vm_compute. reflexivity.
    + vm_compute. reflexivity.
    + vm_compute. reflexivity.
  - apply (proj2 (proj2 (writeBatch_not_built Scenario.strictRequests "default" [1%nat]
                           Scenario.unrouted))
             "http://host:8086/api/v2/write?bucket=default&org=o").
    + vm_compute. reflexivity.
    + vm_compute. discriminate.
    + vm_compute. reflexivity.
Defined.

(** X23: what [writeBatch] does to the client, case by case.  A
    success puts the retry counter to 0; a throttled write raises the
    counter by one and sets the retry time; every other end - a dropped
    batch, a refused one, a bucket not found, a server error, a transport
    failure, a request that was not built - leaves the client exactly as
    it was. *)
Theorem writeBatch_client (env : Env) (bucket : string) (metrics : list Metric) (s : State) :
  match writeRequestOf env s bucket metrics with
  | inr _ => client (snd (writeBatch env bucket metrics s)) = client s
  | inl req =>
      match answer env s req with
      | inl _ => client (snd (writeBatch env bucket metrics s)) = client s
      | inr resp =>
          client (snd (writeBatch env bucket metrics s))
          = match classify resp with
            | Success => set_retryCount 0 (client s)
            | Throttle =>
                let c := set_retryCount (wrap64 (retryCount (client s) + 1)) (client s) in
                set_retryTime
                  (now (world (afterRoundTrip env s req))
                   + getRetryDuration env c (GoHTTP.Header resp)) c
            | _ => client s
            end
      end
  end.
Proof.
  destruct (writeRequestOf env s bucket metrics) as [req | err] eqn:Hreq.
  - destruct (answer env s req) as [msg | resp] eqn:Hans.
    + now rewrite (writeBatch_transport_error env s bucket metrics req msg Hreq Hans).
    + rewrite (writeBatch_sent env s bucket metrics req resp Hreq Hans).
      unfold afterRoundTrip. rewrite Do_state.
      unfold writeBatchResponse, classify. status_constants.
      destruct (statusIn _ [204; 200; 201; 202; 206; 207; 208]); [reflexivity |].
      destruct (statusIn _ [400; 413; 422; 406]); [reflexivity |].
      destruct (statusIn _ [401; 403]); [reflexivity |].
      destruct (statusIn _ [429; 503; 502; 504]); [reflexivity |].
      destruct (GoStrings.Contains _ _); [reflexivity |].
      destruct (GoStrings.HasPrefix _ _); reflexivity.
  - now rewrite (writeBatch_not_sent env s bucket metrics err Hreq).
Qed.

(** ** [Write] over the life of a client *)

Lemma groupMetrics_client (metrics : list Metric) (batches : gmap string (list Metric))
    (s : State) :
  client (snd (groupMetrics metrics batches s)) = client s.
Proof. now destruct (groupMetrics_frame metrics batches s) as [H _]. Qed.

Lemma writeBatch_config (env : Env) (bucket : string) (metrics : list Metric) (s : State) :
  config (client (snd (writeBatch env bucket metrics s))) = config (client s).
Proof. now destruct (writeBatch_frame env bucket metrics s) as (_ & _ & _ & _ & H & _). Qed.

Lemma Write_config (env : Env) (metrics : list Metric) (s : State) :
  config (client (snd (Write env metrics s))) = config (client s).
Proof.
  apply (Write_rel env (fun s s' => config (client s') = config (client s))).
  - reflexivity.
  - intros s1 s2 s3 H12 H23. now rewrite H23.
  - intros ms batches s1. now rewrite groupMetrics_client.
  - intros b s1. apply ensureBucket_config.
  - intros b ms s1. apply writeBatch_config.
Qed.

Lemma session_config (env : Env) (calls : list Call) (s : State) :
  config (client (session env calls s)) = config (client s).
Proof.
  revert s. induction calls as [| c calls IH]; intros s; [reflexivity |].
  cbn [session fold_left]. fold (session env calls (call env s c)). rewrite IH.
  unfold call. now rewrite Write_config.
Qed.

Lemma config_url (c c' : httpClient) : config c = config c' -> url c = url c'.
Proof. unfold config. now intros [= _ _ _ _ _ _ _ _ H]. Qed.

Lemma config_skip (c c' : httpClient) :
  config c = config c' -> SkipBucketCreation c = SkipBucketCreation c'.
Proof. unfold config. now intros [= _ _ _ _ _ _ _ H _]. Qed.

Lemma writeBatch_scheme (env : Env) (bucket : string) (metrics : list Metric) (s : State)
    (scheme : string) :
  supportedScheme (Scheme (url (client s))) = true ->
  fst (writeBatch env bucket metrics s) <> Some (ErrUnsupportedScheme scheme).
Proof.
  intros Hs.
  destruct (writeRequestOf env s bucket metrics) as [req | err] eqn:Hreq.
  - destruct (answer env s req) as [msg | resp] eqn:Hans.
    + now rewrite (writeBatch_transport_error env s bucket metrics req msg Hreq Hans).
    + rewrite (writeBatch_sent env s bucket metrics req resp Hreq Hans).
      rewrite writeBatchResponse_result. now destruct (classify resp).
  - rewrite (writeBatch_not_sent env s bucket metrics err Hreq). cbn. intros [= ->].
    revert Hreq. unfold writeRequestOf, requestBodyReader, makeWriteRequest. munfold.
    destruct (builders_supported (url (client s)) (Organization (client s)) bucket Hs)
      as (w & cr & lk & -> & _ & _).
    destruct (String.eqb (ContentEncoding (client s)) "gzip").
    + destruct (gzipError env _); cbn [fst]; [discriminate |].
      destruct (newRequestError env _ _); discriminate.
    + cbn [fst]. destruct (newRequestError env _ _); discriminate.
Qed.

Lemma writeBatches_scheme (env : Env) (batches : list (string * list Metric)) (s : State)
    (scheme : string) :
  supportedScheme (Scheme (url (client s))) = true ->
  fst (writeBatches env batches s) <> Some (ErrUnsupportedScheme scheme).
Proof.
  revert s. induction batches as [| [bucket metrics] rest IH]; intros s Hs.
  - discriminate.
  - cbn [writeBatches]. unfold mbind, M_bind.
    set (s1 := snd (ensureBucket env bucket s)).
    assert (Hs1 : supportedScheme (Scheme (url (client s1))) = true).
    { subst s1. now rewrite (config_url _ _ (ensureBucket_config env bucket s)). }
    pose proof (writeBatch_scheme env bucket metrics s1 scheme Hs1) as H.
    destruct (fst (writeBatch env bucket metrics s1)) as [err |] eqn:E.
    + cbn. congruence.
    + apply IH. now rewrite (config_url _ _ (writeBatch_config env bucket metrics s1)).
Qed.

Lemma Write_scheme (env : Env) (metrics : list Metric) (s : State) (scheme : string) :
  supportedScheme (Scheme (url (client s))) = true ->
  fst (Write env metrics s) <> Some (ErrUnsupportedScheme scheme).
Proof.
  intros Hs.
  destruct (Z.lt_ge_cases (now (world s)) (retryTime (client s))) as [Hgate | Hgate].
  - now rewrite Write_gate_closed.
  - destruct (String.eqb_spec (BucketTag (client s)) "") as [Htag | Htag].
    + rewrite Write_default by assumption. now apply writeBatch_scheme.
    + rewrite Write_routed by assumption. apply writeBatches_scheme.
      now rewrite groupMetrics_client.
Qed.

(** X24: a client that [NewHTTPClient] has set up is not held back at
    its first [Write], and never in its life does a [Write] fail for the
    scheme of its address. *)
Theorem NewHTTPClient_Write (env : Env) (productToken : string) (config : HTTPConfig)
    (c : httpClient) :
  NewHTTPClient productToken config = Some c ->
  (forall (w : World) (metrics : list Metric),
     zeroTime <= now w ->
     fst (Write env metrics (mkState c w)) <> Some ErrRetryTime)
  /\ (forall (w : World) (calls : list Call) (metrics : list Metric) (scheme : string),
        fst (Write env metrics (session env calls (mkState c w)))
        <> Some (ErrUnsupportedScheme scheme)).
Proof.
  intros Hc. destruct (NewHTTPClient_url productToken config c Hc) as (_ & Hs & Ht & _).
  split.
  - intros w metrics Hnow.
    assert (Hgate : retryTime (client (mkState c w)) <= now (world (mkState c w)))
      by (cbn; now rewrite Ht).
    destruct (String.eqb_spec (BucketTag c) "") as [Htag | Htag].
    + rewrite Write_default by assumption. apply writeBatch_error.
    + rewrite Write_routed by assumption. apply writeBatches_error.
  - intros w calls metrics scheme. apply Write_scheme.
    now rewrite (config_url _ _ (session_config env calls (mkState c w))).
Qed.

Lemma NewHTTPClient_Write_witness :
  fst (Write Scenario.overloaded [0%nat; 1%nat; 2%nat]
         (mkState (Scenario.clientWith "route" true false) (Scenario.worldAt 0)))
  <> Some ErrRetryTime
  /\ fst (Write Scenario.overloaded [0%nat]
            (session Scenario.overloaded Scenario.twoCalls
               (mkState (Scenario.clientWith "route" true false) (Scenario.worldAt 0))))
     <> Some (ErrUnsupportedScheme "http").
Proof.
  assert (Hc : NewHTTPClient "Telegraf/1.14" (Scenario.configWith "route" true false)
               = Some (Scenario.clientWith "route" true false)) by reflexivity.
  destruct (NewHTTPClient_Write Scenario.overloaded "Telegraf/1.14"
              (Scenario.configWith "route" true false)
              (Scenario.clientWith "route" true false) Hc) as [Hfirst Hlife].
  split.
  - apply Hfirst. vm_compute. discriminate.
  - apply Hlife.
Defined.

Lemma quiet_refl (s : State) : quiet s s.
Proof.
  intros H. repeat split; [exact H |]. exists []. split; [apply happened_refl | constructor].
Qed.

Lemma quiet_trans (s1 s2 s3 : State) : quiet s1 s2 -> quiet s2 s3 -> quiet s1 s3.
Proof.
  intros H12 H23 H1. destruct (H12 H1) as (H2 & Hc2 & d1 & Hd1 & Hall1).
  destruct (H23 H2) as (H3 & Hc3 & d2 & Hd2 & Hall2).
  repeat split; [exact H3 | congruence |].
  exists (d1 ++ d2)%list. split; [eapply happened_trans; eassumption |].
  apply Forall_app. now split.
Qed.

Lemma isWriteTraffic_not_manager (ev : Event) :
  isWriteTraffic ev = true -> isBucketManager ev = false.
Proof.
  destruct ev as [req res | l | msg | m]; cbn; try reflexivity.
  now destruct (GoHTTP.ReqBody req).
Qed.

Lemma quiet_Write (env : Env) (metrics : list Metric) (s : State) :
  quiet s (snd (Write env metrics s)).
Proof.
  apply (Write_rel env quiet).
  - apply quiet_refl.
  - apply quiet_trans.
  - intros ms batches s1 H.
    destruct (groupMetrics_frame ms batches s1) as (Hc & _ & (delta & Hd & Hall) & _).
    rewrite Hc. repeat split; [exact H |]. exists delta. split; [exact Hd |].
    eapply Forall_impl; [exact Hall |]. now intros ev [m ->].
  - intros b s1 H. rewrite ensureBucket_skip by now left. now apply quiet_refl.
  - intros b ms s1 H.
    destruct (writeBatch_frame env b ms s1) as (delta & Hd & Hall & _ & Hcfg & Hcr).
    repeat split.
    + now rewrite (config_skip _ _ Hcfg).
    + exact Hcr.
    + exists delta. split; [exact Hd |].
      eapply Forall_impl; [exact Hall |]. apply isWriteTraffic_not_manager.
Qed.

Lemma quiet_session (env : Env) (calls : list Call) (s : State) :
  quiet s (session env calls s).
Proof.
  revert s. induction calls as [| c calls IH]; intros s; [apply quiet_refl |].
  cbn [session fold_left]. fold (session env calls (call env s c)).
  eapply quiet_trans; [| apply IH]. unfold call.
  eapply quiet_trans; [| apply quiet_Write].
  intros H. repeat split; [exact H |]. exists []. split; [| constructor].
  unfold happened. cbn. now rewrite app_nil_r.
Qed.

(** X25: with [SkipBucketCreation] the bucket manager is never asked.
    Over the life of the client no [Write] looks up the organization or
    asks for the creation of a bucket, and the record of created buckets
    stays as it is. *)
Theorem Write_skips_bucket_creation (env : Env) (calls : list Call) (s : State)
    (delta : list Event) :
  SkipBucketCreation (client s) = true ->
  happened s (session env calls s) delta ->
  Forall (fun ev => isBucketManager ev = false) delta
  /\ createBucketExecuted (client (session env calls s)) = createBucketExecuted (client s)
  /\ SkipBucketCreation (client (session env calls s)) = true.
Proof.
  intros Hskip Hdelta.
  destruct (quiet_session env calls s Hskip) as (H & Hc & d & Hd & Hall).
  rewrite (happened_unique _ _ _ _ Hdelta Hd). now repeat split.
Qed.

Lemma Write_skips_bucket_creation_witness :
  Forall (fun ev => isBucketManager ev = false)
    (eventsSince Scenario.skipping
       (session Scenario.healthy Scenario.twoCalls Scenario.skipping))
  /\ createBucketExecuted
       (client (session Scenario.healthy Scenario.twoCalls Scenario.skipping))
     = createBucketExecuted (client Scenario.skipping)
  /\ SkipBucketCreation
       (client (session Scenario.healthy Scenario.twoCalls Scenario.skipping)) = true.
Proof.
  apply (Write_skips_bucket_creation Scenario.healthy Scenario.twoCalls Scenario.skipping).
  - vm_compute. reflexivity.
  - vm_compute. reflexivity.
Defined.

Lemma writeBatchResponse_waiting (env : Env) (bucket : string) (resp : GoHTTP.Response)
    (s : State) (d : Z) :
  fst (writeBatchResponse env bucket resp s) = Some (ErrWaiting d) ->
  retryTime (client (snd (writeBatchResponse env bucket resp s)))
  = now (world (snd (writeBatchResponse env bucket resp s))) + d.
Proof.
  unfold writeBatchResponse.
  destruct (statusIn _ _); [discriminate |].
  destruct (statusIn _ _); [discriminate |].
  destruct (statusIn _ _); [discriminate |].
  destruct (statusIn _ _).
  { munfold. now intros [= <-]. }
  destruct (GoStrings.Contains _ _); [discriminate |].
  destruct (GoStrings.HasPrefix _ _); discriminate.
Qed.

Lemma writeRequestOf_waiting (env : Env) (s : State) (bucket : string)
    (metrics : list Metric) (d : Z) :
  writeRequestOf env s bucket metrics <> inr (ErrWaiting d).
Proof.
  unfold writeRequestOf, makeWriteURL, requestBodyReader, makeWriteRequest. munfold.
  destruct (String.eqb (Scheme (url (client s))) "unix").
  - destruct (String.eqb (ContentEncoding (client s)) "gzip").
    + destruct (gzipError env _); cbn [fst]; [discriminate |].
      destruct (newRequestError env _ _); discriminate.
    + cbn [fst]. destruct (newRequestError env _ _); discriminate.
  - destruct (String.eqb _ "http" || String.eqb _ "https"); [| discriminate].
    destruct (String.eqb (ContentEncoding (client s)) "gzip").
    + destruct (gzipError env _); cbn [fst]; [discriminate |].
      destruct (newRequestError env _ _); discriminate.
    + cbn [fst]. destruct (newRequestError env _ _); discriminate.
Qed.

Lemma writeBatch_waiting (env : Env) (bucket : string) (metrics : list Metric) (s : State)
    (d : Z) :
  fst (writeBatch env bucket metrics s) = Some (ErrWaiting d) ->
  retryTime (client (snd (writeBatch env bucket metrics s)))
  = now (world (snd (writeBatch env bucket metrics s))) + d.
Proof.
  destruct (writeRequestOf env s bucket metrics) as [req | err] eqn:Hreq.
  - destruct (answer env s req) as [msg | resp] eqn:Hans.
    + now rewrite (writeBatch_transport_error env s bucket metrics req msg Hreq Hans).
    + rewrite (writeBatch_sent env s bucket metrics req resp Hreq Hans).
      apply writeBatchResponse_waiting.
  - rewrite (writeBatch_not_sent env s bucket metrics err Hreq). cbn. intros [= ->].
    now apply writeRequestOf_waiting in Hreq.
Qed.

Lemma writeBatches_waiting (env : Env) (batches : list (string * list Metric)) (s : State)
    (d : Z) :
  fst (writeBatches env batches s) = Some (ErrWaiting d) ->
  retryTime (client (snd (writeBatches env batches s)))
  = now (world (snd (writeBatches env batches s))) + d.
Proof.
  revert s. induction batches as [| [bucket metrics] rest IH]; intros s.
  - discriminate.
  - cbn [writeBatches]. unfold mbind, M_bind.
    pose proof (writeBatch_waiting env bucket metrics (snd (ensureBucket env bucket s)) d) as H.
    destruct (fst (writeBatch env bucket metrics (snd (ensureBucket env bucket s))))
      as [err |]; [| apply IH].
    cbn. intros [= ->]. now apply H.
Qed.

(** X26: a throttled write closes the gate.  When [Write] returns the
    error of a throttled write, the retry time is the time at which it
    returns plus the delay the error names, and until then every further
    [Write] is refused with the retry-window error, without a request and
    without any other effect. *)
Theorem Write_throttled_then_refused (env : Env) (metrics : list Metric) (s : State)
    (delay : Z) :
  fst (Write env metrics s) = Some (ErrWaiting delay) ->
  retryTime (client (snd (Write env metrics s)))
  = now (world (snd (Write env metrics s))) + delay
  /\ forall (next : list Metric) (w : World),
       now w < now (world (snd (Write env metrics s))) + delay ->
       Write env next (mkState (client (snd (Write env metrics s))) w)
       = (Some ErrRetryTime, mkState (client (snd (Write env metrics s))) w).
Proof.
  intros Hres.
  assert (Htime : retryTime (client (snd (Write env metrics s)))
                  = now (world (snd (Write env metrics s))) + delay).
  { destruct (Z.lt_ge_cases (now (world s)) (retryTime (client s))) as [Hgate | Hgate].
    - rewrite Write_gate_closed in Hres by exact Hgate. discriminate.
    - destruct (String.eqb_spec (BucketTag (client s)) "") as [Htag | Htag].
      + rewrite Write_default in * by assumption. now apply writeBatch_waiting.
      + rewrite Write_routed in * by assumption. now apply writeBatches_waiting. }
  split; [exact Htime |].
  intros next w Hnow. apply Write_gate_closed. cbn [client world]. now rewrite Htime.
Qed.

Lemma Write_throttled_then_refused_witness :
  retryTime (client (snd (Write Scenario.overloaded [0%nat; 1%nat; 2%nat]
                            Scenario.afterThirtyThrottles)))
  = now (world (snd (Write Scenario.overloaded [0%nat; 1%nat; 2%nat]
                       Scenario.afterThirtyThrottles))) + 24 * Second
  /\ Write Scenario.overloaded [1%nat]
       (mkState (client (snd (Write Scenario.overloaded [0%nat; 1%nat; 2%nat]
                                Scenario.afterThirtyThrottles)))
          (Scenario.worldAt (23 * Second)))
     = (Some ErrRetryTime,
        mkState (client (snd (Write Scenario.overloaded [0%nat; 1%nat; 2%nat]
                                Scenario.afterThirtyThrottles)))
          (Scenario.worldAt (23 * Second))).
Proof.
  assert (Hres : fst (Write Scenario.overloaded [0%nat; 1%nat; 2%nat]
                        Scenario.afterThirtyThrottles) = Some (ErrWaiting (24 * Second)))
    by (vm_compute; reflexivity).
  destruct (Write_throttled_then_refused Scenario.overloaded [0%nat; 1%nat; 2%nat]
              Scenario.afterThirtyThrottles (24 * Second) Hres) as [Htime Hnext].
  split; [exact Htime |].
  apply Hnext. vm_compute. reflexivity.
Defined.

Lemma countWrites_app (d1 d2 : list Event) :
  countWrites (d1 ++ d2) = (countWrites d1 + countWrites d2)%nat.
Proof. unfold countWrites. now rewrite filter_app, length_app. Qed.

Lemma countWrites_none (delta : list Event) :
  Forall (fun ev => isWrite ev = false) delta -> countWrites delta = 0%nat.
Proof.
  unfold countWrites. induction 1 as [| ev d Hev _ IH]; [reflexivity |].
  rewrite filter_cons_False by congruence. exact IH.
Qed.

Lemma writeBatch_writes (env : Env) (bucket : string) (metrics : list Metric) (s : State) :
  exists delta,
    happened s (snd (writeBatch env bucket metrics s)) delta
    /\ (countWrites delta <= 1)%nat
    /\ (fst (writeBatch env bucket metrics s) = None -> countWrites delta = 1%nat).
Proof.
  destruct (writeRequestOf env s bucket metrics) as [req | err] eqn:Hreq.
  - destruct (writeRequestOf_request env s bucket metrics req Hreq) as (_ & gzip & Hbody).
    assert (Hw : forall res, isWrite (EvRoundTrip req res) = true)
      by (intros res; cbn; now rewrite Hbody).
    destruct (answer env s req) as [msg | resp] eqn:Hans.
    + rewrite (writeBatch_transport_error env s bucket metrics req msg Hreq Hans).
      exists [EvRoundTrip req (inl msg); EvOnClientError msg].
      unfold happened. cbn [fst snd world trace]. rewrite <- app_assoc.
      split; [reflexivity |]. split; [| discriminate].
      unfold countWrites. rewrite filter_cons_True by apply Hw.
      rewrite filter_cons_False by (cbn; discriminate). cbn. lia.
    + rewrite (writeBatch_sent env s bucket metrics req resp Hreq Hans).
      destruct (writeBatchResponse_frame env bucket resp (snd (Do env req s)))
        as (logs & Hlogs & Hall & _).
      exists (EvRoundTrip req (inr resp) :: logs). split.
      * unfold happened in *. rewrite Hlogs, Do_state, Hans. cbn [snd world trace].
        now rewrite <- app_assoc.
      * assert (E : countWrites (EvRoundTrip req (inr resp) :: logs) = 1%nat).
        { change (EvRoundTrip req (inr resp) :: logs)
            with ([EvRoundTrip req (inr resp)] ++ logs)%list.
          rewrite countWrites_app, (countWrites_none logs).
          - unfold countWrites. now rewrite filter_cons_True by apply Hw.
          - eapply Forall_impl; [exact Hall |]. now intros ev [_ H]. }
        rewrite E. split; [lia | reflexivity].
  - rewrite (writeBatch_not_sent env s bucket metrics err Hreq).
    exists []. split; [apply happened_refl |]. split; [cbn; lia | discriminate].
Qed.

Lemma isEnsureTraffic_not_write (bucket : string) (ev : Event) :
  isEnsureTraffic bucket ev = true -> isWrite ev = false.
Proof.
  destruct ev as [req res | l | msg | m]; cbn; try reflexivity.
  now destruct (GoHTTP.ReqBody req).
Qed.

Lemma writeBatches_writes (env : Env) (batches : list (string * list Metric)) (s : State) :
  exists delta,
    happened s (snd (writeBatches env batches s)) delta
    /\ (countWrites delta <= length batches)%nat
    /\ (fst (writeBatches env batches s) = None -> countWrites delta = length batches).
Proof.
  revert s. induction batches as [| [bucket metrics] rest IH]; intros s.
  - exists []. split; [apply happened_refl |]. split; [cbn; lia | reflexivity].
  - cbn [writeBatches]. unfold mbind, M_bind.
    destruct (ensureBucket_frame env bucket s) as (d1 & Hd1 & Hall1 & _).
    assert (H1 : countWrites d1 = 0%nat).
    { apply countWrites_none. eapply Forall_impl; [exact Hall1 |].
      apply isEnsureTraffic_not_write. }
    set (s1 := snd (ensureBucket env bucket s)) in *.
    destruct (writeBatch_writes env bucket metrics s1) as (d2 & Hd2 & Hle2 & Hnil2).
    set (s2 := snd (writeBatch env bucket metrics s1)) in *.
    destruct (fst (writeBatch env bucket metrics s1)) as [err |].
    + exists (d1 ++ d2)%list. cbn [fst snd mret M_ret length].
      split; [eapply happened_trans; eassumption |].
      rewrite countWrites_app, H1. split; [lia | discriminate].
    + destruct (IH s2) as (d3 & Hd3 & Hle3 & Hnil3).
      exists (d1 ++ d2 ++ d3)%list. cbn [length].
      split; [eapply happened_trans; [exact Hd1 | eapply happened_trans; eassumption] |].
      rewrite !countWrites_app, H1, (Hnil2 eq_refl). split; [lia |].
      intros Hnil. rewrite (Hnil3 Hnil). lia.
Qed.

(** X27: [Write] sends at most one write request for a batch and does
    not send one again.  Without routing at most one request goes out;
    with routing at most as many as there are batches; and in both cases
    exactly that many when [Write] returns nil. *)
Theorem Write_one_request_per_batch (env : Env) (metrics : list Metric) (s : State)
    (delta : list Event) :
  happened s (snd (Write env metrics s)) delta ->
  (BucketTag (client s) = "" ->
   (countWrites delta <= 1)%nat
   /\ (fst (Write env metrics s) = None -> countWrites delta = 1%nat))
  /\ (BucketTag (client s) <> "" ->
      (countWrites delta <= length (batchOrder env metrics s))%nat
      /\ (fst (Write env metrics s) = None ->
          countWrites delta = length (batchOrder env metrics s))).
Proof.
  intros Hdelta.
  destruct (Z.lt_ge_cases (now (world s)) (retryTime (client s))) as [Hgate | Hgate].
  { rewrite Write_gate_closed in * by exact Hgate.
    rewrite (happened_unique _ _ _ _ Hdelta (happened_refl s)). cbn [fst].
    split; intros _; (split; [cbn; lia | discriminate]). }
  split; intros Htag.
  - rewrite Write_default in * by assumption.
    destruct (writeBatch_writes env (Bucket (client s)) metrics s) as (d & Hd & Hle & Hnil).
    now rewrite (happened_unique _ _ _ _ Hdelta Hd).
  - rewrite Write_routed in * by assumption.
    destruct (groupMetrics_frame metrics ∅ s) as (_ & _ & (d0 & Hd0 & Hall0) & _).
    destruct (writeBatches_writes env (batchOrder env metrics s)
                (snd (groupMetrics metrics ∅ s))) as (d & Hd & Hle & Hnil).
    rewrite (happened_unique _ _ _ _ Hdelta (happened_trans _ _ _ _ _ Hd0 Hd)).
    rewrite countWrites_app, (countWrites_none d0).
    + now split.
    + eapply Forall_impl; [exact Hall0 |]. now intros ev [m ->].
Qed.

Lemma Write_one_request_per_batch_witness :
  ((countWrites (eventsSince Scenario.unrouted
                   (snd (Write Scenario.healthy [0%nat; 1%nat; 2%nat] Scenario.unrouted)))
    <= 1)%nat
   /\ countWrites (eventsSince Scenario.unrouted
                     (snd (Write Scenario.healthy [0%nat; 1%nat; 2%nat] Scenario.unrouted)))
      = 1%nat)
  /\ (countWrites (eventsSince Scenario.routed
                     (snd (Write Scenario.healthy [0%nat; 1%nat; 2%nat] Scenario.routed)))
      <= length (batchOrder Scenario.healthy [0%nat; 1%nat; 2%nat] Scenario.routed))%nat
  /\ countWrites (eventsSince Scenario.routed
                    (snd (Write Scenario.healthy [0%nat; 1%nat; 2%nat] Scenario.routed)))
     = length (batchOrder Scenario.healthy [0%nat; 1%nat; 2%nat] Scenario.routed).
Proof.
  split.
  - assert (Hd : happened Scenario.unrouted
                   (snd (Write Scenario.healthy [0%nat; 1%nat; 2%nat] Scenario.unrouted))
                   (eventsSince Scenario.unrouted
                      (snd (Write Scenario.healthy [0%nat; 1%nat; 2%nat] Scenario.unrouted))))
      by (vm_compute; reflexivity).
    assert (Htag : BucketTag (client Scenario.unrouted) = "") by reflexivity.
    destruct (proj1 (Write_one_request_per_batch Scenario.healthy [0%nat; 1%nat; 2%nat]
                       Scenario.unrouted _ Hd) Htag) as [Hle Hnil].
    split; [exact Hle |]. apply Hnil. vm_compute. reflexivity.
  - assert (Hd : happened Scenario.routed
                   (snd (Write Scenario.healthy [0%nat; 1%nat; 2%nat] Scenario.routed))
                   (eventsSince Scenario.routed
                      (snd (Write Scenario.healthy [0%nat; 1%nat; 2%nat] Scenario.routed))))
      by (vm_compute; reflexivity).
    assert (Htag : BucketTag (client Scenario.routed) <> "") by (vm_compute; discriminate).
    destruct (proj2 (Write_one_request_per_batch Scenario.healthy [0%nat; 1%nat; 2%nat]
                       Scenario.routed _ Hd) Htag) as [Hle Hnil].
    split; [exact Hle |]. apply Hnil. vm_compute. reflexivity.
Defined.

(** X28: the empty input.  With routing there is no batch and [Write]
    does nothing at all; without routing [Write] still sends a write
    request, with an empty body, to the default bucket. *)
Theorem Write_empty (env : Env) (s : State) :
  retryTime (client s) <= now (world s) ->
  (BucketTag (client s) <> "" ->
   rangeOrder env (trace (world s)) [] = [] ->
   Write env [] s = (None, s))
  /\ (BucketTag (client s) = "" ->
      forall req : GoHTTP.Request,
        writeRequestOf env s (Bucket (client s)) [] = inl req ->
        (exists gzip, GoHTTP.ReqBody req = GoHTTP.LineProtocol gzip [])
        /\ exists tail,
             happened s (snd (Write env [] s)) (EvRoundTrip req (answer env s req) :: tail)).
Proof.
  intros Hgate. split.
  - intros Htag Hrange. rewrite Write_routed by assumption.
    unfold batchOrder. cbn [groupMetrics mret M_ret fst snd].
    rewrite map_to_list_empty, Hrange. reflexivity.
  - intros Htag req Hreq. rewrite Write_default by assumption.
    destruct (writeRequestOf_request env s _ [] req Hreq) as (_ & gzip & Hbody).
    split; [now exists gzip |].
    destruct (answer env s req) as [msg | resp] eqn:Hans.
    + rewrite (writeBatch_transport_error env s _ [] req msg Hreq Hans).
      exists [EvOnClientError msg]. unfold happened. cbn [snd world trace].
      now rewrite <- app_assoc.
    + rewrite (writeBatch_sent env s _ [] req resp Hreq Hans).
      destruct (writeBatchResponse_frame env (Bucket (client s)) resp (snd (Do env req s)))
        as (logs & Hlogs & _).
      exists logs. unfold happened in *. rewrite Hlogs, Do_state, Hans.
      cbn [snd world trace]. now rewrite <- app_assoc.
Qed.

Lemma Write_empty_witness :
  Write Scenario.healthy [] Scenario.routed = (None, Scenario.routed)
  /\ (exists gzip, GoHTTP.ReqBody (Scenario.writeRequest "default" [])
                   = GoHTTP.LineProtocol gzip [])
  /\ exists tail,
       happened Scenario.unrouted (snd (Write Scenario.healthy [] Scenario.unrouted))
         (EvRoundTrip (Scenario.writeRequest "default" [])
            (answer Scenario.healthy Scenario.unrouted (Scenario.writeRequest "default" []))
          :: tail).
Proof.
  split.
  - assert (Hgate : retryTime (client Scenario.routed) <= now (world Scenario.routed))
      by (vm_compute; discriminate).
    apply (proj1 (Write_empty Scenario.healthy Scenario.routed Hgate)).
    + vm_compute. discriminate.
    + reflexivity.
  - assert (Hgate : retryTime (client Scenario.unrouted) <= now (world Scenario.unrouted))
      by (vm_compute; discriminate).
    apply (proj2 (Write_empty Scenario.healthy Scenario.unrouted Hgate)).
    + reflexivity.
    + vm_compute. reflexivity.
Defined.

(** ** The batches of a routed [Write] *)

(** One turn of the first loop of [Write], with the batch it extends. *)
Lemma groupMetrics_step (metric : Metric) (rest : list Metric)
    (batches : gmap string (list Metric)) (s : State) :
  groupMetrics (metric :: rest) batches s
  = groupMetrics rest
      (<[bucketOf s metric :=
           (default [] (batches !! bucketOf s metric)
            ++ [if ExcludeBucketTag (client s)
                then fst (withoutTag metric (BucketTag (client s)) s) else metric])%list]>
         batches)
      (if ExcludeBucketTag (client s)
       then snd (withoutTag metric (BucketTag (client s)) s) else s).
Proof.
  cbn [groupMetrics]. unfold bucketOf, mbind, M_bind, getClient, GetTag. cbn [fst snd].
  destruct (match store (world s) !! metric with
            | Some d => match tags d !! BucketTag (client s) with
                        | Some v => (v, true)
                        | None => ("", false)
                        end
            | None => ("", false)
            end) as [value ok].
  set (bucket := if ok then value else Bucket (client s)).
  assert (E : forall m : Metric,
    <[bucket := (default [] (match batches !! bucket with
                             | Some _ => batches
                             | None => <[bucket := []]> batches
                             end !! bucket) ++ [m])%list]>
      (match batches !! bucket with
       | Some _ => batches
       | None => <[bucket := []]> batches
       end)
    = <[bucket := (default [] (batches !! bucket) ++ [m])%list]> batches).
  { intros m. destruct (batches !! bucket) as [l |] eqn:Hl.
    - now rewrite Hl.
    - rewrite lookup_insert_eq. cbn. now rewrite insert_insert_eq. }
  destruct (ExcludeBucketTag (client s)); cbn [mret M_ret fst snd]; now rewrite E.
Qed.

Lemma routedTo_cons (s : State) (bucket : string) (metric : Metric) (rest : list Metric) :
  routedTo s bucket (metric :: rest)
  = if decide (bucketOf s metric = bucket) then metric :: routedTo s bucket rest
    else routedTo s bucket rest.
Proof. unfold routedTo. now rewrite filter_cons. Qed.

Lemma groupMetrics_plain (metrics : list Metric) (batches : gmap string (list Metric))
    (s : State) :
  ExcludeBucketTag (client s) = false ->
  snd (groupMetrics metrics batches s) = s
  /\ forall bucket : string,
       fst (groupMetrics metrics batches s) !! bucket
       = match routedTo s bucket metrics with
         | [] => batches !! bucket
         | batch => Some (default [] (batches !! bucket) ++ batch)%list
         end.
Proof.
  intros Hex. revert batches. induction metrics as [| metric rest IH]; intros batches.
  - split; reflexivity.
  - rewrite groupMetrics_step, Hex.
    destruct (IH (<[bucketOf s metric :=
                      (default [] (batches !! bucketOf s metric) ++ [metric])%list]> batches))
      as [Hs Hb].
    split; [exact Hs |]. intros bucket. rewrite Hb, routedTo_cons.
    destruct (decide (bucketOf s metric = bucket)) as [<- | Hne].
    + rewrite lookup_insert_eq. cbn [default from_option id].
      destruct (routedTo s (bucketOf s metric) rest) as [| m l].
      * reflexivity.
      * now rewrite <- app_assoc.
    + now rewrite lookup_insert_ne.
Qed.

(** X29: routing with the tag left in place.  The first loop of
    [Write] changes nothing; the batch of a bucket is the metrics of the
    input that carry the bucket's name in the routing tag (or, for the
    default bucket, no routing tag), in the order of the input, and there
    is no batch for a bucket no metric goes to. *)
Theorem groupMetrics_keeps_tag (metrics : list Metric) (s : State) :
  ExcludeBucketTag (client s) = false ->
  snd (groupMetrics metrics ∅ s) = s
  /\ forall bucket : string,
       fst (groupMetrics metrics ∅ s) !! bucket
       = match routedTo s bucket metrics with
         | [] => None
         | batch => Some batch
         end.
Proof.
  intros Hex. destruct (groupMetrics_plain metrics ∅ s Hex) as [Hs Hb].
  split; [exact Hs |]. intros bucket. rewrite Hb, lookup_empty. reflexivity.
Qed.

Lemma groupMetrics_keeps_tag_witness :
  snd (groupMetrics [0%nat; 1%nat; 2%nat] ∅ Scenario.tagged) = Scenario.tagged
  /\ fst (groupMetrics [0%nat; 1%nat; 2%nat] ∅ Scenario.tagged) !! "a" = Some [0%nat]
  /\ fst (groupMetrics [0%nat; 1%nat; 2%nat] ∅ Scenario.tagged) !! "default" = Some [1%nat]
  /\ fst (groupMetrics [0%nat; 1%nat; 2%nat] ∅ Scenario.tagged) !! "c" = None.
Proof.
  assert (Hex : ExcludeBucketTag (client Scenario.tagged) = false) by reflexivity.
  destruct (groupMetrics_keeps_tag [0%nat; 1%nat; 2%nat] Scenario.tagged Hex) as [Hs Hb].
  split; [exact Hs |]. split; [| split].
  - exact (Hb "a").
  - exact (Hb "default").
  - exact (Hb "c").
Defined.

Lemma withoutTag_valid (metric : Metric) (key : string) (s : State) (d : MetricData) :
  store (world s) !! metric = Some d ->
  withoutTag metric key s
  = (length (store (world s)),
     mkState (client s)
       (mkWorld (now (world s)) (trace (world s) ++ [EvAccept (length (store (world s)))])
          (store (world s) ++ [removeTag key d]))).
Proof.
  intros Hd. unfold withoutTag, Copy, RemoveTag. munfold. rewrite Hd.
  cbn [fst snd client world now trace store]. do 3 f_equal.
  replace (length (store (world s))) with (length (store (world s)) + 0)%nat at 1 by lia.
  now rewrite alter_app_r.
Qed.

Lemma contents_app (st : list MetricData) (a b : list Metric) :
  contents st (a ++ b) = (contents st a ++ contents st b)%list.
Proof. unfold contents. apply omap_app. Qed.

Lemma contents_grow (st extra : list MetricData) (l : list Metric) :
  Forall (fun m => is_Some (st !! m)) l -> contents (st ++ extra)%list l = contents st l.
Proof.
  unfold contents. induction 1 as [| m l [d Hd] _ IH]; [reflexivity |].
  cbn [omap list_omap]. rewrite IH, (lookup_app_l_Some _ _ _ _ Hd), Hd. reflexivity.
Qed.

Lemma bucketOf_grow (s s' : State) (extra : list MetricData) (m : Metric) :
  client s' = client s ->
  store (world s') = (store (world s) ++ extra)%list ->
  is_Some (store (world s) !! m) ->
  bucketOf s' m = bucketOf s m.
Proof.
  intros Hc Hst [d Hd]. unfold bucketOf, GetTag. cbn [fst].
  now rewrite Hc, Hst, (lookup_app_l_Some _ _ _ _ Hd), Hd.
Qed.

Lemma routedTo_grow (s s' : State) (extra : list MetricData) (bucket : string)
    (l : list Metric) :
  client s' = client s ->
  store (world s') = (store (world s) ++ extra)%list ->
  Forall (fun m => is_Some (store (world s) !! m)) l ->
  routedTo s' bucket l = routedTo s bucket l.
Proof.
  intros Hc Hst. induction 1 as [| m l Hm _ IH]; [reflexivity |].
  rewrite !routedTo_cons, IH, (bucketOf_grow s s' extra m Hc Hst Hm). reflexivity.
Qed.

Lemma valid_grow (st extra : list MetricData) (l : list Metric) :
  Forall (fun m => is_Some (st !! m)) l ->
  Forall (fun m => is_Some ((st ++ extra)%list !! m)) l.
Proof.
  intros H. eapply Forall_impl; [exact H |]. intros m [d Hd]. exists d.
  now apply lookup_app_l_Some.
Qed.

Lemma Forall_routedTo (P : Metric -> Prop) (s : State) (bucket : string) (l : list Metric) :
  Forall P l -> Forall P (routedTo s bucket l).
Proof.
  induction 1 as [| m l Hm _ IH]; [constructor |].
  rewrite routedTo_cons. destruct (decide (bucketOf s m = bucket)); [now constructor | exact IH].
Qed.

Lemma groupMetrics_copies (metrics : list Metric) (batches : gmap string (list Metric))
    (s : State) :
  ExcludeBucketTag (client s) = true ->
  Forall (fun m => is_Some (store (world s) !! m)) metrics ->
  (forall b l, batches !! b = Some l -> Forall (fun m => is_Some (store (world s) !! m)) l) ->
  forall bucket : string,
    (fst (groupMetrics metrics batches s) !! bucket = None
     <-> batches !! bucket = None /\ routedTo s bucket metrics = [])
    /\ contents (store (world (snd (groupMetrics metrics batches s))))
         (default [] (fst (groupMetrics metrics batches s) !! bucket))
       = (contents (store (world s)) (default [] (batches !! bucket))
          ++ map (removeTag (BucketTag (client s)))
               (contents (store (world s)) (routedTo s bucket metrics)))%list.
Proof.
  intros Hex Hvalid. revert batches s Hex Hvalid.
  induction metrics as [| metric rest IH]; intros batches s Hex Hvalid Hbatches bucket.
  - unfold routedTo. rewrite filter_nil. cbn [groupMetrics mret M_ret fst snd].
    unfold contents at 3. cbn [omap list_omap map].
    rewrite app_nil_r. split; [| reflexivity]. split; [now intros -> | now intros [-> _]].
  - apply Forall_cons in Hvalid as [[d Hd] Hrest].
    rewrite groupMetrics_step, Hex, (withoutTag_valid _ _ _ d Hd). cbn [fst snd].
    set (n := (length (store (world s)) : Metric)).
    set (s1 := mkState (client s)
                 (mkWorld (now (world s)) (trace (world s) ++ [EvAccept n])
                    (store (world s) ++ [removeTag (BucketTag (client s)) d]))).
    set (batches1 := <[bucketOf s metric :=
                         (default [] (batches !! bucketOf s metric) ++ [n])%list]> batches).
    assert (Hc1 : client s1 = client s) by reflexivity.
    assert (Hst1 : store (world s1)
                   = (store (world s) ++ [removeTag (BucketTag (client s)) d])%list)
      by reflexivity.
    assert (Hn : store (world s1) !! n = Some (removeTag (BucketTag (client s)) d)).
    { rewrite Hst1. subst n. now rewrite list_lookup_middle. }
    assert (Hold : Forall (fun m => is_Some (store (world s) !! m))
                     (default [] (batches !! bucketOf s metric))).
    { destruct (batches !! bucketOf s metric) as [l |] eqn:Hl; [| constructor].
      exact (Hbatches _ l Hl). }
    assert (Hbatches1 : forall b l, batches1 !! b = Some l ->
                                    Forall (fun m => is_Some (store (world s1) !! m)) l).
    { intros b l. subst batches1. destruct (decide (bucketOf s metric = b)) as [<- | Hne].
      - rewrite lookup_insert_eq. intros [= <-]. apply Forall_app. split.
        + rewrite Hst1. now apply valid_grow.
        + constructor; [eexists; exact Hn | constructor].
      - rewrite lookup_insert_ne by exact Hne. intros Hl. rewrite Hst1.
        apply valid_grow. exact (Hbatches b l Hl). }
    destruct (IH batches1 s1 Hex ltac:(rewrite Hst1; now apply valid_grow) Hbatches1 bucket)
      as [Hnone Hcontents].
    rewrite (routedTo_grow s s1 _ bucket rest Hc1 Hst1 Hrest) in Hnone, Hcontents.
    rewrite Hcontents, Hnone, Hc1, routedTo_cons. clear Hnone Hcontents.
    assert (Hrouted : Forall (fun m => is_Some (store (world s) !! m))
                        (routedTo s bucket rest)).
    { now apply Forall_routedTo. }
    rewrite Hst1, (contents_grow _ _ _ Hrouted).
    subst batches1. destruct (decide (bucketOf s metric = bucket)) as [<- | Hne].
    + rewrite lookup_insert_eq. cbn [default from_option id]. split.
      * split; [now intros [[=] _] | now intros [_ [=]]].
      * rewrite contents_app, (contents_grow _ _ _ Hold).
        rewrite <- Hst1. unfold contents at 2. cbn [omap list_omap]. rewrite Hn.
        unfold contents at 4. cbn [omap list_omap]. rewrite Hd.
        cbn [map]. now rewrite <- app_assoc.
    + rewrite lookup_insert_ne by exact Hne. split; [reflexivity |].
      destruct (batches !! bucket) as [l |] eqn:Hl; cbn [default from_option id].
      * now rewrite (contents_grow _ _ _ (Hbatches _ l Hl)).
      * reflexivity.
Qed.

(** X30: routing with the tag taken out.  The batch of a bucket holds,
    for the metrics of the input that go to the bucket and in their
    order, copies that are these metrics without the routing tag; there
    is no batch for a bucket no metric goes to. *)
Theorem groupMetrics_strips_tag (metrics : list Metric) (s : State) :
  ExcludeBucketTag (client s) = true ->
  Forall (fun m => is_Some (store (world s) !! m)) metrics ->
  forall bucket : string,
    (fst (groupMetrics metrics ∅ s) !! bucket = None <-> routedTo s bucket metrics = [])
    /\ contents (store (world (snd (groupMetrics metrics ∅ s))))
         (default [] (fst (groupMetrics metrics ∅ s) !! bucket))
       = map (removeTag (BucketTag (client s)))
           (contents (store (world s)) (routedTo s bucket metrics)).
Proof.
  intros Hex Hvalid bucket.
  destruct (groupMetrics_copies metrics ∅ s Hex Hvalid
              ltac:(intros b l; now rewrite lookup_empty) bucket) as [Hnone Hcontents].
  rewrite Hcontents, Hnone, lookup_empty. split; [| reflexivity].
  split; [now intros [_ H] | now split].
Qed.

Lemma groupMetrics_strips_tag_witness :
  (fst (groupMetrics [0%nat; 1%nat; 2%nat] ∅ Scenario.routed) !! "a" = None
   <-> routedTo Scenario.routed "a" [0%nat; 1%nat; 2%nat] = [])
  /\ contents (store (world (snd (groupMetrics [0%nat; 1%nat; 2%nat] ∅ Scenario.routed))))
       (default [] (fst (groupMetrics [0%nat; 1%nat; 2%nat] ∅ Scenario.routed) !! "a"))
     = [Scenario.sent [("host", "h1")]].
Proof.
  assert (Hex : ExcludeBucketTag (client Scenario.routed) = true) by reflexivity.
  assert (Hvalid : Forall (fun m => is_Some (store (world Scenario.routed) !! m))
                     [0%nat; 1%nat; 2%nat]).
  { repeat constructor; eexists; reflexivity. }
  destruct (groupMetrics_strips_tag [0%nat; 1%nat; 2%nat] Scenario.routed Hex Hvalid "a")
    as [Hnone Hcontents].
  split; [exact Hnone |]. rewrite Hcontents. vm_compute. reflexivity.
Defined.
